(** * Zipline: upload ingestion and file management, verified against the handlers

    A shallow embedding of the two request handlers of the repository and of
    its configuration validator:

    - [Upload.handler]   -- the upload endpoint (the file with the multer
      uploader; authorization, header validation, partial uploads and their
      reassembly, naming, image compression, cooldown, response URLs);
    - [FilesApi.handler] -- [src/pages/api/user/files.ts] (DELETE, PATCH, GET);
    - [ConfigCheck.validator] -- the script that checks the settings of the
      configuration object (a pure function of that object).

    The handlers are asynchronous JavaScript that talks to a database
    (prisma), a blob store (datasource), the temporary directory and a few
    helpers.  Here a handler is a function from the state of these
    collaborators ([World]) to a response and a new state; every [await] is one
    step of a state-and-early-return monad ([Eff]).  Helpers whose code is not
    part of the sources ([parseExpiry], [randomChars], [hashPassword], ...) are
    fields of an environment record [Env].

    Not modelled: multer's reading of the request body (a request comes with
    [req.files] filled in), logging, the [withZipline] wrapper, the directory
    part of a temporary file's path, and the interleaving of two requests (a
    handler runs from start to end on the state it finds).  The collaborators
    do what they are asked: the database keeps the row it is given, and the
    image library and the blob store do not fail.

    Numbers are the integers and [NaN].  Where a theorem speaks of a number
    read from a header or written into a name, it says so for decimal
    integers of safe magnitude ([JS.decimal_literal], [JS.safe]), on which
    [JS.Number] and [JS.number_toString] are JavaScript's; and where it speaks
    of a chunk in the temporary directory, for identifiers that make the
    chunk's name one entry of that directory ([Session.plain_identifier]).

    The file has three parts: the JavaScript values and the data model; the
    handlers and the validator, definition by definition in the order of the
    source, with the line numbers of the source; and the proofs, one module
    per topic. *)

From Stdlib Require Import ZArith List String Ascii Bool Lia Permutation.
From Stdlib Require Import DecimalString DecimalZ.
Import ListNotations.
Local Open Scope string_scope.
Local Open Scope list_scope.
Local Open Scope Z_scope.

Set Implicit Arguments.

(* ================================================================= *)
(** ** JavaScript values the handlers compute with *)

Module JS.

(** A JavaScript number, on the fragment the handlers meet: integers and
    [NaN].  (Fractions and the infinities are not represented.) *)
Inductive number : Type :=
| NaN
| Fin (z : Z).

Definition isNaN (n : option number) : bool :=
  match n with Some NaN => true | _ => false end.

(** [a < b] on numbers where [null] converts to [0] and every comparison with
    [NaN] is false. *)
Definition to_Z (n : option number) : option Z :=
  match n with
  | None => Some 0
  | Some NaN => None
  | Some (Fin z) => Some z
  end.

Definition lt (a b : option number) : bool :=
  match to_Z a, to_Z b with
  | Some x, Some y => x <? y
  | _, _ => false
  end.

(** Truthiness of a number-or-null: [null], [NaN] and [0] are falsy. *)
Definition truthy_num (n : option number) : bool :=
  match n with
  | Some (Fin z) => negb (z =? 0)
  | _ => false
  end.

(** Truthiness of a string-or-undefined (a request header): [undefined] and
    the empty string are falsy. *)
Definition truthy (h : option string) : bool :=
  match h with
  | Some s => negb (s =? "")%string
  | None => false
  end.

(** [Number(s)].  It agrees with JavaScript on the empty string (0), on the
    decimal integers ([decimal_literal]) of [safe] magnitude, and on every
    text that is no numeric literal at all (as those of [opens_with_letter]).
    The other literals JavaScript accepts (a leading plus sign, surrounding
    blanks, fractions, exponents, radix prefixes, Infinity) lie outside
    [number] and read as [NaN] here: a statement about the handlers is made
    for headers of the first kind only. *)
Definition Number (s : string) : number :=
  if (s =? "")%string then Fin 0
  else match NilZero.int_of_string s with
       | Some d => Fin (Z.of_int d)
       | None => NaN
       end.

(** [Number.MAX_SAFE_INTEGER], 2^53 - 1.  Up to this magnitude every integer
    is a number of its own: [Number] reads a decimal integer exactly and a
    template literal writes it with all its digits.  Beyond it JavaScript
    rounds, and from 10^21 on it writes an exponent; neither is modelled. *)
Definition MAX_SAFE_INTEGER : Z := 9007199254740991.

Definition safe (z : Z) : Prop := - MAX_SAFE_INTEGER <= z <= MAX_SAFE_INTEGER.

Definition is_digit (c : ascii) : bool :=
  let n := nat_of_ascii c in ((48 <=? n) && (n <=? 57))%nat.

Fixpoint all_digits (s : string) : bool :=
  match s with
  | EmptyString => true
  | String c s' => is_digit c && all_digits s'
  end.

(** A decimal integer as a client writes it: digits, at least one, after an
    optional minus sign.  These are the texts on which [Number] is
    JavaScript's. *)
Definition decimal_literal (s : string) : bool :=
  match s with
  | String c s' =>
      if Ascii.eqb c "-" then negb (s' =? "")%string && all_digits s'
      else all_digits s
  | EmptyString => false
  end.

Definition is_letter (c : ascii) : bool :=
  let n := nat_of_ascii c in
  (((65 <=? n) && (n <=? 90)) || ((97 <=? n) && (n <=? 122)))%nat.

(** A text that opens with a letter other than [I].  No numeric literal of
    JavaScript does (the only word among them is [Infinity]), so [Number]
    gives [NaN] for it. *)
Definition opens_with_letter (s : string) : bool :=
  match s with
  | String c _ => is_letter c && negb (Ascii.eqb c "I")
  | EmptyString => false
  end.

(** [Number(x)] where [x] may be [undefined]. *)
Definition Number_opt (s : option string) : number :=
  match s with Some s => Number s | None => NaN end.

(** A number inside a template literal.  For an integer this is its decimal
    writing, which is JavaScript's for the [safe] integers. *)
Definition number_toString (n : number) : string :=
  match n with
  | NaN => "NaN"
  | Fin z => NilZero.string_of_int (Z.to_int z)
  end.

(** [`${x}`] for a value that may be [undefined]. *)
Definition template (x : option string) : string :=
  match x with Some s => s | None => "undefined" end.

Definition template_num (x : option number) : string :=
  match x with Some n => number_toString n | None => "undefined" end.

(** [s.split(sep)] for a one-character separator. *)
Fixpoint split (sep : ascii) (s : string) : list string :=
  match s with
  | EmptyString => [EmptyString]
  | String c s' =>
      if Ascii.eqb c sep then EmptyString :: split sep s'
      else match split sep s' with
           | [] => [String c EmptyString]
           | x :: xs => String c x :: xs
           end
  end.

Definition startsWith (s p : string) : bool := String.prefix p s.

(** [s.replace(pat, rep)] with a string pattern: the first occurrence only. *)
Definition replace (pat rep s : string) : string :=
  match String.index 0 pat s with
  | Some i =>
      String.substring 0 i s ++ rep
        ++ String.substring (i + String.length pat)
             (String.length s - (i + String.length pat)) s
  | None => s
  end.

Definition upper_ascii (c : ascii) : ascii :=
  let n := nat_of_ascii c in
  if ((97 <=? n) && (n <=? 122))%nat then ascii_of_nat (n - 32) else c.

(** [s.toUpperCase()] on ASCII text. *)
Fixpoint toUpperCase (s : string) : string :=
  match s with
  | EmptyString => EmptyString
  | String c s' => String (upper_ascii c) (toUpperCase s')
  end.

(** [xs.join(',')]. *)
Definition join (sep : string) (xs : list string) : string := String.concat sep xs.

(** [xs.includes(x)] on strings. *)
Definition includes (xs : list string) (x : string) : bool :=
  existsb (String.eqb x) xs.

(** The extension rule of both upload paths:
    [name.split('.').length === 1 ? '' : name.split('.').pop()]. *)
Definition extension (name : string) : string :=
  match split "." name with
  | [_] => ""
  | parts => last parts ""
  end.

(** [name.split('.')[0]]. *)
Definition stem (name : string) : string := hd "" (split "." name).

End JS.

(* ================================================================= *)
(** ** The data model: database rows, configuration, collaborators *)

Definition bytes := list Byte.byte.

(** Modelled from the spec: the enum [FileNameFormat] of the generated prisma
    client, whose declaration is not among the sources; the specification
    gives its members as RANDOM, DATE, UUID and NAME. *)
Inductive FileNameFormat : Type := UUID | DATE | RANDOM | NAME.

Definition FileNameFormat_keys : list string := ["UUID"; "DATE"; "RANDOM"; "NAME"].

(** [FileNameFormat[key]]. *)
Definition FileNameFormat_get (key : string) : option FileNameFormat :=
  if (key =? "UUID")%string then Some UUID
  else if (key =? "DATE")%string then Some DATE
  else if (key =? "RANDOM")%string then Some RANDOM
  else if (key =? "NAME")%string then Some NAME
  else None.

(** A row of the [user] table, as far as the handlers read it. *)
Module User.
Record t : Type := mk {
  id : Z;
  username : string;
  token : string;
  administrator : bool;
  domains : list string;
  ratelimit : option Z          (* a Date, in milliseconds; [None] is null *)
}.
Definition set_ratelimit (r : option Z) (u : t) : t :=
  mk (id u) (username u) (token u) (administrator u) (domains u) r.
End User.

(** A row of the [file] table, with the columns the handlers write and
    select.  [format = None] stands for the value [false] the upload handler
    passes when the format name is not a key of the enum; [mimetype = None]
    for an [undefined] partial-mimetype header.  The table keeps what it is
    given. *)
Module File.
Record t : Type := mk {
  id : Z;
  name : string;
  mimetype : option string;
  userId : Z;
  embed : bool;
  format : option FileNameFormat;
  password : option string;
  expiresAt : option Z;
  maxViews : option JS.number;
  originalName : option string;
  favorite : bool;
  views : Z;
  createdAt : Z
}.
Definition set_favorite (b : bool) (f : t) : t :=
  mk (id f) (name f) (mimetype f) (userId f) (embed f) (format f) (password f)
     (expiresAt f) (maxViews f) (originalName f) b (views f) (createdAt f).
End File.

(** A row of the [invisibleFile] table. *)
Module InvisibleFile.
Record t : Type := mk { invis : string; fileId : Z }.
End InvisibleFile.

(** Calls to collaborators whose effect lies outside the handlers: the image
    library, the notifier and the metadata stripper. *)
Inductive Event : Type :=
| SharpJpeg (file_name : string) (quality : option JS.number)
| SendUpload (user_id file_id : Z) (raw_url url : string)
| RemoveGPSData (file_id : Z).

(** A flat directory or bucket: names with their contents, in the order the
    entries were created. *)
Definition dir := list (string * bytes).

Module Dir.
Fixpoint write (n : string) (data : bytes) (d : dir) : dir :=
  match d with
  | [] => [(n, data)]
  | (m, old) :: d' =>
      if (m =? n)%string then (n, data) :: d' else (m, old) :: write n data d'
  end.

Fixpoint read (n : string) (d : dir) : option bytes :=
  match d with
  | [] => None
  | (m, data) :: d' => if (m =? n)%string then Some data else read n d'
  end.

Definition remove (n : string) (d : dir) : dir :=
  filter (fun e => negb (fst e =? n)%string) d.

Definition list_names (d : dir) : list string := map fst d.

(** The directory after the entries of these names were deleted. *)
Fixpoint remove_all (ns : list string) (d : dir) : dir :=
  match ns with
  | [] => d
  | n :: ns' => remove_all ns' (remove n d)
  end.
End Dir.

(** The state the handlers act on. *)
Record World : Type := mkWorld {
  users : list User.t;                 (* prisma.user *)
  files : list File.t;                 (* prisma.file *)
  invisibles : list InvisibleFile.t;   (* prisma.invisibleFile *)
  next_id : Z;                         (* the next autoincremented file id *)
  tmp : dir;                           (* os.tmpdir() *)
  blobs : dir;                         (* datasource *)
  events : list Event;                 (* collaborator calls, latest first *)
  tick : nat                           (* how many oracle calls were made *)
}.

Definition set_users us (w : World) : World :=
  mkWorld us (files w) (invisibles w) (next_id w) (tmp w) (blobs w) (events w) (tick w).
Definition set_files fs (w : World) : World :=
  mkWorld (users w) fs (invisibles w) (next_id w) (tmp w) (blobs w) (events w) (tick w).
Definition set_invisibles iv (w : World) : World :=
  mkWorld (users w) (files w) iv (next_id w) (tmp w) (blobs w) (events w) (tick w).
Definition set_next_id n (w : World) : World :=
  mkWorld (users w) (files w) (invisibles w) n (tmp w) (blobs w) (events w) (tick w).
Definition set_tmp d (w : World) : World :=
  mkWorld (users w) (files w) (invisibles w) (next_id w) d (blobs w) (events w) (tick w).
Definition set_blobs d (w : World) : World :=
  mkWorld (users w) (files w) (invisibles w) (next_id w) (tmp w) d (events w) (tick w).
Definition set_events ev (w : World) : World :=
  mkWorld (users w) (files w) (invisibles w) (next_id w) (tmp w) (blobs w) ev (tick w).
Definition set_tick n (w : World) : World :=
  mkWorld (users w) (files w) (invisibles w) (next_id w) (tmp w) (blobs w) (events w) n.

(** The process configuration ([zconfig]), as far as the handlers read it. *)
Record Config : Type := mkConfig {
  core_return_https : bool;
  uploader_default_expiration : option string;
  uploader_default_format : string;
  uploader_length : Z;
  uploader_format_date : string;
  uploader_disabled_extensions : list string;
  uploader_route : string;
  uploader_admin_limit : Z;
  uploader_user_limit : Z;
  ratelimit_admin : Z;
  ratelimit_user : Z;
  discord_upload : bool;
  exif_enabled : bool;
  exif_remove_gps : bool
}.

(** Helpers imported by the handlers whose code is not part of the sources,
    the sources of time and randomness, and two traits of the platform: the
    longest typed array, and the order in which a directory is listed.  The
    [nat] argument is the [tick] of the call, so that two calls need not
    agree. *)
Record Env : Type := mkEnv {
  parseExpiry : string -> option Z;        (* lib/utils/client; [None] is a falsy result *)
  hashPassword : string -> string;         (* lib/util *)
  randomChars : nat -> Z -> string;        (* lib/util *)
  invisChars : nat -> Z -> string;         (* the code createInvisImage picks *)
  randomUUID : nat -> string;              (* crypto *)
  dayjs_format : nat -> string -> string;  (* dayjs().format(pattern) *)
  Date_now : nat -> Z;                     (* Date.now() *)
  random_index : nat -> nat -> nat;        (* Math.floor(Math.random() * n) *)
  sharp_jpeg : option JS.number -> bytes -> bytes;  (* sharp(b).jpeg({quality}).toBuffer() *)
  formatRootUrl : string -> string -> string;       (* lib/utils/urls *)
  max_array_length : Z;          (* the longest typed array the runtime makes *)
  readdir_order : list string -> list string  (* the order the file system lists in *)
}.

(* ================================================================= *)
(** ** Handlers as state transformers with early return *)

Module Eff.
Section WithResponse.
Variable R : Type.

Inductive step (A : Type) : Type :=
| Next (a : A)
| Return (r : R).
Arguments Return {A} r.

Definition M (A : Type) : Type := World -> step A * World.

Definition ret {A} (a : A) : M A := fun w => (Next a, w).
Definition exit {A} (r : R) : M A := fun w => (Return r, w).
Definition bind {A B} (m : M A) (k : A -> M B) : M B :=
  fun w => match m w with
           | (Next a, w') => k a w'
           | (Return r, w') => (Return r, w')
           end.
Definition modify (f : World -> World) : M unit := fun w => (Next tt, f w).

(** A handler body always ends in a [return]. *)
Definition run (m : M R) : World -> R * World :=
  fun w => match m w with
           | (Next r, w') => (r, w')
           | (Return r, w') => (r, w')
           end.

(** [m] relates every start state to its end state by [P], however it ends. *)
Definition keeps (P : World -> World -> Prop) {A} (m : M A) : Prop :=
  forall w o w', m w = (o, w') -> P w w'.
End WithResponse.
Arguments Return {R A} r.
Arguments Next {R A} a.
Arguments ret {R A} a.
Arguments exit {R A} r.
Arguments modify {R} f.
End Eff.

Declare Scope eff_scope.
Delimit Scope eff_scope with eff.
Notation "x <- m ;; k" := (Eff.bind m (fun x => k))
  (at level 61, m at next level, right associativity) : eff_scope.
Notation "' pat <- m ;; k" := (Eff.bind m (fun x => match x with pat => k end))
  (at level 61, pat pattern, m at next level, right associativity) : eff_scope.
Notation "m ;; k" := (Eff.bind m (fun _ => k))
  (at level 61, right associativity) : eff_scope.

(* ================================================================= *)
(** ** The upload endpoint *)

Module Upload.
Import JS.
Local Open Scope eff_scope.

(** A file as multer hands it over ([req.files[i]]). *)
Record MulterFile : Type := mkFile {
  originalname : string;
  mimetype : string;
  size : Z;
  buffer : bytes
}.

(** A request after multer has run: the headers (names in lower case) and
    [req.files] ([None] when multer left it undefined). *)
Record Request : Type := mkRequest {
  headers : list (string * string);
  req_files : option (list MulterFile)
}.

(** [req.headers[k]]. *)
Fixpoint lookup (k : string) (hs : list (string * string)) : option string :=
  match hs with
  | [] => None
  | (k', v) :: hs' => if (k' =? k)%string then Some v else lookup k hs'
  end.

Definition header (req : Request) (k : string) : option string :=
  lookup k (headers req).

(** The body of a 200 answer: [{ files, expiresAt?, removed_gps? }]. *)
Record Body : Type := mkBody {
  body_files : list string;
  body_expiresAt : option Z;
  body_removed_gps : bool
}.

Inductive Response : Type :=
| Forbidden (msg : string)        (* res.forbidden *)
| BadRequest (msg : string)       (* res.badRequest *)
| Error (msg : string)            (* res.error *)
| Ratelimited (remaining : Z)     (* res.ratelimited *)
| Json (body : Body)              (* res.json(response) *)
| JsonSuccess                     (* res.json({ success: true }) *)
| Text (body : string)            (* text/plain, res.end *)
| Threw (exn : string).           (* an exception leaves the handler *)

Definition M := Eff.M Response.
Definition throw {A} (exn : string) : M A := Eff.exit (Threw exn).

(** *** The collaborators' operations on the world *)

(** One call of a source of time or randomness: the current tick, which is
    then advanced. *)
Definition oracle : M nat :=
  fun w => (Eff.Next (tick w), set_tick (S (tick w)) w).

Definition emit (e : Event) : M unit :=
  Eff.modify (fun w => set_events (e :: events w) w).

(** [prisma.user.findFirst({ where: { token } })]. *)
Definition user_findFirst_token (tok : string) : M (option User.t) :=
  fun w => (Eff.Next (find (fun u => (User.token u =? tok)%string) (users w)), w).

(** [prisma.user.update({ where: { id }, data: { ratelimit } })]. *)
Definition user_update_ratelimit (uid : Z) (r : option Z) : M unit :=
  Eff.modify (fun w =>
    set_users (map (fun u => if User.id u =? uid then User.set_ratelimit r u else u)
                   (users w)) w).

(** [prisma.file.findFirst({ where: { name } })]. *)
Definition file_findFirst_name (n : string) : M (option File.t) :=
  fun w => (Eff.Next (find (fun f => (File.name f =? n)%string) (files w)), w).

(** The columns [prisma.file.create] is given. *)
Record FileData : Type := mkData {
  d_name : string;
  d_mimetype : option string;
  d_userId : Z;
  d_embed : bool;
  d_format : option FileNameFormat;
  d_password : option string;
  d_expiresAt : option Z;
  d_maxViews : option number;
  d_originalName : option string
}.

(** [prisma.file.create({ data })]: the row gets the next id, the creation
    time and the column defaults (not a favorite, no views). *)
Definition new_row (env : Env) (d : FileData) (w : World) : File.t :=
  File.mk (next_id w) (d_name d) (d_mimetype d) (d_userId d) (d_embed d)
    (d_format d) (d_password d) (d_expiresAt d) (d_maxViews d)
    (d_originalName d) false 0 (Date_now env (tick w)).

Definition file_create (env : Env) (d : FileData) : M File.t :=
  fun w =>
    (Eff.Next (new_row env d w),
     set_tick (S (tick w))
       (set_next_id (next_id w + 1) (set_files (files w ++ [new_row env d w]) w))).

(** [createInvisImage(length, fileId)] of lib/util: a row with a fresh code. *)
Definition createInvisImage (env : Env) (len : Z) (fid : Z) : M InvisibleFile.t :=
  t <- oracle ;;
  let row := InvisibleFile.mk (invisChars env t len) fid in
  Eff.modify (fun w => set_invisibles (invisibles w ++ [row]) w) ;;
  Eff.ret row.

(** [writeFile(join(tmpdir(), n), data)] for a name [n] that is one entry of
    the directory.  A name with a path separator in it would be a path into
    another directory, which a flat directory cannot tell; the statements
    about chunks are made for names without one ([Session.plain_identifier]). *)
Definition writeFile (n : string) (data : bytes) : M unit :=
  Eff.modify (fun w => set_tmp (Dir.write n data (tmp w)) w).
(** [readdir(tmpdir())]: the names of the entries, in the order the file
    system chooses. *)
Definition readdir (env : Env) : M (list string) :=
  fun w => (Eff.Next (readdir_order env (Dir.list_names (tmp w))), w).
Definition readFile (n : string) : M bytes :=
  fun w => match Dir.read n (tmp w) with
           | Some b => (Eff.Next b, w)
           | None => (Eff.Return (Threw "ENOENT"), w)
           end.
Definition unlink (n : string) : M unit :=
  fun w => match Dir.read n (tmp w) with
           | Some _ => (Eff.Next tt, set_tmp (Dir.remove n (tmp w)) w)
           | None => (Eff.Return (Threw "ENOENT"), w)
           end.
(** [datasource.save(name, data)]. *)
Definition datasource_save (n : string) (data : bytes) : M unit :=
  Eff.modify (fun w => set_blobs (Dir.write n data (blobs w)) w).

(** *** Typed arrays *)

(** [new Uint8Array(total)]: [undefined] and [NaN] give length 0; a negative
    length, and one beyond what the runtime allocates, is a RangeError. *)
Definition Uint8Array_new (env : Env) (total : option number) : option bytes :=
  match total with
  | Some (Fin z) =>
      if (z <? 0) || (max_array_length env <? z) then None
      else Some (repeat Byte.x00 (Z.to_nat z))
  | _ => Some []
  end.

(** [target.set(source, offset)]: the offset [NaN] counts as 0; a negative
    offset or a source that does not fit is a RangeError. *)
Definition Uint8Array_set (target source : bytes) (offset : number) : option bytes :=
  let o := match offset with NaN => 0 | Fin z => z end in
  if (o <? 0) || (Z.of_nat (List.length target) <? o + Z.of_nat (List.length source))
  then None
  else Some (firstn (Z.to_nat o) target ++ source
               ++ skipn (Z.to_nat o + List.length source) target).

(** *** Lines 40-70: the parameters read from the headers *)

Record Params : Type := mkParams {
  expiry : option Z;
  format : option FileNameFormat;
  imageCompressionPercent : option number;
  fileMaxViews : option number
}.

Definition set_expiresAt (e : option Z) (r : Body) : Body :=
  mkBody (body_files r) e (body_removed_gps r).
Definition push_file (url : string) (r : Body) : Body :=
  mkBody (body_files r ++ [url]) (body_expiresAt r) (body_removed_gps r).
Definition set_removed_gps (r : Body) : Body :=
  mkBody (body_files r) (body_expiresAt r) true.

(** Lines 40-55.  The header is read first and the configured default
    second; each [if] stands alone, as in the source. *)
Definition read_expiry (env : Env) (cfg : Config) (req : Request) : M (option Z * Body) :=
  let response := mkBody [] None false in
  let expiresAt := header req "expires-at" in
  '(expiry, response) <-
     (if truthy expiresAt then
        match parseExpiry env (template expiresAt) with
        | None => Eff.exit (BadRequest "invalid date")
        | Some e => Eff.ret (Some e, set_expiresAt (Some e) response)
        end
      else Eff.ret (None, response)) ;;
  expiry <-
     (if truthy (uploader_default_expiration cfg) then
        match parseExpiry env (template (uploader_default_expiration cfg)) with
        | None => Eff.exit (BadRequest "invalid date (UPLOADER_DEFAULT_EXPIRATION)")
        | Some e => Eff.ret (Some e)
        end
      else Eff.ret expiry) ;;
  Eff.ret (expiry, response).

(** Line 57. *)
Definition rawFormat (cfg : Config) (req : Request) : string :=
  let upper :=
    toUpperCase (if truthy (header req "format") then template (header req "format") else "") in
  if (upper =? "")%string then uploader_default_format cfg else upper.

(** Line 58: [includes(rawFormat) && FileNameFormat[rawFormat]]; [None] is
    the value [false]. *)
Definition read_format (cfg : Config) (req : Request) : option FileNameFormat :=
  if includes FileNameFormat_keys (rawFormat cfg req)
  then FileNameFormat_get (rawFormat cfg req) else None.

(** Lines 60-62 and 68: [header ? Number(header) : null]. *)
Definition number_header (req : Request) (k : string) : option number :=
  if truthy (header req k) then Some (Number (template (header req k))) else None.

(** Lines 40-70 together. *)
Definition read_params (env : Env) (cfg : Config) (req : Request) : M (Params * Body) :=
  '(expiry, response) <- read_expiry env cfg req ;;
  let format := read_format cfg req in
  let imageCompressionPercent := number_header req "image-compression-percent" in
  if isNaN imageCompressionPercent
  then Eff.exit (BadRequest "invalid image compression percent (invalid number)") else
  if lt imageCompressionPercent (Some (Fin 0)) || lt (Some (Fin 100)) imageCompressionPercent
  then Eff.exit (BadRequest "invalid image compression percent (% < 0 || % > 100)") else
  let fileMaxViews := number_header req "max-views" in
  if isNaN fileMaxViews
  then Eff.exit (BadRequest "invalid max views (invalid number)") else
  if lt fileMaxViews (Some (Fin 0))
  then Eff.exit (BadRequest "invalid max views (max views < 0)") else
  Eff.ret (mkParams expiry format imageCompressionPercent fileMaxViews, response).

(** *** Pieces shared by the two upload paths *)

(** [`${ext ? '.' : ''}${ext}`]. *)
Definition dot_ext (ext : string) : string :=
  ((if (ext =? "") then "" else ".") ++ ext)%string.

(** The name given to [prisma.file.create] (lines 157 and 287). *)
Definition stored_name (fileName : string) (compressionUsed : bool) (ext : string) : string :=
  (fileName ++ (if compressionUsed then ".jpg" else dot_ext ext))%string.

(** Lines 147-150 and 278-281. *)
Definition read_password (env : Env) (req : Request) : option string :=
  if truthy (header req "password")
  then Some (hashPassword env (template (header req "password"))) else None.

Definition scheme (cfg : Config) : string :=
  if core_return_https cfg then "https" else "http".

(** [user.domains[Math.floor(Math.random() * user.domains.length)]]. *)
Definition random_domain (env : Env) (user : User.t) : M string :=
  t <- oracle ;;
  let n := List.length (User.domains user) in
  Eff.ret (nth (random_index env t n mod n)%nat (User.domains user) "undefined").

(** Lines 152 and 283: [imageCompressionPercent && mimetype.startsWith('image/')],
    as a truth value.  The method is called only when the percent is truthy;
    [None] is the TypeError of calling it on [undefined]. *)
Definition compression_used (percent : option number) (mimetype : option string)
  : option bool :=
  if truthy_num percent
  then option_map (fun mt => startsWith mt "image/") mimetype
  else Some false.

(** Lines 183-185 and 322-324. *)
Definition responseUrl (cfg : Config) (domain : string)
           (invis : option InvisibleFile.t) (file : File.t) : string :=
  (domain ++ (if (uploader_route cfg =? "/") then "/" else uploader_route cfg)
     ++ match invis with
        | Some iv => InvisibleFile.invis iv
        | None => File.name file
        end)%string.

(** Lines 189-191 and 328-330. *)
Definition notify (cfg : Config) (user : User.t) (domain : string)
           (invis : option InvisibleFile.t) (file : File.t) (url : string) : M unit :=
  if discord_upload cfg then
    emit (SendUpload (User.id user) (File.id file)
            (domain ++ "/r/" ++ match invis with
                                | Some iv => InvisibleFile.invis iv
                                | None => File.name file
                                end)%string url)
  else Eff.ret tt.

(** Lines 169 and 299. *)
Definition make_invis (env : Env) (cfg : Config) (req : Request) (file : File.t)
  : M (option InvisibleFile.t) :=
  if truthy (header req "zws") then
    iv <- createInvisImage env (uploader_length cfg) (File.id file) ;; Eff.ret (Some iv)
  else Eff.ret None.

Definition file_index (i : nat) : string := number_toString (Fin (Z.of_nat i)).

(** *** Lines 73-204: partial uploads *)

(** Lines 75-79: [bytes start-end/total] cut into numbers; a missing piece
    is [undefined]. *)
Definition parse_content_range (h : string)
  : option number * option number * option number :=
  let parts := map Number (split "/" (replace "-" "/" (replace "bytes " "" h))) in
  (nth_error parts 0, nth_error parts 1, nth_error parts 2).

(** Line 98: the name of a chunk in the temporary directory. *)
Definition partial_prefix (identifier : option string) : string :=
  ("zipline_partial_" ++ template identifier)%string.

Definition tempFile (identifier : option string) (start end_ : option number) : string :=
  (partial_prefix identifier ++ "_" ++ template_num start ++ "_" ++ template_num end_)%string.

(** Lines 107-110: the byte range read back from a chunk's name. *)
Record Chunk : Type := mkChunk {
  chunk_start : number;
  chunk_end : number;
  chunk_filename : string
}.

Definition readChunk (x : string) : Chunk :=
  let parts := split "_" x in
  mkChunk (Number_opt (nth_error parts 3)) (Number_opt (nth_error parts 4)) x.

(** Lines 115-122: every chunk is read, deleted and copied to its offset. *)
Fixpoint copy_chunks (readChunks : list Chunk) (chunks : bytes) : M bytes :=
  match readChunks with
  | [] => Eff.ret chunks
  | chunkData :: rest =>
      buffer <- readFile (chunk_filename chunkData) ;;
      unlink (chunk_filename chunkData) ;;
      match Uint8Array_set chunks buffer (chunk_start chunkData) with
      | None => throw "RangeError"
      | Some chunks' => copy_chunks rest chunks'
      end
  end.

(** Lines 103-122. *)
Definition reassemble (env : Env) (identifier : option string) (total : option number)
  : M bytes :=
  names <- readdir env ;;
  let partials := filter (fun x => startsWith x (partial_prefix identifier)) names in
  let readChunks := map readChunk partials in
  match Uint8Array_new env total with
  | None => throw "RangeError"
  | Some chunks => copy_chunks readChunks chunks
  end.

(** Lines 129-145: the name of a reassembled file. *)
Definition partial_fileName (env : Env) (cfg : Config) (format : option FileNameFormat)
           (filename : string) : M string :=
  match format with
  | Some RANDOM => t <- oracle ;; Eff.ret (randomChars env t (uploader_length cfg))
  | Some DATE => t <- oracle ;; Eff.ret (dayjs_format env t (uploader_format_date cfg))
  | Some UUID => t <- oracle ;; Eff.ret (randomUUID env t)
  | Some NAME => Eff.ret (stem filename)
  | None => t <- oracle ;; Eff.ret (randomChars env t (uploader_length cfg))
  end.

(** Lines 174-181: the domain of a reassembled file's URL. *)
Definition partial_domain (env : Env) (cfg : Config) (req : Request) (user : User.t)
  : M string :=
  if truthy (header req "override-domain") then
    Eff.ret (scheme cfg ++ "://" ++ template (header req "override-domain"))%string
  else if negb (Nat.eqb (List.length (User.domains user)) 0) then
    random_domain env user
  else
    Eff.ret (scheme cfg ++ "://" ++ template (header req "host"))%string.

(** Lines 155-167: the columns of a reassembled file's row. *)
Definition partial_data (env : Env) (req : Request) (user : User.t) (prm : Params)
           (filename : string) (mimetype : option string) (fileName : string)
           (compressionUsed : bool) : FileData :=
  mkData (stored_name fileName compressionUsed (extension filename)) mimetype (User.id user)
    (truthy (header req "embed")) (format prm) (read_password env req) (expiry prm)
    (fileMaxViews prm)
    (if truthy (header req "original-name") then Some filename else None).

(** Lines 193-198. *)
Definition partial_strip_gps (cfg : Config) (mimetype : option string) (file : File.t)
           (response : Body) : M Response :=
  if exif_enabled cfg && exif_remove_gps cfg then
    match mimetype with
    | None => throw "TypeError"
    | Some mt =>
        if startsWith mt "image/" then
          emit (RemoveGPSData (File.id file)) ;;
          Eff.ret (Json (set_removed_gps response))
        else Eff.ret (Json response)
    end
  else Eff.ret (Json response).

(** Lines 124-198: the reassembled bytes become a stored file. *)
Definition store_partial (env : Env) (cfg : Config) (req : Request) (user : User.t)
           (prm : Params) (response : Body) (filename mimetype : option string)
           (chunks : bytes) : M Response :=
  match filename with
  | None => throw "TypeError"
  | Some filename =>
    let ext := extension filename in
    if includes (uploader_disabled_extensions cfg) ext
    then Eff.exit (Error ("disabled extension recieved: " ++ ext)%string) else
    fileName <- partial_fileName env cfg (format prm) filename ;;
    match compression_used (imageCompressionPercent prm) mimetype with
    | None => throw "TypeError"
    | Some compressionUsed =>
    file <- file_create env
              (partial_data env req user prm filename mimetype fileName compressionUsed) ;;
    invis <- make_invis env cfg req file ;;
    datasource_save (File.name file) chunks ;;
    domain <- partial_domain env cfg req user ;;
    let url := responseUrl cfg domain invis file in
    notify cfg user domain invis file url ;;
    partial_strip_gps cfg mimetype file (push_file url response)
    end
  end.

(** Lines 102-199: the last chunk. *)
Definition finish_partial (env : Env) (cfg : Config) (req : Request) (user : User.t)
           (prm : Params) (response : Body)
           (filename mimetype identifier : option string) (total : option number)
  : M Response :=
  chunks <- reassemble env identifier total ;;
  store_partial env cfg req user prm response filename mimetype chunks.

(** Line 84: [req.headers['x-zipline-partial-lastchunk'] === 'true']. *)
Definition lastchunk (req : Request) : bool :=
  match header req "x-zipline-partial-lastchunk" with
  | Some v => (v =? "true")%string
  | None => false
  end.

(** Lines 73-204. *)
Definition partial_upload (env : Env) (cfg : Config) (req : Request) (user : User.t)
           (prm : Params) (response : Body) : M Response :=
  let '(start, end_, total) := parse_content_range (template (header req "content-range")) in
  let filename := header req "x-zipline-partial-filename" in
  let mimetype := header req "x-zipline-partial-mimetype" in
  let identifier := header req "x-zipline-partial-identifier" in
  (* line 100: req.files[0].buffer *)
  match req_files req with
  | Some (file0 :: _) =>
      writeFile (tempFile identifier start end_) (buffer file0) ;;
      if lastchunk req
      then finish_partial env cfg req user prm response filename mimetype identifier total
      else Eff.ret JsonSuccess
  | _ => throw "TypeError"
  end.

(** *** Lines 206-366: whole uploads *)

(** Lines 206-221. *)
Definition check_ratelimit (env : Env) (user : User.t) : M unit :=
  match User.ratelimit user with
  | Some until =>
      t <- oracle ;;
      let remaining := until - Date_now env t in
      if remaining <=? 0 then user_update_ratelimit (User.id user) None
      else Eff.exit (Ratelimited remaining)
  | None => Eff.ret tt
  end.

(** Lines 249-276: the name of a whole file. *)
Definition whole_fileName (env : Env) (cfg : Config) (req : Request)
           (format : option FileNameFormat) (i : nat) (file : MulterFile) : M string :=
  match format with
  | Some RANDOM => t <- oracle ;; Eff.ret (randomChars env t (uploader_length cfg))
  | Some DATE => t <- oracle ;; Eff.ret (dayjs_format env t (uploader_format_date cfg))
  | Some UUID => t <- oracle ;; Eff.ret (randomUUID env t)
  | Some NAME => Eff.ret (stem (originalname file))
  | None =>
      if truthy (header req "x-zipline-filename") then
        let fileName := template (header req "x-zipline-filename") in
        existing <- file_findFirst_name fileName ;;
        match existing with
        | Some _ =>
            Eff.exit (BadRequest ("file[" ++ file_index i ++ "]: filename already exists: '"
                                    ++ fileName ++ "'")%string)
        | None => Eff.ret fileName
        end
      else
        t <- oracle ;; Eff.ret (randomChars env t (uploader_length cfg))
  end.

(** Lines 312-320: the domain of a whole file's URL. *)
Definition whole_domain (env : Env) (cfg : Config) (req : Request) (user : User.t)
  : M string :=
  if truthy (header req "override-domain") then
    Eff.ret (scheme cfg ++ "://" ++ template (header req "override-domain"))%string
  else if negb (Nat.eqb (List.length (User.domains user)) 0) then
    randomDomain <- random_domain env user ;;
    Eff.ret (scheme cfg ++ "://" ++ randomDomain)%string
  else
    Eff.ret (scheme cfg ++ "://" ++ template (header req "host"))%string.

(** Line 283. *)
Definition whole_compressionUsed (prm : Params) (file : MulterFile) : bool :=
  truthy_num (imageCompressionPercent prm) && startsWith (mimetype file) "image/".

(** Lines 286-296: the columns of a whole file's row. *)
Definition whole_data (env : Env) (req : Request) (user : User.t) (prm : Params)
           (file : MulterFile) (fileName : string) : FileData :=
  let ext := extension (originalname file) in
  let compressionUsed := whole_compressionUsed prm file in
  mkData (stored_name fileName compressionUsed ext)
    (Some (if truthy (header req "uploadtext") then "text/plain"
           else if compressionUsed then "image/jpeg" else mimetype file))
    (User.id user) (truthy (header req "embed")) (format prm) (read_password env req)
    (expiry prm) (fileMaxViews prm)
    (if truthy (header req "original-name") then Some (originalname file) else None).

(** Lines 301-309: the bytes go to the blob store, through the image library
    when compression is used. *)
Definition save_upload (env : Env) (prm : Params) (file : MulterFile) (fileUpload : File.t)
  : M unit :=
  if whole_compressionUsed prm file then
    emit (SharpJpeg (File.name fileUpload) (imageCompressionPercent prm)) ;;
    datasource_save (File.name fileUpload)
      (sharp_jpeg env (imageCompressionPercent prm) (buffer file))
  else datasource_save (File.name fileUpload) (buffer file).

(** Lines 332-335. *)
Definition strip_gps (cfg : Config) (fileUpload : File.t) (response : Body) : M Body :=
  if exif_enabled cfg && exif_remove_gps cfg
     && startsWith (template (File.mimetype fileUpload)) "image/"
  then emit (RemoveGPSData (File.id fileUpload)) ;; Eff.ret (set_removed_gps response)
  else Eff.ret response.

(** Lines 239-335: one turn of the loop over [req.files]. *)
Definition upload_file (env : Env) (cfg : Config) (req : Request) (user : User.t)
           (prm : Params) (i : nat) (file : MulterFile) (response : Body) : M Body :=
  if (if User.administrator user then uploader_admin_limit cfg else uploader_user_limit cfg)
       <? size file
  then Eff.exit (BadRequest ("file[" ++ file_index i ++ "]: size too big")%string) else
  if (originalname file =? "")%string
  then Eff.exit (BadRequest ("file[" ++ file_index i ++ "]: no filename")%string) else
  let ext := extension (originalname file) in
  if includes (uploader_disabled_extensions cfg) ext
  then Eff.exit (BadRequest ("file[" ++ file_index i ++ "]: disabled extension recieved: "
                               ++ ext)%string) else
  fileName <- whole_fileName env cfg req (format prm) i file ;;
  fileUpload <- file_create env (whole_data env req user prm file fileName) ;;
  invis <- make_invis env cfg req fileUpload ;;
  save_upload env prm file fileUpload ;;
  domain <- whole_domain env cfg req user ;;
  let url := responseUrl cfg domain invis fileUpload in
  notify cfg user domain invis fileUpload url ;;
  strip_gps cfg fileUpload (push_file url response).

(** Lines 238-336: the loop. *)
Fixpoint upload_files (env : Env) (cfg : Config) (req : Request) (user : User.t)
         (prm : Params) (i : nat) (fs : list MulterFile) (response : Body) : M Body :=
  match fs with
  | [] => Eff.ret response
  | file :: rest =>
      response' <- upload_file env cfg req user prm i file response ;;
      upload_files env cfg req user prm (S i) rest response'
  end.

(** Lines 338-358: the cooldown after a batch.  The inner test of the second
    branch is the source's. *)
Definition update_cooldown (env : Env) (cfg : Config) (user : User.t) : M unit :=
  if User.administrator user && (0 <? ratelimit_admin cfg) then
    t <- oracle ;;
    user_update_ratelimit (User.id user) (Some (Date_now env t + ratelimit_admin cfg * 1000))
  else if negb (User.administrator user) && (0 <? ratelimit_user cfg) then
    if User.administrator user && (0 <? ratelimit_user cfg) then
      t <- oracle ;;
      user_update_ratelimit (User.id user) (Some (Date_now env t + ratelimit_user cfg * 1000))
    else Eff.ret tt
  else Eff.ret tt.

(** Lines 206-365. *)
Definition whole_upload (env : Env) (cfg : Config) (req : Request) (user : User.t)
           (prm : Params) (response : Body) : M Response :=
  check_ratelimit env user ;;
  match req_files req with
  | None => Eff.exit (BadRequest "no files")
  | Some fs =>
      if Nat.eqb (List.length fs) 0 then Eff.exit (BadRequest "no files") else
      response' <- upload_files env cfg req user prm 0 fs response ;;
      update_cooldown env cfg user ;;
      if truthy (header req "no-json")
      then Eff.ret (Text (join "," (body_files response')))
      else Eff.ret (Json response')
  end.

(** *** Observations on a world *)

Definition is_sharp (e : Event) : bool :=
  match e with SharpJpeg _ _ => true | _ => false end.

(** How many times the image library has been called. *)
Definition sharp_calls (w : World) : nat := List.length (filter is_sharp (events w)).

(** Two states with the same rows, bytes and image-library calls; codes of
    invisible files, the notifier's log and the tick may differ. *)
Definition quiet (w w' : World) : Prop :=
  users w' = users w /\ files w' = files w /\ blobs w' = blobs w /\ tmp w' = tmp w
  /\ next_id w' = next_id w /\ sharp_calls w' = sharp_calls w.

(** What a request of the user [uid] may do to the tables and to the blob
    store: add rows of [uid] to the file table, add rows to the table of
    invisible names, change cooldowns, and add or replace stored objects.
    With [strict] the user table is not touched at all. *)
Definition only_adds (strict : bool) (uid : Z) (w w' : World) : Prop :=
  (exists rows, files w' = files w ++ rows /\ Forall (fun f => File.userId f = uid) rows)
  /\ (exists codes, invisibles w' = invisibles w ++ codes)
  /\ (if strict then users w' = users w
      else map (User.set_ratelimit None) (users w')
           = map (User.set_ratelimit None) (users w))
  /\ (forall n, Dir.read n (blobs w) <> None -> Dir.read n (blobs w') <> None).

(** The checks a file of a whole upload has to pass (lines 240-247 and
    265-270), on the state it meets: its size against the limit of the
    caller's role, its name, its extension, and a supplied name against the
    names in the table. *)
Definition rejected (cfg : Config) (req : Request) (user : User.t) (prm : Params)
           (file : MulterFile) (w : World) : bool :=
  ((if User.administrator user then uploader_admin_limit cfg else uploader_user_limit cfg)
     <? size file)
  || (originalname file =? "")%string
  || includes (uploader_disabled_extensions cfg) (extension (originalname file))
  || match format prm with
     | Some _ => false
     | None =>
         truthy (header req "x-zipline-filename")
         && match find (fun f => (File.name f
                                    =? template (header req "x-zipline-filename"))%string)
                       (files w) with
            | Some _ => true
            | None => false
            end
     end.


(** The compression percent header is not sent, or is a decimal integer from
    0 to 100. *)
Definition percent_accepted (h : option string) : Prop :=
  truthy h = false
  \/ exists s p, h = Some s /\ decimal_literal s = true /\ Number s = Fin p /\ 0 <= p <= 100.

(** The user table with the cooldown of user [uid] cleared. *)
Definition clear_cooldown (uid : Z) (us : list User.t) : list User.t :=
  map (fun u => if User.id u =? uid then User.set_ratelimit None u else u) us.

(** *** The handler (lines 22-366) *)

Definition handler_body (env : Env) (cfg : Config) (req : Request) : M Response :=
  if negb (truthy (header req "authorization"))
  then Eff.exit (Forbidden "no authorization") else
  found <- user_findFirst_token (template (header req "authorization")) ;;
  match found with
  | None => Eff.exit (Forbidden "authorization incorrect")
  | Some user =>
      '(prm, response) <- read_params env cfg req ;;
      (* handle partial uploads before ratelimits *)
      if truthy (header req "content-range")
      then partial_upload env cfg req user prm response
      else whole_upload env cfg req user prm response
  end.

Definition handler (env : Env) (cfg : Config) (req : Request) : World -> Response * World :=
  Eff.run (handler_body env cfg req).

End Upload.

(* ================================================================= *)
(** ** The file management endpoint ([src/pages/api/user/files.ts]) *)

Module FilesApi.
Import JS.
Local Open Scope eff_scope.

(** The methods [withZipline] lets through. *)
Inductive Method : Type := GET | DELETE | PATCH.

(** [req.body.favorite]: a boolean, [null], or absent. *)
Inductive Favorite : Type :=
| FavNull
| FavUndefined
| FavBool (b : bool).

Record Request : Type := mkRequest {
  method : Method;
  body_all : bool;                   (* the truth value of req.body.all *)
  body_id : option Z;                (* req.body.id *)
  body_favorite : Favorite;
  query_favorite : option string;    (* req.query.favorite *)
  query_filter : option string       (* req.query.filter *)
}.

(** An entry of the GET answer: the selected columns and the URL. *)
Record Entry : Type := mkEntry {
  e_createdAt : Z;
  e_expiresAt : option Z;
  e_name : string;
  e_mimetype : option string;
  e_id : Z;
  e_favorite : bool;
  e_views : Z;
  e_maxViews : option number;
  e_url : string
}.

Inductive Response : Type :=
| BadRequest (msg : string)
| JsonCount (count : nat)            (* res.json({ count }) *)
| JsonFile (file : File.t)           (* res.json(file), its password deleted *)
| JsonFiles (entries : list Entry)   (* res.json(files) *)
| Threw (exn : string).

Definition M := Eff.M Response.
Definition throw {A} (exn : string) : M A := Eff.exit (Threw exn).

(** [!req.body.id]: a missing id and the number 0 are falsy. *)
Definition truthy_id (i : option Z) : bool :=
  match i with Some z => negb (z =? 0) | None => false end.

Definition delete_password (f : File.t) : File.t :=
  File.mk (File.id f) (File.name f) (File.mimetype f) (File.userId f) (File.embed f)
    (File.format f) None (File.expiresAt f) (File.maxViews f) (File.originalName f)
    (File.favorite f) (File.views f) (File.createdAt f).

(** [prisma.file.findMany({ where: { userId } })]. *)
Definition file_findMany_user (uid : Z) : M (list File.t) :=
  fun w => (Eff.Next (filter (fun f => File.userId f =? uid) (files w)), w).

(** [prisma.file.deleteMany({ where: { userId } })]. *)
Definition file_deleteMany_user (uid : Z) : M nat :=
  fun w =>
    (Eff.Next (List.length (filter (fun f => File.userId f =? uid) (files w))),
     set_files (filter (fun f => negb (File.userId f =? uid)) (files w)) w).

(** [prisma.file.delete({ where: { id } })]: the deleted row; an exception
    when no row has the id. *)
Definition file_delete (fid : Z) : M File.t :=
  fun w =>
    match find (fun f => File.id f =? fid) (files w) with
    | Some f => (Eff.Next f, set_files (filter (fun f => negb (File.id f =? fid)) (files w)) w)
    | None => (Eff.Return (Threw "RecordNotFound"), w)
    end.

(** [prisma.file.update({ where: { id }, data: { favorite } })]: the updated
    row; [undefined] data leaves the column as it is. *)
Definition file_update_favorite (fid : Z) (fav : option bool) : M File.t :=
  fun w =>
    let upd f := match fav with Some b => File.set_favorite b f | None => f end in
    match find (fun f => File.id f =? fid) (files w) with
    | Some f =>
        (Eff.Next (upd f),
         set_files (map (fun f => if File.id f =? fid then upd f else f) (files w)) w)
    | None => (Eff.Return (Threw "RecordNotFound"), w)
    end.

(** [datasource.delete(name)]. *)
Definition datasource_delete (n : string) : M unit :=
  Eff.modify (fun w => set_blobs (Dir.remove n (blobs w)) w).

(** Lines 19-21. *)
Fixpoint delete_blobs (fs : list File.t) : M unit :=
  match fs with
  | [] => Eff.ret tt
  | f :: rest => datasource_delete (File.name f) ;; delete_blobs rest
  end.

(** [orderBy: { createdAt: 'desc' }], as an insertion sort; rows created at
    the same instant keep the order of the table. *)
Fixpoint insert_desc (f : File.t) (fs : list File.t) : list File.t :=
  match fs with
  | [] => [f]
  | g :: rest =>
      if File.createdAt g <=? File.createdAt f then f :: g :: rest
      else g :: insert_desc f rest
  end.

Definition orderBy_createdAt_desc (fs : list File.t) : list File.t :=
  fold_right insert_desc [] fs.

(** Newest first. *)
Inductive newest_first : list File.t -> Prop :=
| nf_nil : newest_first []
| nf_cons f fs :
    (forall g, In g fs -> File.createdAt g <= File.createdAt f) ->
    newest_first fs -> newest_first (f :: fs).

(** Lines 72-90: [prisma.file.findMany] with [where], [orderBy], [select]. *)
Definition file_findMany_list (uid : Z) (fav : bool) : M (list File.t) :=
  fun w =>
    (Eff.Next (orderBy_createdAt_desc
                 (filter (fun f => (File.userId f =? uid) && Bool.eqb (File.favorite f) fav)
                         (files w))), w).

(** Lines 92-94: the selected columns with the computed URL. *)
Definition entry_of (env : Env) (cfg : Config) (f : File.t) : Entry :=
  mkEntry (File.createdAt f) (File.expiresAt f) (File.name f) (File.mimetype f)
    (File.id f) (File.favorite f) (File.views f) (File.maxViews f)
    (formatRootUrl env (uploader_route cfg) (File.name f)).

(** [/^(video|audio|image|text)/.test(x.mimetype)]. *)
Definition is_media (e : Entry) : bool :=
  let m := template (e_mimetype e) in
  startsWith m "video" || startsWith m "audio" || startsWith m "image" || startsWith m "text".

Definition handler_body (env : Env) (cfg : Config) (req : Request) (user : User.t)
  : M Response :=
  match method req with
  | DELETE =>
      if body_all req then
        files <- file_findMany_user (User.id user) ;;
        delete_blobs files ;;
        count <- file_deleteMany_user (User.id user) ;;
        Eff.ret (JsonCount count)
      else
        if negb (truthy_id (body_id req)) then Eff.exit (BadRequest "no file id") else
        file <- file_delete (match body_id req with Some i => i | None => 0 end) ;;
        datasource_delete (File.name file) ;;
        Eff.ret (JsonFile (delete_password file))
  | PATCH =>
      if negb (truthy_id (body_id req)) then Eff.exit (BadRequest "no file id") else
      let fid := match body_id req with Some i => i | None => 0 end in
      match body_favorite req with
      | FavNull => throw "TypeError"      (* delete image.password on undefined *)
      | FavUndefined =>
          image <- file_update_favorite fid None ;; Eff.ret (JsonFile (delete_password image))
      | FavBool b =>
          image <- file_update_favorite fid (Some b) ;; Eff.ret (JsonFile (delete_password image))
      end
  | GET =>
      files <- file_findMany_list (User.id user) (truthy (query_favorite req)) ;;
      let entries := map (entry_of env cfg) files in
      let entries :=
        if truthy (query_filter req)
           && match query_filter req with Some v => (v =? "media")%string | None => false end
        then filter is_media entries else entries in
      Eff.ret (JsonFiles entries)
  end.

Definition handler (env : Env) (cfg : Config) (req : Request) (user : User.t)
  : World -> Response * World :=
  Eff.run (handler_body env cfg req user).

End FilesApi.

(* ================================================================= *)
(** ** The configuration validator *)

Module ConfigCheck.
Import JS.

(** A value inside the configuration object, as a parsed configuration file
    holds them (no functions). *)
#[warnings="-register-all"] Inductive value : Type :=
| VUndefined
| VNull
| VBool (b : bool)
| VNumber (n : number)
| VString (s : string)
| VArray (items : list value)
| VObject (fields : list (string * value)).

(** [typeof v]. *)
Definition typeof (v : value) : string :=
  match v with
  | VUndefined => "undefined"
  | VBool _ => "boolean"
  | VNumber _ => "number"
  | VString _ => "string"
  | VNull | VArray _ | VObject _ => "object"
  end.

(** [v === undefined]. *)
Definition is_undefined (v : value) : bool :=
  match v with VUndefined => true | _ => false end.

(** An own property of an object; a name bound twice has its first binding. *)
Fixpoint field (b : string) (fs : list (string * value)) : value :=
  match fs with
  | [] => VUndefined
  | (k, v) :: fs' => if (k =? b)%string then v else field b fs'
  end.

(** The index a property name stands for, when it is the decimal writing of
    a natural number. *)
Definition array_index (b : string) : option nat :=
  match Number b with
  | Fin z =>
      if (0 <=? z) && (number_toString (Fin z) =? b)%string
      then Some (Z.to_nat z) else None
  | NaN => None
  end.

(** [a[b]].  [None] is the TypeError of reading a property of [undefined] or
    [null].  Strings and arrays have their length and their elements.  What a
    value inherits from its prototype are functions, which [value] does not
    hold; none of the names the validator asks for is one of them. *)
Definition get (a : value) (b : string) : option value :=
  match a with
  | VUndefined | VNull => None
  | VBool _ | VNumber _ => Some VUndefined
  | VString s =>
      Some (if (b =? "length")%string then VNumber (Fin (Z.of_nat (String.length s)))
            else match array_index b with
                 | Some i => match String.get i s with
                             | Some c => VString (String c EmptyString)
                             | None => VUndefined
                             end
                 | None => VUndefined
                 end)
  | VArray items =>
      Some (if (b =? "length")%string then VNumber (Fin (Z.of_nat (List.length items)))
            else match array_index b with
                 | Some i => nth i items VUndefined
                 | None => VUndefined
                 end)
  | VObject fields => Some (field b fields)
  end.

(** Lines 3-5: [str.split('.').reduce((a,b) => a[b], obj)]. *)
Definition dot (str : string) (obj : value) : option value :=
  fold_left (fun a b => match a with Some v => get v b | None => None end)
            (split "." str) (Some obj).

(** Line 7. *)
Record Path : Type := mkPath { p_path : string; p_type : string }.

Definition path (p type : string) : Path := mkPath p type.

(** Lines 10-21. *)
Definition paths : list Path :=
  [ path "core.secure" "boolean";
    path "core.secret" "string";
    path "core.host" "string";
    path "core.port" "number";
    path "database.type" "string";
    path "database.url" "string";
    path "uploader.route" "string";
    path "uploader.embed_route" "string";
    path "uploader.length" "number";
    path "uploader.directory" "string" ].

(** The loop's counter and what the logger was given, oldest first. *)
Record Report : Type := mkReport { errors : Z; logged : list string }.

(** [Logger.get('config').error(msg); ++errors]. *)
Definition complain (msg : string) (r : Report) : Report :=
  mkReport (errors r + 1) (logged r ++ [msg]).

(** Lines 26-37: one turn of the loop; [None] when [dot] throws. *)
Definition check_path (config : value) (p : Path) (r : Report) : option Report :=
  match dot (p_path p) config with
  | None => None
  | Some value =>
      let r := if is_undefined value
               then complain ("there was no " ++ p_path p ++ " in config")%string r
               else r in
      let type := typeof value in
      let r := if negb (is_undefined value) && negb (type =? p_type p)%string
               then complain ("expected " ++ p_type p ++ " on " ++ p_path p
                                ++ ", but got " ++ type)%string r
               else r in
      Some r
  end.

(** How the loop ends: it ran through, or an exception left it. *)
Inductive Loop : Type :=
| Finished (r : Report)
| Crashed (r : Report).

(** Lines 25-38. *)
Fixpoint check_paths (config : value) (ps : list Path) (r : Report) : Loop :=
  match ps with
  | [] => Finished r
  | p :: rest =>
      match check_path config p r with
      | Some r' => check_paths config rest r'
      | None => Crashed r
      end
  end.

(** How the exported function ends: its promise resolves, the process exits,
    or its promise is rejected with an exception. *)
Inductive Outcome : Type :=
| Resolved
| Exited (code : Z)
| Threw (exn : string).

(** Lines 9-44: the exported function, with what it logged. *)
Definition validator (config : value) : Outcome * list string :=
  match check_paths config paths (mkReport 0 []) with
  | Crashed r => (Threw "TypeError", logged r)
  | Finished r =>
      if negb (errors r =? 0)
      then (Exited 1,
            logged r
              ++ [("exiting due to " ++ number_toString (Fin (errors r)) ++ " errors")%string])
      else (Resolved, logged r)
  end.

(** *** Observations on a configuration *)

(** The three objects the ten paths go through. *)
Definition sections : list string := ["core"; "database"; "uploader"].

(** [config[s]] can be read and is neither [undefined] nor [null]. *)
Definition has_section (config : value) (s : string) : bool :=
  match get config s with
  | None | Some VUndefined | Some VNull => false
  | Some _ => true
  end.

(** The setting at [p] is there and has the type asked for. *)
Definition satisfied (config : value) (p : Path) : bool :=
  match dot (p_path p) config with
  | Some v => negb (is_undefined v) && (typeof v =? p_type p)%string
  | None => false
  end.

(** The settings among [ps] that are missing or of another type. *)
Definition faults (config : value) (ps : list Path) : list Path :=
  filter (fun p => negb (satisfied config p)) ps.

(** What is logged about a setting that is missing or of another type. *)
Definition complaint (config : value) (p : Path) : string :=
  match dot (p_path p) config with
  | Some VUndefined | None => ("there was no " ++ p_path p ++ " in config")%string
  | Some v =>
      ("expected " ++ p_type p ++ " on " ++ p_path p ++ ", but got " ++ typeof v)%string
  end.

(** A configuration with every setting the validator asks for. *)
Definition sample : value :=
  VObject
    [ ("core", VObject [ ("secure", VBool false); ("secret", VString "changethis");
                         ("host", VString "0.0.0.0"); ("port", VNumber (Fin 3000)) ]);
      ("database", VObject [ ("type", VString "psql");
                             ("url", VString "postgres://localhost/zipline") ]);
      ("uploader", VObject [ ("route", VString "/u"); ("embed_route", VString "/a");
                             ("length", VNumber (Fin 6));
                             ("directory", VString "./uploads") ]) ].

(** The same with the port written as a string and no uploader directory. *)
Definition sample_with_two_faults : value :=
  VObject
    [ ("core", VObject [ ("secure", VBool false); ("secret", VString "changethis");
                         ("host", VString "0.0.0.0"); ("port", VString "3000") ]);
      ("database", VObject [ ("type", VString "psql");
                             ("url", VString "postgres://localhost/zipline") ]);
      ("uploader", VObject [ ("route", VString "/u"); ("embed_route", VString "/a");
                             ("length", VNumber (Fin 6)) ]) ].

(** A configuration file that has no [database] table. *)
Definition sample_without_database : value :=
  VObject
    [ ("core", VObject [ ("secure", VBool false); ("secret", VString "changethis");
                         ("host", VString "0.0.0.0"); ("port", VString "3000") ]);
      ("uploader", VObject [ ("route", VString "/u"); ("embed_route", VString "/a");
                             ("length", VNumber (Fin 6));
                             ("directory", VString "./uploads") ]) ].

End ConfigCheck.

(* ================================================================= *)
(** ** A partial-upload session, as the client sees it *)

Module Session.
Import JS.

(** Does [s] hold the character [c]? *)
Fixpoint has_char (c : ascii) (s : string) : bool :=
  match s with
  | EmptyString => false
  | String x s' => Ascii.eqb x c || has_char c s'
  end.

Definition backslash : ascii := ascii_of_nat 92.

(** An identifier that makes the chunk's name one entry of the temporary
    directory: no path separator, no NUL character, and short enough for the
    whole name (16 characters, the identifier, and two numbers of up to 16
    digits with their underscores) to fit the 255 bytes of an entry. *)
Definition plain_identifier (identifier : option string) : bool :=
  negb (has_char "/" (template identifier))
  && negb (has_char backslash (template identifier))
  && negb (has_char Ascii.zero (template identifier))
  && (String.length (template identifier) <=? 200)%nat.

(** The content-range header of the bytes [s] to [e] of [t], written with
    decimal numbers. *)
Definition content_range (s e t : Z) : string :=
  ("bytes " ++ number_toString (Fin s) ++ "-" ++ number_toString (Fin e)
     ++ "/" ++ number_toString (Fin t))%string.

(** A byte sequence cut into consecutive pieces: every piece with the offset
    of its first byte, counted from [off]. *)
Fixpoint pieces_from (off : nat) (ps : list bytes) : list (nat * bytes) :=
  match ps with
  | [] => []
  | p :: ps' => (off, p) :: pieces_from (off + List.length p) ps'
  end.

(** The name line 98 gives the chunk [c]: its content-range header reads
    [bytes start-end/total] with [end = start + length - 1]. *)
Definition chunk_name (identifier : option string) (c : nat * bytes) : string :=
  Upload.tempFile identifier (Some (Fin (Z.of_nat (fst c))))
    (Some (Fin (Z.of_nat (fst c + List.length (snd c)) - 1))).

(** [c] carries the bytes of [orig] from its offset on. *)
Definition slice_of (orig : bytes) (c : nat * bytes) : Prop :=
  (fst c + List.length (snd c) <= List.length orig)%nat
  /\ forall j, (j < List.length (snd c))%nat ->
                nth j (snd c) Byte.x00 = nth (fst c + j) orig Byte.x00.

Definition chunk_entry (identifier : option string) (c : nat * bytes) : string * bytes :=
  (chunk_name identifier c, snd c).

(** The temporary directory after the chunks [cs] were written, in this
    order, by line 100. *)
Definition store_chunks (identifier : option string) (cs : list (nat * bytes)) (d : dir)
  : dir :=
  fold_left (fun d c => Dir.write (chunk_name identifier c) (snd c) d) cs d.

(** A piece with a mark that tells whether it was sent.  What the stored
    file holds in the place of a piece: the piece itself when it was sent, as
    many zero bytes otherwise. *)
Definition blank (m : bool * bytes) : bytes :=
  if fst m then snd m else repeat Byte.x00 (List.length (snd m)).

(** The pieces that were sent, each with the offset of its first byte. *)
Fixpoint sent_from (off : nat) (marked : list (bool * bytes)) : list (nat * bytes) :=
  match marked with
  | [] => []
  | m :: rest =>
      (if fst m then [(off, snd m)] else [])
        ++ sent_from (off + List.length (snd m)) rest
  end.

End Session.

(* ================================================================= *)
(** ** A concrete deployment, for the examples *)

Module Scenario.
Import JS.

Definition ascii_bytes (s : string) : bytes := list_byte_of_string s.

Definition tag (prefix : string) (t : nat) : string :=
  (prefix ++ number_toString (Fin (Z.of_nat t)))%string.

(** Deterministic stand-ins for the helpers: a date is "parsed" when it is a
    digit string (its value, in seconds), random names are numbered by the
    call that produced them, and the image library prefixes a marker byte.
    Typed arrays go up to 2^32 bytes, and a directory is listed in the order
    in which its entries were created. *)
Definition env : Env :=
  mkEnv (fun s => match Number s with Fin z => if 0 <? z then Some (z * 1000) else None
                                 | NaN => None end)
        (fun s => ("hash:" ++ s)%string)
        (fun t _ => tag "rnd" t)
        (fun t _ => tag "zws" t)
        (fun t => tag "uuid" t)
        (fun t _ => tag "date" t)
        (fun t => 1000000 + Z.of_nat t)
        (fun t _ => t)
        (fun _ b => Byte.xff :: b)
        (fun route n => (route ++ "/" ++ n)%string)
        4294967296
        (fun names => names).

(** The settings of the sample environment file: https links, RANDOM names
    of length 6 under /u, cooldowns of 5 s (users) and 3 s (administrators). *)
Definition cfg : Config :=
  mkConfig true None "RANDOM" 6 "YYYY-MM-DD" ["someext"] "/u"
           104900000 104900000 3 5 false false false.

Definition with_default_format (fmt : string) (c : Config) : Config :=
  mkConfig (core_return_https c) (uploader_default_expiration c) fmt
    (uploader_length c) (uploader_format_date c) (uploader_disabled_extensions c)
    (uploader_route c) (uploader_admin_limit c) (uploader_user_limit c)
    (ratelimit_admin c) (ratelimit_user c) (discord_upload c) (exif_enabled c)
    (exif_remove_gps c).

Definition with_default_expiration (e : option string) (c : Config) : Config :=
  mkConfig (core_return_https c) e (uploader_default_format c)
    (uploader_length c) (uploader_format_date c) (uploader_disabled_extensions c)
    (uploader_route c) (uploader_admin_limit c) (uploader_user_limit c)
    (ratelimit_admin c) (ratelimit_user c) (discord_upload c) (exif_enabled c)
    (exif_remove_gps c).

Definition alice : User.t := User.mk 1 "alice" "token-alice" true [] None.
Definition bob : User.t := User.mk 2 "bob" "token-bob" false [] None.
Definition carol : User.t := User.mk 3 "carol" "token-carol" false ["example.com"] None.

Definition world : World := mkWorld [alice; bob; carol] [] [] 1 [] [] [] 0.

Definition png : Upload.MulterFile :=
  Upload.mkFile "cat.png" "image/png" 10 (ascii_bytes "0123456789").

Definition pdf : Upload.MulterFile :=
  Upload.mkFile "a.pdf" "application/pdf" 4 (ascii_bytes "%PDF").

(** A row as a whole upload of [n] by user [uid] leaves it. *)
Definition row (fid uid : Z) (n mt : string) (fav : bool) (at_ : Z) : File.t :=
  File.mk fid n (Some mt) uid false (Some RANDOM) None None None None fav 0 at_.

End Scenario.

(* ================================================================= *)
(** ** Requests used in the examples *)

Module Requests.
Import Scenario.

(** Bob, who is no administrator, uploads one picture. *)
Definition bob_uploads : Upload.Request :=
  Upload.mkRequest [("authorization", "token-bob")] (Some [png]).

(** Alice, an administrator, uploads the same picture. *)
Definition alice_uploads : Upload.Request :=
  Upload.mkRequest [("authorization", "token-alice")] (Some [png]).

(** A chunk request whose files array is empty. *)
Definition empty_chunk : Upload.Request :=
  Upload.mkRequest [("authorization", "token-bob"); ("content-range", "bytes 0-4/10");
                    ("x-zipline-partial-identifier", "s1")] (Some []).

(** The same request with one file. *)
Definition first_chunk : Upload.Request :=
  Upload.mkRequest [("authorization", "token-bob"); ("content-range", "bytes 0-4/10");
                    ("x-zipline-partial-identifier", "s1")]
                   (Some [Upload.mkFile "blob" "application/octet-stream" 5
                            (ascii_bytes "hello")]).

(** A whole upload whose files array is empty. *)
Definition empty_batch : Upload.Request :=
  Upload.mkRequest [("authorization", "token-bob")] (Some []).

(** Bob asks for an expiry of his own while a default is configured. *)
Definition bob_uploads_with_expiry : Upload.Request :=
  Upload.mkRequest [("authorization", "token-bob"); ("expires-at", "2000")] (Some [png]).

(** Alice deletes, and marks as a favorite, the file with id 7. *)
Definition delete_7 : FilesApi.Request :=
  FilesApi.mkRequest FilesApi.DELETE false (Some 7) FilesApi.FavUndefined None None.

Definition favorite_7 : FilesApi.Request :=
  FilesApi.mkRequest FilesApi.PATCH false (Some 7) (FilesApi.FavBool true) None None.

Definition delete_all : FilesApi.Request :=
  FilesApi.mkRequest FilesApi.DELETE true None FilesApi.FavUndefined None None.

(** A world in which file 7, stored as [bob.txt], belongs to Bob (user 2) and
    file 8 to Alice (user 1). *)
Definition bobs_file : File.t := row 7 2 "bob.txt" "text/plain" false 500.
Definition alices_file : File.t := row 8 1 "alice.txt" "text/plain" false 600.

Definition world_with_files : World :=
  mkWorld [alice; bob; carol] [bobs_file; alices_file] [] 9 []
          [("bob.txt", ascii_bytes "bob's"); ("alice.txt", ascii_bytes "alice's")] [] 0.

(** Alice owns a favorite picture and a plain one; Bob owns a text file. *)
Definition alices_favorite : File.t := row 11 1 "fav.png" "image/png" true 700.
Definition alices_plain : File.t := row 12 1 "plain.png" "image/png" false 800.

Definition gallery : World :=
  mkWorld [alice; bob; carol] [alices_favorite; alices_plain; bobs_file] [] 13 [] [] [] 0.

(** GET with no query parameter, and GET with favorite=true. *)
Definition list_files : FilesApi.Request :=
  FilesApi.mkRequest FilesApi.GET false None FilesApi.FavUndefined None None.

Definition list_favorites : FilesApi.Request :=
  FilesApi.mkRequest FilesApi.GET false None FilesApi.FavUndefined (Some "true") None.

(** Carol, who has the custom domain example.com, sends a five-byte file as
    one chunk that is also the last, and the same bytes as a whole upload. *)
Definition carol_last_chunk : Upload.Request :=
  Upload.mkRequest
    [("authorization", "token-carol"); ("content-range", "bytes 0-4/5");
     ("x-zipline-partial-identifier", "s2"); ("x-zipline-partial-filename", "note.txt");
     ("x-zipline-partial-mimetype", "text/plain"); ("x-zipline-partial-lastchunk", "true");
     ("host", "zipline.local")]
    (Some [Upload.mkFile "blob" "application/octet-stream" 5 (ascii_bytes "hello")]).

Definition carol_whole : Upload.Request :=
  Upload.mkRequest [("authorization", "token-carol"); ("host", "zipline.local")]
    (Some [Upload.mkFile "note.txt" "text/plain" 5 (ascii_bytes "hello")]).

(** Bob names his upload himself: the format header names no strategy, and
    x-zipline-filename asks for "report". *)
Definition bob_names_report : Upload.Request :=
  Upload.mkRequest [("authorization", "token-bob"); ("format", "custom");
                    ("x-zipline-filename", "report")] (Some [pdf]).

(** The parameters the handler reads from that request. *)
Definition no_format : Upload.Params := Upload.mkParams None None None None.

(** A world in which Alice has stored report.pdf under the NAME format. *)
Definition alices_report : File.t :=
  File.mk 7 "report.pdf" (Some "application/pdf") 1 false (Some NAME) None None None None
          false 0 500.

Definition world_with_report : World :=
  mkWorld [alice; bob; carol] [alices_report] [] 8 []
          [("report.pdf", ascii_bytes "%PDF")] [] 0.

Definition empty_body : Upload.Body := Upload.mkBody [] None false.

(** Bob sends a format header that names no strategy, and no explicit name. *)
Definition bob_custom_format : Upload.Request :=
  Upload.mkRequest [("authorization", "token-bob"); ("format", "custom")] (Some [png]).

(** The deployment with UUID as the configured default format. *)
Definition cfg_uuid : Config := with_default_format "UUID" cfg.


Definition bob_percent_50 : Upload.Request :=
  Upload.mkRequest [("authorization", "token-bob"); ("image-compression-percent", "50")]
                   (Some [png]).


(** The parameters the handler reads from [bob_percent_50]. *)
Definition percent_50 : Upload.Params :=
  Upload.mkParams None (Some RANDOM) (Some (JS.Fin 50)) None.

(** A ten-byte file sent by Bob in two chunks, "hello" for bytes 0-4 and
    "world", marked last, for bytes 5-9, under the session identifier [sid]. *)
Definition chunk_hello (sid : string) : Upload.Request :=
  Upload.mkRequest
    [("authorization", "token-bob"); ("content-range", "bytes 0-4/10");
     ("x-zipline-partial-identifier", sid); ("x-zipline-partial-filename", "greeting.txt");
     ("x-zipline-partial-mimetype", "text/plain")]
    (Some [Upload.mkFile "blob" "application/octet-stream" 5 (ascii_bytes "hello")]).

Definition chunk_world (sid : string) : Upload.Request :=
  Upload.mkRequest
    [("authorization", "token-bob"); ("content-range", "bytes 5-9/10");
     ("x-zipline-partial-identifier", sid); ("x-zipline-partial-filename", "greeting.txt");
     ("x-zipline-partial-mimetype", "text/plain"); ("x-zipline-partial-lastchunk", "true")]
    (Some [Upload.mkFile "blob" "application/octet-stream" 5 (ascii_bytes "world")]).

(** The state after both requests, first chunk first. *)
Definition after_both_chunks (sid : string) : World :=
  snd (Upload.handler env cfg (chunk_world sid)
         (snd (Upload.handler env cfg (chunk_hello sid) world))).

(** A request without credentials, and one with a token that no user has. *)
Definition anonymous_upload : Upload.Request := Upload.mkRequest [] (Some [png]).

Definition stranger_upload : Upload.Request :=
  Upload.mkRequest [("authorization", "token-mallory")] (Some [png]).

(** Bob sends a chunk and asks for 150 percent compression, and a whole
    upload that may be viewed -1 times. *)
Definition bob_percent_150 : Upload.Request :=
  Upload.mkRequest [("authorization", "token-bob"); ("content-range", "bytes 0-4/10");
                    ("image-compression-percent", "150")] (Some [png]).

Definition bob_views_minus_1 : Upload.Request :=
  Upload.mkRequest [("authorization", "token-bob"); ("max-views", "-1")] (Some [png]).

(** Bob writes the compression percent as a word. *)
Definition bob_percent_half : Upload.Request :=
  Upload.mkRequest [("authorization", "token-bob"); ("image-compression-percent", "half")]
                   (Some [png]).

(** Bob while his cooldown lasts until the instant 1000500; the clock of the
    sample deployment reads 1000000 at the first call. *)
Definition bob_cooling : User.t := User.set_ratelimit (Some 1000500) bob.

Definition world_cooling : World := set_users [alice; bob_cooling; carol] world.

(** Bob sends three files at once; the second is larger than the limit. *)
Definition huge : Upload.MulterFile :=
  Upload.mkFile "big.bin" "application/octet-stream" 200000000 [].

Definition bob_three_files : Upload.Request :=
  Upload.mkRequest [("authorization", "token-bob")] (Some [png; huge; pdf]).

(** An archive whose name has two dots, and the parameters of an upload
    that asks for the NAME format. *)
Definition archive : Upload.MulterFile :=
  Upload.mkFile "backup.tar.gz" "application/gzip" 3 (ascii_bytes "...").

Definition by_name : Upload.Params := Upload.mkParams None (Some NAME) None None.

(** The last chunk of a session whose file name has the disabled extension
    of the sample deployment. *)
Definition chunk_world_disabled : Upload.Request :=
  Upload.mkRequest
    [("authorization", "token-bob"); ("content-range", "bytes 5-9/10");
     ("x-zipline-partial-identifier", "ab"); ("x-zipline-partial-filename", "greeting.someext");
     ("x-zipline-partial-mimetype", "text/plain"); ("x-zipline-partial-lastchunk", "true")]
    (Some [Upload.mkFile "blob" "application/octet-stream" 5 (ascii_bytes "world")]).

(** Bob asks for an invisible URL. *)
Definition bob_uploads_zws : Upload.Request :=
  Upload.mkRequest [("authorization", "token-bob"); ("zws", "true");
                    ("host", "zipline.local")] (Some [png]).

(** Alice marks her own file 8 as a favorite. *)
Definition favorite_8 : FilesApi.Request :=
  FilesApi.mkRequest FilesApi.PATCH false (Some 8) (FilesApi.FavBool true) None None.

(** The deployment with a default expiration that does not parse. *)
Definition cfg_bad_default : Config := with_default_expiration (Some "soon") cfg.

(** The chunk of [first_chunk] sent again with other bytes. *)
Definition first_chunk_again : Upload.Request :=
  Upload.mkRequest [("authorization", "token-bob"); ("content-range", "bytes 0-4/10");
                    ("x-zipline-partial-identifier", "s1")]
                   (Some [Upload.mkFile "blob" "application/octet-stream" 5
                            (ascii_bytes "HELLO")]).

(** Alice sends a PATCH for file 8 with [favorite: null], and one without a
    favorite field. *)
Definition patch_8_null : FilesApi.Request :=
  FilesApi.mkRequest FilesApi.PATCH false (Some 8) FilesApi.FavNull None None.

Definition patch_8_plain : FilesApi.Request :=
  FilesApi.mkRequest FilesApi.PATCH false (Some 8) FilesApi.FavUndefined None None.

End Requests.

(* ================================================================= *)
(** * Proofs *)

(** ** What a computation leaves alone *)

Section Frame.
Variable R : Type.
Variable P : World -> World -> Prop.
Hypothesis P_refl : forall w, P w w.
Hypothesis P_trans : forall w1 w2 w3, P w1 w2 -> P w2 w3 -> P w1 w3.

Lemma keeps_ret {A} (a : A) : Eff.keeps P (@Eff.ret R A a).
Proof. intros w o w' H. inversion H. apply P_refl. Qed.

Lemma keeps_exit {A} (r : R) : Eff.keeps P (@Eff.exit R A r).
Proof. intros w o w' H. inversion H. apply P_refl. Qed.

Lemma keeps_bind {A B} (m : Eff.M R A) (k : A -> Eff.M R B) :
  Eff.keeps P m -> (forall a, Eff.keeps P (k a)) -> Eff.keeps P (Eff.bind m k).
Proof.
  intros Hm Hk w o w' H. unfold Eff.bind in H.
  destruct (m w) as [[a | r] w1] eqn:E.
  - eapply P_trans; [eapply Hm; eassumption | eapply Hk; eassumption].
  - inversion H; subst. eapply Hm; eassumption.
Qed.

Lemma keeps_modify (f : World -> World) :
  (forall w, P w (f w)) -> Eff.keeps P (@Eff.modify R f).
Proof. intros Hf w o w' H. inversion H. apply Hf. Qed.

Lemma keeps_read {A} (g : World -> A) :
  Eff.keeps P (fun w => (@Eff.Next R A (g w), w)).
Proof. intros w o w' H. inversion H. apply P_refl. Qed.
End Frame.

(** Walks through a computation built from [bind], [ret], [exit], reads,
    updates and case distinctions; [side] proves what is asked of [P]. *)
Ltac frame_with side :=
  repeat first
    [ apply keeps_ret; side
    | apply keeps_exit; side
    | apply keeps_read; side
    | apply keeps_modify; side
    | apply keeps_bind; [ side | | intros ]
    | match goal with
      | |- Eff.keeps _ (if ?c then _ else _) => destruct c
      | |- Eff.keeps _ (match ?x with _ => _ end) => destruct x
      end ].

(** ** The cooldown (lines 338-358) *)

Module CooldownFacts.
Import Upload.

(** An administrator's cooldown is set when the configured one is positive. *)
Lemma update_cooldown_admin env cfg user w :
  User.administrator user = true -> 0 < ratelimit_admin cfg ->
  update_cooldown env cfg user w =
    (Eff.Next tt,
     set_users (map (fun u => if User.id u =? User.id user
                              then User.set_ratelimit
                                     (Some (Date_now env (tick w) + ratelimit_admin cfg * 1000)) u
                              else u) (users w))
               (set_tick (S (tick w)) w)).
Proof.
  intros Ha Hpos. unfold update_cooldown. rewrite Ha.
  apply Z.ltb_lt in Hpos. rewrite Hpos. reflexivity.
Qed.

(** Alice is an administrator and the configured cooldown is 3 seconds: at
    tick 0 the clock reads 1000000 and her cooldown becomes 1003000. *)
Lemma update_cooldown_admin_witness :
  update_cooldown Scenario.env Scenario.cfg Scenario.alice Scenario.world =
    (Eff.Next tt,
     set_users [User.set_ratelimit (Some 1003000) Scenario.alice; Scenario.bob; Scenario.carol]
               (set_tick 1 Scenario.world)).
Proof.
  exact (update_cooldown_admin Scenario.env Scenario.cfg Scenario.alice Scenario.world
           eq_refl eq_refl).
Defined.

(** For everyone else the second branch does nothing, whatever the
    configuration: its inner test asks for an administrator again. *)
Lemma update_cooldown_non_admin env cfg user :
  User.administrator user = false -> update_cooldown env cfg user = Eff.ret tt.
Proof.
  intros Ha. unfold update_cooldown. rewrite Ha. simpl.
  destruct (0 <? ratelimit_user cfg); reflexivity.
Qed.

(** C1 (the code departs from the claim).  Bob is no administrator and the
    configured user cooldown is 5 seconds; his batch of one file succeeds, and
    afterwards no user has a cooldown: Bob's was not set to now + 5 s. *)
Theorem non_admin_cooldown_is_not_set :
  exists body w',
    handler Scenario.env Scenario.cfg Requests.bob_uploads Scenario.world
      = (Json body, w')
    /\ (0 <? ratelimit_user Scenario.cfg) = true
    /\ map User.administrator (users w') = [true; false; false]
    /\ map User.ratelimit (users w') = [None; None; None].
Proof.
  eexists. eexists. split.
  - vm_compute. reflexivity.
  - repeat split.
Qed.

(** The same batch sent by Alice, an administrator with a cooldown of 3
    seconds, sets hers: the clock read 1000002 at that call. *)
Example admin_cooldown_is_set :
  map User.ratelimit
      (users (snd (handler Scenario.env Scenario.cfg Requests.alice_uploads Scenario.world)))
  = [Some (1000002 + 3 * 1000); None; None].
Proof. vm_compute. reflexivity. Qed.

End CooldownFacts.

(** ** Reading the parameters changes nothing *)

Module ParamFacts.
Import Upload JS.

Lemma read_expiry_pure env cfg req : Eff.keeps (fun w w' => w' = w) (read_expiry env cfg req).
Proof. unfold read_expiry. frame_with ltac:(intros; congruence). Qed.

Lemma read_params_pure env cfg req : Eff.keeps (fun w w' => w' = w) (read_params env cfg req).
Proof.
  unfold read_params.
  apply keeps_bind; [intros; congruence | apply read_expiry_pure | intros [e r] ].
  frame_with ltac:(intros; congruence).
Qed.

(** The numeric headers that pass lines 63-70 are [null] or numbers in range. *)
Lemma read_params_ok env cfg req w prm response w' :
  read_params env cfg req w = (Eff.Next (prm, response), w') ->
  format prm = read_format cfg req
  /\ imageCompressionPercent prm = number_header req "image-compression-percent"
  /\ fileMaxViews prm = number_header req "max-views"
  /\ isNaN (imageCompressionPercent prm) = false
  /\ lt (imageCompressionPercent prm) (Some (Fin 0)) = false
  /\ lt (Some (Fin 100)) (imageCompressionPercent prm) = false.
Proof.
  unfold read_params, Eff.bind. intros H.
  destruct (read_expiry env cfg req w) as [[[e r] | r] w1]; [ | discriminate].
  destruct (isNaN (number_header req "image-compression-percent")) eqn:E1; [discriminate | ].
  destruct (lt (number_header req "image-compression-percent") (Some (Fin 0))) eqn:E2;
    [discriminate | ].
  destruct (lt (Some (Fin 100)) (number_header req "image-compression-percent")) eqn:E3;
    [discriminate | ].
  simpl in H.
  destruct (isNaN (number_header req "max-views")); [discriminate | ].
  destruct (lt (number_header req "max-views") (Some (Fin 0))); [discriminate | ].
  inversion H; subst; simpl. repeat split; assumption.
Qed.

End ParamFacts.

(** ** What [Number] makes of a header *)

Module NumberFacts.
Import JS.

Lemma letter_is_no_digit c d : is_letter c = true -> uint_of_char c d = None.
Proof.
  intros H. destruct d as [d | ]; [ | reflexivity].
  destruct c as [[] [] [] [] [] [] [] []]; try discriminate H; reflexivity.
Qed.

Lemma letter_is_no_minus c : is_letter c = true -> Ascii.eqb c "-" = false.
Proof.
  intros H. destruct c as [[] [] [] [] [] [] [] []]; try discriminate H; reflexivity.
Qed.

(** A text that opens with a letter is not a number. *)
Lemma Number_opens_with_letter s : opens_with_letter s = true -> Number s = NaN.
Proof.
  destruct s as [ | c s]; [discriminate | ]. intros H.
  apply andb_true_iff in H. destruct H as [H _].
  unfold Number. change ((String c s =? "")%string) with false. cbv iota.
  unfold NilZero.int_of_string. rewrite (letter_is_no_minus c H).
  unfold NilZero.uint_of_string. cbn [NilEmpty.uint_of_string].
  rewrite (letter_is_no_digit c _ H). reflexivity.
Qed.

Lemma digit_is_read c d : is_digit c = true -> exists d', uint_of_char c (Some d) = Some d'.
Proof.
  intros H.
  destruct c as [[] [] [] [] [] [] [] []]; try discriminate H; eexists; reflexivity.
Qed.

Lemma all_digits_are_read s :
  all_digits s = true -> exists d, NilEmpty.uint_of_string s = Some d.
Proof.
  induction s as [ | c s IH]; simpl; intros H; [eexists; reflexivity | ].
  apply andb_true_iff in H. destruct H as [Hc Hs].
  destruct (IH Hs) as [d ->]. apply digit_is_read. exact Hc.
Qed.

(** A decimal integer is read as an integer. *)
Lemma Number_decimal_literal s : decimal_literal s = true -> exists z, Number s = Fin z.
Proof.
  destruct s as [ | c s]; [discriminate | ]. unfold decimal_literal. intros H.
  unfold Number. change ((String c s =? "")%string) with false. cbv iota.
  unfold NilZero.int_of_string.
  destruct (Ascii.eqb c "-").
  - apply andb_true_iff in H. destruct H as [Hne Hs].
    destruct s as [ | c' s]; [discriminate Hne | ].
    unfold NilZero.uint_of_string.
    destruct (all_digits_are_read _ Hs) as [d ->]. eexists. reflexivity.
  - unfold NilZero.uint_of_string.
    destruct (all_digits_are_read _ H) as [d ->]. eexists. reflexivity.
Qed.

Lemma decimal_literal_truthy s : decimal_literal s = true -> truthy (Some s) = true.
Proof. destruct s; [discriminate | reflexivity]. Qed.

Lemma opens_with_letter_truthy s : opens_with_letter s = true -> truthy (Some s) = true.
Proof. destruct s; [discriminate | reflexivity]. Qed.

End NumberFacts.

(** ** The expiry (lines 41-55) *)

Module ExpiryFacts.
Import Upload JS.

(** Without a configured default the header's instant is the expiry. *)
Lemma read_expiry_header_only env cfg req w h :
  truthy (header req "expires-at") = true ->
  parseExpiry env (template (header req "expires-at")) = Some h ->
  truthy (uploader_default_expiration cfg) = false ->
  read_expiry env cfg req w = (Eff.Next (Some h, mkBody [] (Some h) false), w).
Proof.
  intros Ht Hh Hd. unfold read_expiry, Eff.bind. rewrite Ht, Hh. simpl.
  rewrite Hd. reflexivity.
Qed.

(** No default is configured in the sample deployment: Bob's header "2000"
    is the expiry. *)
Lemma read_expiry_header_only_witness :
  read_expiry Scenario.env Scenario.cfg Requests.bob_uploads_with_expiry Scenario.world
  = (Eff.Next (Some 2000000, mkBody [] (Some 2000000) false), Scenario.world).
Proof.
  exact (read_expiry_header_only Scenario.env Scenario.cfg Requests.bob_uploads_with_expiry
           Scenario.world eq_refl eq_refl eq_refl).
Defined.

(** With a configured default, the second [if] runs after the first and
    overwrites [expiry]; the answer still reports the header's instant. *)
Lemma read_expiry_default_overwrites env cfg req w h d :
  truthy (header req "expires-at") = true ->
  parseExpiry env (template (header req "expires-at")) = Some h ->
  truthy (uploader_default_expiration cfg) = true ->
  parseExpiry env (template (uploader_default_expiration cfg)) = Some d ->
  read_expiry env cfg req w = (Eff.Next (Some d, mkBody [] (Some h) false), w).
Proof.
  intros Ht Hh Hdt Hd. unfold read_expiry, Eff.bind. rewrite Ht, Hh. simpl.
  rewrite Hdt, Hd. reflexivity.
Qed.

(** C6 (the code departs from the claim).  The default expiry is configured
    as "9000" and Bob sends expires-at "2000"; both parse.  The created row
    expires at the instant of the default, although the header was present
    and valid, while the answer reports the header's instant. *)
Theorem header_expiry_is_overwritten_by_default :
  exists body w',
    handler Scenario.env (Scenario.with_default_expiration (Some "9000") Scenario.cfg)
            Requests.bob_uploads_with_expiry Scenario.world = (Json body, w')
    /\ parseExpiry Scenario.env "2000" = Some 2000000
    /\ parseExpiry Scenario.env "9000" = Some 9000000
    /\ map File.expiresAt (files w') = [Some 9000000]
    /\ body_expiresAt body = Some 2000000.
Proof.
  eexists. eexists. split.
  - vm_compute. reflexivity.
  - repeat split.
Qed.

End ExpiryFacts.

(** ** Whose files DELETE and PATCH touch (files.ts, lines 11-61) *)

Module OwnershipFacts.
Import FilesApi.

(** Deleting all of one's files leaves the rows of every other user as they
    were: both queries of that branch are restricted to the caller's id. *)
Lemma delete_all_keeps_other_users env cfg req user w :
  method req = DELETE -> body_all req = true ->
  exists n,
    fst (handler env cfg req user w) = JsonCount n
    /\ files (snd (handler env cfg req user w))
       = filter (fun f => negb (File.userId f =? User.id user)) (files w).
Proof.
  intros Hm Ha. unfold handler, handler_body. rewrite Hm, Ha.
  unfold Eff.run, Eff.bind, file_findMany_user.
  assert (Hb : forall fs w0, exists w1, delete_blobs fs w0 = (Eff.Next tt, w1)
                                         /\ files w1 = files w0).
  { induction fs as [ | f fs IH]; intros w0; simpl.
    - eexists; split; reflexivity.
    - unfold Eff.bind, datasource_delete, Eff.modify.
      destruct (IH (set_blobs (Dir.remove (File.name f) (blobs w0)) w0)) as [w1 [E1 E2]].
      exists w1. split; [exact E1 | rewrite E2; reflexivity]. }
  destruct (Hb (filter (fun f => File.userId f =? User.id user) (files w)) w) as [w1 [E1 E2]].
  rewrite E1. unfold file_deleteMany_user. simpl. rewrite E2.
  eexists; split; reflexivity.
Qed.

(** Alice deletes all her files: Bob's row stays. *)
Lemma delete_all_keeps_other_users_witness :
  exists n,
    fst (handler Scenario.env Scenario.cfg Requests.delete_all Scenario.alice
                 Requests.world_with_files) = JsonCount n
    /\ files (snd (handler Scenario.env Scenario.cfg Requests.delete_all Scenario.alice
                          Requests.world_with_files)) = [Requests.bobs_file].
Proof.
  exact (delete_all_keeps_other_users Scenario.env Scenario.cfg Requests.delete_all
           Scenario.alice Requests.world_with_files eq_refl eq_refl).
Defined.

(** The other two operations never look at the caller: the same request gets
    the same answer and the same effect from every authenticated user. *)
Lemma by_id_operations_ignore_the_caller env cfg req user user' :
  (method req = DELETE /\ body_all req = false) \/ method req = PATCH ->
  handler env cfg req user = handler env cfg req user'.
Proof.
  intros [[Hm Ha] | Hm]; unfold handler, handler_body; rewrite Hm; try rewrite Ha;
    reflexivity.
Qed.

(** C2 (the code departs from the claim).  File 7 belongs to Bob.  Alice's
    DELETE with id 7 removes Bob's row and his stored bytes, and her PATCH
    with id 7 turns Bob's row into a favorite; her own file 8 is untouched
    both times. *)
Theorem delete_and_patch_reach_other_users_files :
  File.userId Requests.bobs_file = User.id Scenario.bob
  /\ (exists f w',
        handler Scenario.env Scenario.cfg Requests.delete_7 Scenario.alice
                Requests.world_with_files = (JsonFile f, w')
        /\ files w' = [Requests.alices_file]
        /\ blobs w' = [("alice.txt", Scenario.ascii_bytes "alice's")])
  /\ (exists f w',
        handler Scenario.env Scenario.cfg Requests.favorite_7 Scenario.alice
                Requests.world_with_files = (JsonFile f, w')
        /\ files w' = [File.set_favorite true Requests.bobs_file; Requests.alices_file]).
Proof.
  split; [reflexivity | split].
  - eexists. eexists. split; [vm_compute; reflexivity | split; reflexivity].
  - eexists. eexists. split; [vm_compute; reflexivity | reflexivity].
Qed.

(** The sibling branch keeps to the caller: Alice's "delete all" leaves
    Bob's row. *)
Example delete_all_spares_bob :
  files (snd (handler Scenario.env Scenario.cfg Requests.delete_all Scenario.alice
                      Requests.world_with_files)) = [Requests.bobs_file].
Proof. vm_compute. reflexivity. Qed.

End OwnershipFacts.

(** ** What GET lists (files.ts, lines 62-99) *)

Module ListingFacts.
Import FilesApi JS.

Lemma In_insert_desc f x fs : In f (insert_desc x fs) <-> f = x \/ In f fs.
Proof.
  induction fs as [ | g fs IH]; simpl.
  - intuition congruence.
  - destruct (File.createdAt g <=? File.createdAt x); simpl; [ | rewrite IH];
      intuition congruence.
Qed.

Lemma In_orderBy f fs : In f (orderBy_createdAt_desc fs) <-> In f fs.
Proof.
  unfold orderBy_createdAt_desc. induction fs as [ | g fs IH]; simpl.
  - tauto.
  - rewrite In_insert_desc, IH. intuition congruence.
Qed.

Lemma insert_desc_sorted x fs : newest_first fs -> newest_first (insert_desc x fs).
Proof.
  induction 1 as [ | f fs Hle Hs IH]; simpl.
  - constructor; [intros g [] | constructor].
  - destruct (File.createdAt f <=? File.createdAt x) eqn:E.
    + apply Z.leb_le in E. constructor.
      * intros g [<- | Hg]; [exact E | specialize (Hle g Hg); lia].
      * constructor; assumption.
    + apply Z.leb_gt in E. constructor; [ | exact IH].
      intros g Hg. apply (proj1 (In_insert_desc _ _ _)) in Hg.
      destruct Hg as [-> | Hg]; [lia | auto].
Qed.

Lemma orderBy_sorted fs : newest_first (orderBy_createdAt_desc fs).
Proof.
  unfold orderBy_createdAt_desc. induction fs; simpl.
  - constructor.
  - apply insert_desc_sorted; assumption.
Qed.

(** C9, as amended.  GET answers with the caller's rows whose favorite flag
    equals the truth value of the [favorite] query parameter -- without the
    parameter these are the rows that are not favorites -- each with the URL
    computed from its name; [filter=media] keeps the media types among them.
    Nothing is changed. *)
Theorem get_lists_rows_by_favorite_flag
        env cfg user w all fid fav (qfav qfilter : option string) :
  exists entries,
    handler env cfg (mkRequest GET all fid fav qfav qfilter) user w = (JsonFiles entries, w)
    /\ forall e,
         In e entries <->
         exists f, In f (files w)
                   /\ File.userId f = User.id user
                   /\ File.favorite f = truthy qfav
                   /\ (qfilter = Some "media" -> is_media e = true)
                   /\ e = entry_of env cfg f.
Proof.
  unfold handler, handler_body, Eff.run, Eff.bind, file_findMany_list. simpl.
  eexists. split; [reflexivity | ].
  intros e.
  assert (Hrows : forall e0,
             In e0 (map (entry_of env cfg)
                      (orderBy_createdAt_desc
                         (filter (fun f => (File.userId f =? User.id user)
                                             && Bool.eqb (File.favorite f) (truthy qfav))
                                 (files w)))) <->
             exists f, In f (files w) /\ File.userId f = User.id user
                       /\ File.favorite f = truthy qfav /\ e0 = entry_of env cfg f).
  { intros e0. rewrite in_map_iff. split.
    - intros [f [He Hf]]. apply (proj1 (In_orderBy _ _)) in Hf. apply filter_In in Hf.
      destruct Hf as [Hin Hc]. apply andb_true_iff in Hc. destruct Hc as [Hu Hv].
      apply Z.eqb_eq in Hu. apply Bool.eqb_prop in Hv. eauto 6.
    - intros [f [Hin [Hu [Hv He]]]]. exists f. split; [auto | ].
      apply (proj2 (In_orderBy _ _)). apply filter_In. split; [exact Hin | ].
      apply andb_true_iff. split; [apply Z.eqb_eq; exact Hu | ].
      rewrite Hv. apply Bool.eqb_reflx. }
  destruct qfilter as [v | ]; simpl.
  - destruct (negb (v =? "")%string && (v =? "media")%string) eqn:Ev.
    + apply andb_true_iff in Ev. destruct Ev as [_ Ev]. apply String.eqb_eq in Ev.
      rewrite filter_In, Hrows. split.
      * intros [[f [H1 [H2 [H3 H4]]]] Hm]. exists f. repeat split; auto.
      * intros [f [H1 [H2 [H3 [H4 H5]]]]]. split; [eauto 6 | ].
        apply H4. subst v. reflexivity.
    + rewrite Hrows. split.
      * intros [f [H1 [H2 [H3 H4]]]]. exists f. repeat split; auto.
        intros Hq. inversion Hq; subst v. discriminate Ev.
      * intros [f [H1 [H2 [H3 [H4 H5]]]]]. eauto 6.
  - rewrite Hrows. split.
    + intros [f [H1 [H2 [H3 H4]]]]. exists f. repeat split; auto. discriminate.
    + intros [f [H1 [H2 [H3 [H4 H5]]]]]. eauto 6.
Qed.

(** C9 fails as stated.  Alice owns a favorite and a plain picture.  Her GET
    without parameters answers with the plain one only; with favorite=true it
    answers with the favorite, which the first answer did not hold: the
    parameter selects the other half instead of narrowing. *)
Lemma get_without_parameters_omits_favorites :
  In Requests.alices_favorite (files Requests.gallery)
  /\ File.userId Requests.alices_favorite = User.id Scenario.alice
  /\ handler Scenario.env Scenario.cfg Requests.list_files Scenario.alice Requests.gallery
     = (JsonFiles [entry_of Scenario.env Scenario.cfg Requests.alices_plain],
        Requests.gallery)
  /\ handler Scenario.env Scenario.cfg Requests.list_favorites Scenario.alice
             Requests.gallery
     = (JsonFiles [entry_of Scenario.env Scenario.cfg Requests.alices_favorite],
        Requests.gallery).
Proof.
  split; [left; reflexivity | ].
  split; [reflexivity | ].
  split; vm_compute; reflexivity.
Qed.

End ListingFacts.

(** ** One file of a whole upload (lines 239-335) *)

Module UploadFacts.
Import Upload JS.

Lemma quiet_refl w : quiet w w.
Proof. unfold quiet. repeat split. Qed.

Lemma quiet_trans w1 w2 w3 : quiet w1 w2 -> quiet w2 w3 -> quiet w1 w3.
Proof. unfold quiet. intuition congruence. Qed.

Ltac quiet_side :=
  first [ exact quiet_refl | exact quiet_trans
        | intros; unfold quiet; simpl; repeat split; reflexivity ].

Ltac quiet_frame := frame_with quiet_side.

Lemma oracle_quiet : Eff.keeps quiet oracle.
Proof. intros w o w' H. inversion H. unfold quiet. repeat split. Qed.

Lemma whole_fileName_quiet env cfg req fmt i file :
  Eff.keeps quiet (whole_fileName env cfg req fmt i file).
Proof.
  unfold whole_fileName, file_findFirst_name.
  destruct fmt as [[ | | | ] | ]; quiet_frame; try apply oracle_quiet.
Qed.

Lemma prefix_app p s : String.prefix p (p ++ s) = true.
Proof.
  induction p as [ | c p IH]; simpl.
  - destruct s; reflexivity.
  - destruct (ascii_dec c c) as [_ | Hne]; [exact IH | contradiction].
Qed.

Lemma append_assoc (a b c : string) : ((a ++ b) ++ c = a ++ (b ++ c))%string.
Proof. induction a as [ | x a IH]; simpl; [reflexivity | rewrite IH; reflexivity]. Qed.

Lemma startsWith_app p s : startsWith (p ++ s) p = true.
Proof. apply prefix_app. Qed.

(** The domain of a whole upload always opens with the configured scheme. *)
Lemma whole_domain_next env cfg req user w :
  exists domain w',
    whole_domain env cfg req user w = (Eff.Next domain, w')
    /\ quiet w w'
    /\ startsWith domain (scheme cfg ++ "://") = true.
Proof.
  unfold whole_domain.
  destruct (truthy (header req "override-domain")).
  - eexists. eexists. split; [reflexivity | split; [apply quiet_refl | ] ].
    rewrite <- append_assoc. apply startsWith_app.
  - destruct (negb _).
    + unfold random_domain, oracle, Eff.bind, Eff.ret.
      eexists. eexists. split; [reflexivity | split ].
      * unfold quiet. repeat split.
      * rewrite <- append_assoc. apply startsWith_app.
    + eexists. eexists. split; [reflexivity | split; [apply quiet_refl | ] ].
      rewrite <- append_assoc. apply startsWith_app.
Qed.

Lemma make_invis_next env cfg req f w :
  exists invis w', make_invis env cfg req f w = (Eff.Next invis, w') /\ quiet w w'.
Proof.
  unfold make_invis. destruct (truthy (header req "zws")).
  - unfold createInvisImage, oracle, Eff.bind, Eff.modify, Eff.ret.
    eexists. eexists. split; [reflexivity | unfold quiet; repeat split].
  - eexists. eexists. split; [reflexivity | apply quiet_refl].
Qed.

Lemma notify_next cfg user domain invis f url w :
  exists w', notify cfg user domain invis f url w = (Eff.Next tt, w') /\ quiet w w'.
Proof.
  unfold notify. destruct (discord_upload cfg).
  - eexists. split; [reflexivity | unfold quiet; repeat split].
  - eexists. split; [reflexivity | apply quiet_refl].
Qed.

Lemma strip_gps_next cfg f response w :
  exists response' w',
    strip_gps cfg f response w = (Eff.Next response', w')
    /\ quiet w w' /\ body_files response' = body_files response.
Proof.
  unfold strip_gps. destruct (_ && _).
  - eexists. eexists. split; [reflexivity | split; [unfold quiet; repeat split | reflexivity] ].
  - eexists. eexists. split; [reflexivity | split; [apply quiet_refl | reflexivity] ].
Qed.

(** The bytes saved and the image-library call that goes with them. *)
Lemma save_upload_next env prm file f w :
  exists w',
    save_upload env prm file f w = (Eff.Next tt, w')
    /\ users w' = users w /\ files w' = files w /\ tmp w' = tmp w
    /\ blobs w' = Dir.write (File.name f)
                    (if whole_compressionUsed prm file
                     then sharp_jpeg env (imageCompressionPercent prm) (buffer file)
                     else buffer file) (blobs w)
    /\ sharp_calls w' = ((if whole_compressionUsed prm file then 1 else 0) + sharp_calls w)%nat.
Proof.
  unfold save_upload. destruct (whole_compressionUsed prm file);
    eexists; (split; [reflexivity | repeat split]).
Qed.

(** What a successful turn of the loop has done. *)
Lemma upload_file_next env cfg req user prm i file response w response' w' :
  upload_file env cfg req user prm i file response w = (Eff.Next response', w') ->
  exists fileName w1 invis domain,
    whole_fileName env cfg req (format prm) i file w = (Eff.Next fileName, w1)
    /\ quiet w w1
    /\ files w' = files w1 ++ [new_row env (whole_data env req user prm file fileName) w1]
    /\ users w' = users w1
    /\ tmp w' = tmp w1
    /\ blobs w' = Dir.write (d_name (whole_data env req user prm file fileName))
                    (if whole_compressionUsed prm file
                     then sharp_jpeg env (imageCompressionPercent prm) (buffer file)
                     else buffer file) (blobs w1)
    /\ sharp_calls w' = ((if whole_compressionUsed prm file then 1 else 0) + sharp_calls w1)%nat
    /\ startsWith domain (scheme cfg ++ "://") = true
    /\ body_files response' =
       body_files response
         ++ [responseUrl cfg domain invis
               (new_row env (whole_data env req user prm file fileName) w1)].
Proof.
  unfold upload_file. intros H.
  destruct (_ <? size file); [discriminate | ].
  destruct (originalname file =? "")%string; [discriminate | ].
  destruct (includes _ _); [discriminate | ].
  unfold Eff.bind at 1 in H.
  destruct (whole_fileName env cfg req (format prm) i file w) as [[fileName | r] w1] eqn:En;
    [ | discriminate].
  pose proof (whole_fileName_quiet env cfg req (format prm) i file _ En) as Hq1.
  set (data := whole_data env req user prm file fileName) in *.
  unfold Eff.bind at 1 in H. unfold file_create in H.
  set (row := new_row env data w1) in *.
  set (w2 := set_tick _ _) in H.
  unfold Eff.bind at 1 in H.
  destruct (make_invis_next env cfg req row w2) as [invis [w3 [E3 Hq3]]]. rewrite E3 in H.
  unfold Eff.bind at 1 in H.
  destruct (save_upload_next env prm file row w3) as [w4 [E4 [Hu4 [Hf4 [Ht4 [Hb4 Hs4]]]]]].
  rewrite E4 in H.
  unfold Eff.bind at 1 in H.
  destruct (whole_domain_next env cfg req user w4) as [domain [w5 [E5 [Hq5 Hp5]]]].
  rewrite E5 in H.
  unfold Eff.bind at 1 in H.
  destruct (notify_next cfg user domain invis row (responseUrl cfg domain invis row) w5)
    as [w6 [E6 Hq6]].
  rewrite E6 in H.
  destruct (strip_gps_next cfg row (push_file (responseUrl cfg domain invis row) response) w6)
    as [r7 [w7 [E7 [Hq7 Hb7]]]].
  rewrite E7 in H. inversion H; subst r7 w7. clear H.
  exists fileName, w1, invis, domain.
  pose proof (quiet_trans Hq5 (quiet_trans Hq6 Hq7)) as Hq.
  destruct Hq as [Qu [Qf [Qb [Qt [Qn Qs]]]]].
  destruct Hq3 as [Q3u [Q3f [Q3b [Q3t [Q3n Q3s]]]]].
  split; [reflexivity | ]. split; [exact Hq1 | ].
  split; [rewrite Qf, Hf4, Q3f; reflexivity | ].
  split; [rewrite Qu, Hu4, Q3u; reflexivity | ].
  split; [rewrite Qt, Ht4, Q3t; reflexivity | ].
  split; [rewrite Qb, Hb4, Q3b; reflexivity | ].
  split; [rewrite Qs, Hs4, Q3s; reflexivity | ].
  split; [exact Hp5 | ].
  rewrite Hb7. reflexivity.
Qed.

End UploadFacts.

(** ** The scheme of the answer's URLs (lines 174-185 and 312-324) *)

Module UrlFacts.
Import Upload JS UploadFacts.

Lemma prefix_append p d x : String.prefix p d = true -> String.prefix p (d ++ x) = true.
Proof.
  revert p. induction d as [ | c d IH]; intros p H.
  - destruct p; [destruct x; reflexivity | discriminate H].
  - destruct p as [ | a p]; [reflexivity | ].
    simpl in *. destruct (ascii_dec a c); [apply IH; exact H | discriminate H].
Qed.

Lemma responseUrl_scheme cfg domain invis f p :
  startsWith domain p = true -> startsWith (responseUrl cfg domain invis f) p = true.
Proof. intros H. unfold responseUrl, startsWith. apply prefix_append. exact H. Qed.

(** Every URL a whole upload answers with opens with [https://] when https
    links are configured, and with [http://] otherwise, whichever of the
    three domain sources was used. *)
Lemma whole_upload_urls_carry_the_scheme env cfg req user prm fs :
  forall i response w response' w',
    upload_files env cfg req user prm i fs response w = (Eff.Next response', w') ->
    exists urls,
      body_files response' = body_files response ++ urls
      /\ List.length urls = List.length fs
      /\ Forall (fun u => startsWith u (scheme cfg ++ "://") = true) urls.
Proof.
  induction fs as [ | file fs IH]; intros i response w response' w' H; simpl in H.
  - inversion H; subst. exists []. rewrite app_nil_r. repeat split. constructor.
  - unfold Eff.bind in H.
    destruct (upload_file env cfg req user prm i file response w) as [[r1 | r] w1] eqn:E1;
      [ | discriminate].
    apply upload_file_next in E1.
    destruct E1 as [fileName [w0 [invis [domain [_ [_ [_ [_ [_ [_ [_ [Hp Hb]]]]]]]]]]]].
    apply IH in H. destruct H as [urls [Hu [Hl Hall]]].
    exists (responseUrl cfg domain invis
              (new_row env (whole_data env req user prm file fileName) w0) :: urls).
    split; [rewrite Hu, Hb, <- app_assoc; reflexivity | ].
    split; [simpl; rewrite Hl; reflexivity | ].
    constructor; [apply responseUrl_scheme; exact Hp | exact Hall].
Qed.

(** Carol's whole upload: one file, one URL, and it opens with https://. *)
Lemma whole_upload_urls_carry_the_scheme_witness :
  exists response' w' urls,
    upload_files Scenario.env Scenario.cfg Requests.carol_whole Scenario.carol
                 (mkParams None (Some RANDOM) None None) 0
                 [Upload.mkFile "note.txt" "text/plain" 5 (Scenario.ascii_bytes "hello")]
                 Requests.empty_body Scenario.world = (Eff.Next response', w')
    /\ body_files response' = urls
    /\ List.length urls = 1%nat
    /\ Forall (fun u => startsWith u "https://" = true) urls.
Proof.
  eexists. eexists.
  match goal with |- exists urls, ?run = (Eff.Next ?r, ?w) /\ _ =>
    assert (Hrun : run = (Eff.Next r, w)) by (vm_compute; reflexivity)
  end.
  destruct (whole_upload_urls_carry_the_scheme _ _ _ _ _ _ _ _ _ Hrun)
    as [urls [Hb [Hl Hall]]].
  exists urls. split; [exact Hrun | ]. split; [exact Hb | ]. split; [exact Hl | exact Hall].
Defined.

(** On the partial path the scheme is added for an override domain and for
    the host header, but one of the user's own domains is taken as it is. *)
Lemma partial_domain_of_user env cfg req user w :
  truthy (header req "override-domain") = false ->
  User.domains user <> [] ->
  partial_domain env cfg req user w = random_domain env user w.
Proof.
  intros Ho Hd. unfold partial_domain. rewrite Ho.
  destruct (User.domains user); [contradiction | reflexivity].
Qed.

(** C4 (the code departs from the claim).  https links are configured and
    Carol has the custom domain example.com.  Her chunked upload is answered
    with a URL that has no scheme at all; the same bytes sent as a whole
    upload get an https URL. *)
Theorem chunked_url_of_user_domain_has_no_scheme :
  core_return_https Scenario.cfg = true
  /\ User.domains Scenario.carol = ["example.com"]
  /\ (exists w',
        handler Scenario.env Scenario.cfg Requests.carol_last_chunk Scenario.world
          = (Json (mkBody ["example.com/urnd0.txt"] None false), w'))
  /\ startsWith "example.com/urnd0.txt" "https://" = false
  /\ (exists w',
        handler Scenario.env Scenario.cfg Requests.carol_whole Scenario.world
          = (Json (mkBody ["https://example.com/urnd0.txt"] None false), w')).
Proof.
  split; [reflexivity | ]. split; [reflexivity | ].
  split; [eexists; vm_compute; reflexivity | ].
  split; [reflexivity | ].
  eexists; vm_compute; reflexivity.
Qed.

End UrlFacts.

(** ** The explicit name (lines 262-276 and 285-297) *)

Module ExplicitNameFacts.
Import Upload JS UploadFacts.

(** A file that passes the three checks and gets a name is stored. *)
Lemma upload_file_total env cfg req user prm i file response w fileName w1 :
  ((if User.administrator user then uploader_admin_limit cfg else uploader_user_limit cfg)
     <? size file) = false ->
  (originalname file =? "")%string = false ->
  includes (uploader_disabled_extensions cfg) (extension (originalname file)) = false ->
  whole_fileName env cfg req (format prm) i file w = (Eff.Next fileName, w1) ->
  exists response' w', upload_file env cfg req user prm i file response w
                       = (Eff.Next response', w').
Proof.
  intros Hs Hn Hx En. unfold upload_file. rewrite Hs, Hn, Hx.
  unfold Eff.bind at 1. rewrite En.
  unfold Eff.bind at 1. unfold file_create.
  set (row := new_row env _ w1). set (w2 := set_tick _ _).
  unfold Eff.bind at 1.
  destruct (make_invis_next env cfg req row w2) as [invis [w3 [E3 _]]]. rewrite E3.
  unfold Eff.bind at 1.
  destruct (save_upload_next env prm file row w3) as [w4 [E4 _]]. rewrite E4.
  unfold Eff.bind at 1.
  destruct (whole_domain_next env cfg req user w4) as [domain [w5 [E5 _]]]. rewrite E5.
  unfold Eff.bind at 1.
  destruct (notify_next cfg user domain invis row (responseUrl cfg domain invis row) w5)
    as [w6 [E6 _]].
  rewrite E6.
  destruct (strip_gps_next cfg row (push_file (responseUrl cfg domain invis row) response) w6)
    as [r7 [w7 [E7 _]]].
  rewrite E7. eauto.
Qed.

(** The default branch of the switch when x-zipline-filename is sent. *)
Lemma whole_fileName_explicit env cfg req i file w :
  truthy (header req "x-zipline-filename") = true ->
  whole_fileName env cfg req None i file w =
    match find (fun f => (File.name f =? template (header req "x-zipline-filename"))%string)
               (files w) with
    | Some _ =>
        (Eff.Return
           (BadRequest ("file[" ++ file_index i ++ "]: filename already exists: '"
                          ++ template (header req "x-zipline-filename") ++ "'")%string), w)
    | None => (Eff.Next (template (header req "x-zipline-filename")), w)
    end.
Proof.
  intros Hx. unfold whole_fileName. rewrite Hx.
  unfold Eff.bind, file_findFirst_name.
  destruct (find _ (files w)); reflexivity.
Qed.

Lemma append_empty_r (s : string) : (s ++ "")%string = s.
Proof. induction s as [ | c s IH]; simpl; [reflexivity | rewrite IH; reflexivity]. Qed.

(** The name that is looked up and the name that is created.  On a whole
    upload with no naming strategy and the header x-zipline-filename, the
    check of lines 265-270 looks for a row called as the header says; when
    there is none, the name handed to [prisma.file.create] at line 287 is the
    header followed by the extension suffix, a name the check has not
    looked at. *)
Lemma supplied_name_is_extended_after_the_check env cfg req user prm i file w :
  format prm = None ->
  truthy (header req "x-zipline-filename") = true ->
  let supplied := template (header req "x-zipline-filename") in
  find (fun f => (File.name f =? supplied)%string) (files w) = None ->
  whole_fileName env cfg req (format prm) i file w = (Eff.Next supplied, w)
  /\ d_name (whole_data env req user prm file supplied)
     = (supplied ++ (if whole_compressionUsed prm file then ".jpg"
                     else dot_ext (extension (originalname file))))%string.
Proof.
  intros Hfmt Hx supplied Hfree. rewrite Hfmt.
  rewrite (whole_fileName_explicit env cfg req i file w Hx). fold supplied.
  rewrite Hfree. split; reflexivity.
Qed.

(** C5 (the code departs from the claim).  The table holds a record named
    "report.pdf".  Bob sends a.pdf as a whole upload with a format header that
    names no strategy and with x-zipline-filename "report".  The check of
    lines 265-270 looks for a record named "report", finds none, and lets the
    file pass; the name then handed to [prisma.file.create] is "report.pdf":
    it is not the supplied name, and it is the name of the record that
    exists.  The check does not guard the name that is created. *)
Theorem supplied_name_check_misses_the_created_name :
  read_format Scenario.cfg Requests.bob_names_report = None
  /\ header Requests.bob_names_report "x-zipline-filename" = Some "report"
  /\ map File.name (files Requests.world_with_report) = ["report.pdf"]
  /\ (forall env,
        whole_fileName env Scenario.cfg Requests.bob_names_report
                       (read_format Scenario.cfg Requests.bob_names_report) 0 Scenario.pdf
                       Requests.world_with_report
        = (Eff.Next "report", Requests.world_with_report))
  /\ (forall env,
        d_name (whole_data env Requests.bob_names_report Scenario.bob Requests.no_format
                           Scenario.pdf "report") = "report.pdf")
  /\ rejected Scenario.cfg Requests.bob_names_report Scenario.bob Requests.no_format
              Scenario.pdf Requests.world_with_report = false.
Proof.
  split; [reflexivity | ]. split; [reflexivity | ]. split; [reflexivity | ].
  split; [intros env; reflexivity | ]. split; [intros env; reflexivity | reflexivity].
Qed.

End ExplicitNameFacts.

(** ** The naming format (lines 57-58 and the two switches) *)

Module FormatFacts.
Import Upload JS.

Lemma toUpperCase_empty s : toUpperCase s = "" -> s = "".
Proof. destruct s; [reflexivity | discriminate]. Qed.

Lemma rawFormat_present cfg req :
  truthy (header req "format") = true ->
  rawFormat cfg req = toUpperCase (template (header req "format")).
Proof.
  intros Ht. unfold rawFormat. rewrite Ht.
  destruct (toUpperCase (template (header req "format")) =? "")%string eqn:E;
    [ | reflexivity].
  apply String.eqb_eq in E. apply toUpperCase_empty in E.
  unfold truthy in Ht. destruct (header req "format") as [s | ]; [ | discriminate].
  simpl in E. subst s. discriminate Ht.
Qed.

(** The configured default is what an absent (or empty) header falls back to. *)
Lemma rawFormat_absent cfg req :
  truthy (header req "format") = false ->
  rawFormat cfg req = uploader_default_format cfg.
Proof. intros Ht. unfold rawFormat. rewrite Ht. reflexivity. Qed.

(** Line 58 for a header that names no member of the enum. *)
Lemma read_format_unmatched cfg req :
  truthy (header req "format") = true ->
  includes FileNameFormat_keys (toUpperCase (template (header req "format"))) = false ->
  read_format cfg req = None.
Proof.
  intros Ht Hk. unfold read_format. rewrite (rawFormat_present cfg req Ht), Hk. reflexivity.
Qed.

(** C7, as amended.  When the format header is present and its upper-cased
    value is no key of the enum, the configured default is not consulted:
    both switches take their default branch.  A reassembled file, and a
    whole file sent without x-zipline-filename, are named by [randomChars] of
    the configured length, exactly as under RANDOM, whatever default format
    is configured.  For a whole file sent with x-zipline-filename the switch
    takes the name from that header, after looking for a row of that name. *)
Theorem unmatched_format_is_named_at_random env cfg req :
  truthy (header req "format") = true ->
  includes FileNameFormat_keys (toUpperCase (template (header req "format"))) = false ->
  (forall filename w,
      partial_fileName env cfg (read_format cfg req) filename w
      = (Eff.Next (randomChars env (tick w) (uploader_length cfg)), set_tick (S (tick w)) w))
  /\ (forall i file w,
        truthy (header req "x-zipline-filename") = false ->
        whole_fileName env cfg req (read_format cfg req) i file w
        = (Eff.Next (randomChars env (tick w) (uploader_length cfg)), set_tick (S (tick w)) w))
  /\ (forall filename, partial_fileName env cfg (read_format cfg req) filename
                       = partial_fileName env cfg (Some RANDOM) filename)
  /\ (forall i file,
        truthy (header req "x-zipline-filename") = false ->
        whole_fileName env cfg req (read_format cfg req) i file
        = whole_fileName env cfg req (Some RANDOM) i file)
  /\ (forall i file w,
        truthy (header req "x-zipline-filename") = true ->
        let supplied := template (header req "x-zipline-filename") in
        whole_fileName env cfg req (read_format cfg req) i file w
        = match find (fun f => (File.name f =? supplied)%string) (files w) with
          | Some _ =>
              (Eff.Return
                 (BadRequest ("file[" ++ file_index i ++ "]: filename already exists: '"
                                ++ supplied ++ "'")%string), w)
          | None => (Eff.Next supplied, w)
          end).
Proof.
  intros Ht Hk.
  rewrite (read_format_unmatched cfg req Ht Hk).
  split; [intros; reflexivity | ].
  split; [intros i file w Hx; unfold whole_fileName; rewrite Hx; reflexivity | ].
  split; [intros; reflexivity | ].
  split; [intros i file Hx; unfold whole_fileName; rewrite Hx; reflexivity | ].
  intros i file w Hx supplied.
  exact (ExplicitNameFacts.whole_fileName_explicit env cfg req i file w Hx).
Qed.

(** With UUID configured as the default, Bob's header "custom" still gives a
    name made of random characters. *)
Lemma unmatched_format_is_named_at_random_witness :
  whole_fileName Scenario.env Requests.cfg_uuid Requests.bob_custom_format
    (read_format Requests.cfg_uuid Requests.bob_custom_format) 0 Scenario.png
    Scenario.world
  = (Eff.Next "rnd0", set_tick 1 Scenario.world).
Proof.
  exact (proj1 (proj2 (unmatched_format_is_named_at_random
                         Scenario.env Requests.cfg_uuid Requests.bob_custom_format
                         eq_refl eq_refl)) 0%nat Scenario.png Scenario.world eq_refl).
Defined.

(** C7 fails as stated.  UUID is the configured default format.  For Bob's
    upload with the format header "custom", which matches no member of the
    enum, the switch of lines 249-276 asks [randomChars] for the name; for the
    same upload without the header it asks [randomUUID], as the configured
    default says.  On the sample deployment the two names are "rnd0" and
    "uuid0". *)
Lemma unmatched_format_does_not_use_the_default :
  uploader_default_format Requests.cfg_uuid = "UUID"
  /\ header Requests.bob_custom_format "format" = Some "custom"
  /\ includes FileNameFormat_keys (toUpperCase "custom") = false
  /\ (forall env w,
        whole_fileName env Requests.cfg_uuid Requests.bob_custom_format
          (read_format Requests.cfg_uuid Requests.bob_custom_format) 0 Scenario.png w
        = (Eff.Next (randomChars env (tick w) (uploader_length Requests.cfg_uuid)),
           set_tick (S (tick w)) w))
  /\ (forall env w,
        whole_fileName env Requests.cfg_uuid Requests.bob_uploads
          (read_format Requests.cfg_uuid Requests.bob_uploads) 0 Scenario.png w
        = (Eff.Next (randomUUID env (tick w)), set_tick (S (tick w)) w))
  /\ fst (whole_fileName Scenario.env Requests.cfg_uuid Requests.bob_custom_format
            (read_format Requests.cfg_uuid Requests.bob_custom_format) 0 Scenario.png
            Scenario.world) = Eff.Next "rnd0"
  /\ fst (whole_fileName Scenario.env Requests.cfg_uuid Requests.bob_uploads
            (read_format Requests.cfg_uuid Requests.bob_uploads) 0 Scenario.png
            Scenario.world) = Eff.Next "uuid0".
Proof.
  split; [reflexivity | ]. split; [reflexivity | ]. split; [reflexivity | ].
  split; [intros; reflexivity | ]. split; [intros; reflexivity | ].
  split; reflexivity.
Qed.

End FormatFacts.

(** ** Image compression (lines 60-66 and 283-309) *)

Module CompressionFacts.
Import Upload JS UploadFacts.

Lemma read_write_same n data d : Dir.read n (Dir.write n data d) = Some data.
Proof.
  induction d as [ | [m old] d IH]; simpl.
  - rewrite String.eqb_refl. reflexivity.
  - destruct (m =? n)%string eqn:E; simpl.
    + rewrite String.eqb_refl. reflexivity.
    + rewrite E. exact IH.
Qed.





End CompressionFacts.

(** ** Reassembly of a partial upload (lines 98-122) *)

Module ReassemblyExamples.
Import Upload JS.

(** C3 (the code departs from the claim).  The two chunks of "helloworld"
    cover bytes 0-9 without gap or overlap, and the session identifier is
    "a_b".  The chunk names are cut at every underscore, so the fourth field
    read back is "b": both chunks get the start [NaN], both are copied to
    offset 0, and the stored object is "world" followed by five zero bytes.
    The transient entries are deleted. *)
Theorem identifier_with_underscore_breaks_reassembly :
  tmp (snd (handler Scenario.env Scenario.cfg (Requests.chunk_hello "a_b") Scenario.world))
    = [("zipline_partial_a_b_0_4", Scenario.ascii_bytes "hello")]
  /\ readChunk "zipline_partial_a_b_0_4" = mkChunk NaN (Fin 0) "zipline_partial_a_b_0_4"
  /\ readChunk "zipline_partial_a_b_5_9" = mkChunk NaN (Fin 5) "zipline_partial_a_b_5_9"
  /\ blobs (Requests.after_both_chunks "a_b")
     = [("rnd0.txt", Scenario.ascii_bytes "world" ++ repeat Byte.x00 5)]
  /\ tmp (Requests.after_both_chunks "a_b") = [].
Proof. repeat split; vm_compute; reflexivity. Qed.

(** The same chunks under the identifier "ab" are put together correctly. *)
Example plain_identifier_reassembles :
  blobs (Requests.after_both_chunks "ab") = [("rnd0.txt", Scenario.ascii_bytes "helloworld")]
  /\ tmp (Requests.after_both_chunks "ab") = [].
Proof. split; vm_compute; reflexivity. Qed.

End ReassemblyExamples.

Module ReassemblyFacts.
Import Upload JS Session.

(** *** Numbers in chunk names *)

Lemma to_int_not_nil z : Z.to_int z <> Decimal.Pos Decimal.Nil /\ Z.to_int z <> Decimal.Neg Decimal.Nil.
Proof.
  destruct z as [ | p | p]; simpl; split; try discriminate;
    intros H; inversion H as [H1]; exact (DecimalPos.Unsigned.to_uint_nonnil p H1).
Qed.

(** A number written into a name is read back as itself. *)
Lemma Number_number_toString z : Number (number_toString (Fin z)) = Fin z.
Proof.
  unfold Number, number_toString.
  destruct (to_int_not_nil z) as [Hp Hn].
  pose proof (NilZero.isi (Z.to_int z) Hp Hn) as Hisi.
  destruct (NilZero.string_of_int (Z.to_int z)) as [ | c s] eqn:Es.
  - discriminate Hisi.
  - change ((String c s =? "")%string) with false. cbv iota.
    rewrite Hisi, DecimalZ.of_to. reflexivity.
Qed.

Lemma uint_has_no_underscore d : has_char "_" (NilEmpty.string_of_uint d) = false.
Proof. induction d; simpl; auto. Qed.

Lemma number_has_no_underscore z : has_char "_" (number_toString (Fin z)) = false.
Proof.
  unfold number_toString, NilZero.string_of_int, NilZero.string_of_uint.
  destruct (Z.to_int z) as [d | d]; destruct d; simpl; auto using uint_has_no_underscore.
Qed.

(** *** Cutting a name at its underscores *)

Lemma split_not_nil sep s : split sep s <> [].
Proof.
  destruct s as [ | c s]; simpl; [discriminate | ].
  destruct (Ascii.eqb c sep); [discriminate | ].
  destruct (split sep s); discriminate.
Qed.

Lemma split_without sep s : has_char sep s = false -> split sep s = [s].
Proof.
  induction s as [ | c s IH]; simpl; intros H; [reflexivity | ].
  apply orb_false_iff in H. destruct H as [Hc Hs].
  rewrite Hc, (IH Hs). reflexivity.
Qed.

Lemma split_field sep a b :
  has_char sep a = false -> split sep (a ++ String sep b) = a :: split sep b.
Proof.
  induction a as [ | c a IH]; simpl; intros H.
  - rewrite Ascii.eqb_refl. reflexivity.
  - apply orb_false_iff in H. destruct H as [Hc Ha].
    rewrite Hc, (IH Ha). reflexivity.
Qed.

Lemma tempFile_fields identifier s e :
  tempFile identifier (Some (Fin s)) (Some (Fin e)) =
  ("zipline" ++ String "_" ("partial" ++ String "_" (template identifier
     ++ String "_" (number_toString (Fin s) ++ String "_" (number_toString (Fin e))))))%string.
Proof.
  unfold tempFile, partial_prefix, template_num. reflexivity.
Qed.

(** Without an underscore in the identifier, line 108 reads back the range
    line 98 wrote. *)
Lemma readChunk_tempFile identifier s e :
  has_char "_" (template identifier) = false ->
  readChunk (tempFile identifier (Some (Fin s)) (Some (Fin e)))
  = mkChunk (Fin s) (Fin e) (tempFile identifier (Some (Fin s)) (Some (Fin e))).
Proof.
  intros Hid. unfold readChunk. rewrite tempFile_fields at 1 2.
  rewrite (split_field "_" "zipline" _ eq_refl), (split_field "_" "partial" _ eq_refl).
  rewrite (split_field "_" _ _ Hid).
  rewrite (split_field "_" _ _ (number_has_no_underscore s)).
  rewrite (split_without "_" _ (number_has_no_underscore e)).
  cbn [nth_error Number_opt]. rewrite !Number_number_toString. reflexivity.
Qed.

Lemma chunk_name_start identifier c :
  has_char "_" (template identifier) = false ->
  chunk_start (readChunk (chunk_name identifier c)) = Fin (Z.of_nat (fst c)).
Proof. intros Hid. unfold chunk_name. rewrite (readChunk_tempFile _ _ _ Hid). reflexivity. Qed.

Lemma chunk_name_prefix identifier c :
  startsWith (chunk_name identifier c) (partial_prefix identifier) = true.
Proof. unfold chunk_name, tempFile. apply UploadFacts.startsWith_app. Qed.

(** *** The temporary directory *)

Lemma write_fresh n data d :
  ~ In n (Dir.list_names d) -> Dir.write n data d = d ++ [(n, data)].
Proof.
  induction d as [ | [m old] d IH]; simpl; intros H; [reflexivity | ].
  destruct (m =? n)%string eqn:E.
  - apply String.eqb_eq in E. tauto.
  - rewrite IH; [reflexivity | tauto].
Qed.

Lemma remove_absent n d : ~ In n (Dir.list_names d) -> Dir.remove n d = d.
Proof.
  unfold Dir.remove. induction d as [ | [m old] d IH]; simpl; intros H; [reflexivity | ].
  destruct (m =? n)%string eqn:E.
  - apply String.eqb_eq in E. tauto.
  - simpl. rewrite IH; [reflexivity | tauto].
Qed.

(** *** Copying into the typed array *)

Lemma set_at (target source : bytes) (s : nat) :
  (s + List.length source <= List.length target)%nat ->
  Uint8Array_set target source (Fin (Z.of_nat s))
  = Some (firstn s target ++ source ++ skipn (s + List.length source) target).
Proof.
  intros H. unfold Uint8Array_set.
  replace (Z.of_nat s <? 0) with false by (symmetry; apply Z.ltb_ge; lia).
  replace (Z.of_nat (List.length target) <? Z.of_nat s + Z.of_nat (List.length source))
    with false by (symmetry; apply Z.ltb_ge; lia).
  simpl. rewrite Nat2Z.id. reflexivity.
Qed.

Lemma set_length (target source : bytes) (s : nat) :
  (s + List.length source <= List.length target)%nat ->
  List.length (firstn s target ++ source ++ skipn (s + List.length source) target)
  = List.length target.
Proof.
  intros H. rewrite !length_app, length_firstn, length_skipn. lia.
Qed.

Lemma set_nth (target source : bytes) (s i : nat) :
  (s + List.length source <= List.length target)%nat ->
  nth i (firstn s target ++ source ++ skipn (s + List.length source) target) Byte.x00
  = if ((s <=? i) && (i <? s + List.length source))%nat
    then nth (i - s) source Byte.x00 else nth i target Byte.x00.
Proof.
  intros H.
  assert (Hf : List.length (firstn s target) = s) by (rewrite length_firstn; lia).
  destruct (s <=? i)%nat eqn:E1; simpl.
  - apply Nat.leb_le in E1.
    rewrite app_nth2 by lia. rewrite Hf.
    destruct (i <? s + List.length source)%nat eqn:E2.
    + apply Nat.ltb_lt in E2. rewrite app_nth1 by lia. reflexivity.
    + apply Nat.ltb_ge in E2. rewrite app_nth2 by lia.
      rewrite nth_skipn. f_equal. lia.
  - apply Nat.leb_gt in E1. rewrite app_nth1 by lia.
    rewrite nth_firstn. replace (i <? s)%nat with true by (symmetry; apply Nat.ltb_lt; lia).
    reflexivity.
Qed.

(** *** The pieces of a byte sequence *)

Lemma pieces_slice ps : forall off c,
  In c (pieces_from off ps) ->
  (off <= fst c)%nat
  /\ (fst c + List.length (snd c) <= off + List.length (List.concat ps))%nat
  /\ forall j, (j < List.length (snd c))%nat ->
                nth j (snd c) Byte.x00 = nth (fst c - off + j) (List.concat ps) Byte.x00.
Proof.
  induction ps as [ | p ps IH]; intros off c H; simpl in H; [contradiction | ].
  simpl List.concat. rewrite length_app.
  destruct H as [<- | H]; simpl.
  - split; [lia | ]. split; [lia | ].
    intros j Hj. rewrite app_nth1 by lia. f_equal. lia.
  - destruct (IH _ _ H) as [H1 [H2 H3]].
    split; [lia | ]. split; [lia | ].
    intros j Hj. rewrite app_nth2 by lia. rewrite (H3 j Hj). f_equal. lia.
Qed.

Lemma pieces_cover ps : forall off i,
  (off <= i < off + List.length (List.concat ps))%nat ->
  exists c, In c (pieces_from off ps)
            /\ (fst c <= i < fst c + List.length (snd c))%nat.
Proof.
  induction ps as [ | p ps IH]; intros off i H; simpl in H; [lia | ].
  rewrite length_app in H.
  destruct (Nat.lt_ge_cases i (off + List.length p)) as [Hlt | Hge].
  - exists (off, p). split; [left; reflexivity | simpl; lia].
  - destruct (IH (off + List.length p)%nat i) as [c [Hc Hi]]; [lia | ].
    exists c. split; [right; exact Hc | exact Hi].
Qed.

Lemma pieces_starts_NoDup ps : forall off,
  Forall (fun p => p <> []) ps -> NoDup (map fst (pieces_from off ps)).
Proof.
  induction ps as [ | p ps IH]; intros off H; simpl; [constructor | ].
  inversion H as [ | ? ? Hp Hps]; subst.
  constructor; [ | apply IH; exact Hps].
  intros Hin. apply in_map_iff in Hin. destruct Hin as [c [Hc Hin]].
  destruct (pieces_slice _ _ _ Hin) as [Hle _].
  destruct p as [ | b p]; [contradiction | ]. simpl in Hle. lia.
Qed.

(** *** One session *)

Lemma set_tmp_same w : set_tmp (tmp w) w = w.
Proof. destruct w; reflexivity. Qed.

Lemma filter_none {A} (f : A -> bool) l : (forall x, In x l -> f x = false) -> filter f l = [].
Proof.
  induction l as [ | a l IH]; simpl; intros H; [reflexivity | ].
  rewrite (H a (or_introl eq_refl)). apply IH. intros x Hx. apply H. right. exact Hx.
Qed.

Lemma filter_all {A} (f : A -> bool) l : (forall x, In x l -> f x = true) -> filter f l = l.
Proof.
  induction l as [ | a l IH]; simpl; intros H; [reflexivity | ].
  rewrite (H a (or_introl eq_refl)). f_equal. apply IH. intros x Hx. apply H. right. exact Hx.
Qed.

(** An array of a length the runtime allocates starts as zero bytes. *)
Lemma Uint8Array_new_zeros env (n : nat) :
  Z.of_nat n <= max_array_length env ->
  Uint8Array_new env (Some (Fin (Z.of_nat n))) = Some (repeat Byte.x00 n).
Proof.
  intros H. unfold Uint8Array_new.
  replace (Z.of_nat n <? 0) with false by (symmetry; apply Z.ltb_ge; lia).
  replace (max_array_length env <? Z.of_nat n) with false by (symmetry; apply Z.ltb_ge; lia).
  simpl. rewrite Nat2Z.id. reflexivity.
Qed.

Lemma filter_perm {A} (f : A -> bool) l l' :
  Permutation l l' -> Permutation (filter f l) (filter f l').
Proof.
  induction 1 as [ | x l l' _ IH | x y l | l l' l'' _ IH1 _ IH2]; simpl.
  - constructor.
  - destruct (f x); [constructor | ]; exact IH.
  - destruct (f x), (f y); try apply Permutation_refl. apply perm_swap.
  - etransitivity; eassumption.
Qed.

Lemma read_after_remove n m d :
  (m =? n)%string = false -> Dir.read n (Dir.remove m d) = Dir.read n d.
Proof.
  intros H. induction d as [ | [k data] d IH]; simpl; [reflexivity | ].
  destruct (k =? m)%string eqn:E; simpl.
  - apply String.eqb_eq in E. subst k. rewrite H. exact IH.
  - rewrite IH. reflexivity.
Qed.

Lemma remove_app n a b : Dir.remove n (a ++ b) = Dir.remove n a ++ Dir.remove n b.
Proof. unfold Dir.remove. apply filter_app. Qed.

Lemma remove_all_app ns : forall a b,
  Dir.remove_all ns (a ++ b) = Dir.remove_all ns a ++ Dir.remove_all ns b.
Proof.
  induction ns as [ | n ns IH]; intros a b; simpl; [reflexivity | ].
  rewrite remove_app. apply IH.
Qed.

Lemma remove_all_absent ns d :
  (forall n, In n ns -> ~ In n (Dir.list_names d)) -> Dir.remove_all ns d = d.
Proof.
  induction ns as [ | n ns IH]; simpl; intros H; [reflexivity | ].
  rewrite remove_absent by (apply H; left; reflexivity).
  apply IH. intros m Hm. apply H. right. exact Hm.
Qed.

Lemma remove_all_listed ns : forall d,
  (forall e, In e d -> In (fst e) ns) -> Dir.remove_all ns d = [].
Proof.
  induction ns as [ | n ns IH]; intros d H; simpl.
  - destruct d as [ | e d]; [reflexivity | destruct (H e (or_introl eq_refl))].
  - apply IH. intros e He. unfold Dir.remove in He. apply filter_In in He.
    destruct He as [He Hne]. destruct (H e He) as [Heq | Hin]; [ | exact Hin].
    subst n. rewrite String.eqb_refl in Hne. discriminate Hne.
Qed.

Section OneSession.
Variable identifier : option string.
Hypothesis Hid : has_char "_" (template identifier) = false.
Variable orig : bytes.
Variable d0 : dir.
Hypothesis Hd0 :
  forall n, In n (Dir.list_names d0) -> startsWith n (partial_prefix identifier) = false.

Lemma name_not_in_d0 c : ~ In (chunk_name identifier c) (Dir.list_names d0).
Proof.
  intros H. apply Hd0 in H. rewrite chunk_name_prefix in H. discriminate H.
Qed.

Lemma names_of_entries cs :
  Dir.list_names (map (chunk_entry identifier) cs) = map (chunk_name identifier) cs.
Proof. unfold Dir.list_names. rewrite map_map. reflexivity. Qed.

Lemma chunk_name_inj c c' :
  chunk_name identifier c = chunk_name identifier c' -> fst c = fst c'.
Proof.
  intros H. pose proof (chunk_name_start identifier c Hid) as H1.
  rewrite H, (chunk_name_start identifier c' Hid) in H1.
  inversion H1. lia.
Qed.

Lemma names_NoDup cs : NoDup (map fst cs) -> NoDup (map (chunk_name identifier) cs).
Proof.
  induction cs as [ | c cs IH]; simpl; intros H; [constructor | ].
  inversion H as [ | ? ? Hn Hr]; subst. constructor; [ | apply IH; exact Hr].
  intros Hin. apply in_map_iff in Hin. destruct Hin as [c' [Hc' Hin]].
  apply Hn. rewrite <- (chunk_name_inj Hc'). apply in_map. exact Hin.
Qed.

(** Written in any order, the chunks end up side by side after what the
    directory held before. *)
Lemma store_chunks_appends cs : forall d,
  NoDup (map (chunk_name identifier) cs) ->
  (forall c, In c cs -> ~ In (chunk_name identifier c) (Dir.list_names d)) ->
  store_chunks identifier cs d = d ++ map (chunk_entry identifier) cs.
Proof.
  unfold store_chunks.
  induction cs as [ | c cs IH]; intros d Hnd Hfresh; simpl.
  - rewrite app_nil_r. reflexivity.
  - inversion Hnd as [ | ? ? Hn Hr]; subst.
    rewrite write_fresh by (apply Hfresh; left; reflexivity).
    rewrite IH; [rewrite <- app_assoc; reflexivity | exact Hr | ].
    intros c' Hc' Hin. unfold Dir.list_names in Hin. rewrite map_app in Hin.
    apply in_app_or in Hin. destruct Hin as [Hin | [Heq | []]].
    + exact (Hfresh c' (or_intror Hc') Hin).
    + simpl in Heq. apply Hn. rewrite Heq. apply in_map. exact Hc'.
Qed.

Lemma read_past n d rest :
  ~ In n (Dir.list_names d) -> Dir.read n (d ++ rest) = Dir.read n rest.
Proof.
  induction d as [ | [m old] d IH]; simpl; intros H; [reflexivity | ].
  destruct (m =? n)%string eqn:E.
  - apply String.eqb_eq in E. tauto.
  - apply IH. tauto.
Qed.

(** Every chunk that was stored can be read, wherever it stands. *)
Lemma read_stored cs c :
  NoDup (map (chunk_name identifier) cs) -> In c cs ->
  Dir.read (chunk_name identifier c) (d0 ++ map (chunk_entry identifier) cs) = Some (snd c).
Proof.
  intros Hnd Hin. rewrite (@read_past _ _ _ (name_not_in_d0 c)).
  induction cs as [ | c0 cs IH]; [contradiction | ].
  inversion Hnd as [ | ? ? Hn Hr]; subst.
  change (map (chunk_entry identifier) (c0 :: cs))
    with ((chunk_name identifier c0, snd c0) :: map (chunk_entry identifier) cs).
  cbn [Dir.read].
  destruct (chunk_name identifier c0 =? chunk_name identifier c)%string eqn:E.
  - destruct Hin as [-> | Hin]; [reflexivity | ].
    apply String.eqb_eq in E. exfalso. apply Hn. rewrite E. apply in_map. exact Hin.
  - destruct Hin as [-> | Hin]; [rewrite String.eqb_refl in E; discriminate | ].
    apply IH; assumption.
Qed.

(** The loop of lines 115-122, in whatever order the chunks are listed:
    every chunk is found, deleted, and copied to its own offset; what was
    right in the array stays right. *)
Lemma copy_chunks_spec cs : forall buf w,
  NoDup (map (chunk_name identifier) cs) ->
  Forall (slice_of orig) cs ->
  (forall c, In c cs -> Dir.read (chunk_name identifier c) (tmp w) = Some (snd c)) ->
  List.length buf = List.length orig ->
  exists buf',
    copy_chunks (map readChunk (map (chunk_name identifier) cs)) buf w
      = (Eff.Next buf',
         set_tmp (Dir.remove_all (map (chunk_name identifier) cs) (tmp w)) w)
    /\ List.length buf' = List.length orig
    /\ forall i,
         (exists c, In c cs /\ (fst c <= i < fst c + List.length (snd c))%nat)
         \/ nth i buf Byte.x00 = nth i orig Byte.x00 ->
         nth i buf' Byte.x00 = nth i orig Byte.x00.
Proof.
  induction cs as [ | c cs IH]; intros buf w Hnd Hgood Hread Hlen.
  - exists buf. simpl. rewrite set_tmp_same.
    split; [reflexivity | ]. split; [exact Hlen | ].
    intros i [[c [[] _]] | H]. exact H.
  - inversion Hnd as [ | ? ? Hn Hr]; subst.
    inversion Hgood as [ | ? ? [Hfit Hbytes] Hgood']; subst.
    simpl map. cbn [copy_chunks Dir.remove_all]. unfold readChunk at 1 2 3.
    cbn [chunk_filename].
    fold (readChunk (chunk_name identifier c)).
    rewrite (chunk_name_start identifier c Hid).
    unfold Eff.bind at 1. unfold readFile at 1. rewrite (Hread c (or_introl eq_refl)).
    unfold Eff.bind at 1. unfold unlink at 1. rewrite (Hread c (or_introl eq_refl)).
    rewrite set_at by lia.
    set (buf1 := firstn (fst c) buf ++ snd c ++ skipn (fst c + List.length (snd c)) buf).
    assert (Hlen1 : List.length buf1 = List.length orig).
    { unfold buf1. rewrite set_length by lia. exact Hlen. }
    assert (Hread1 : forall c', In c' cs ->
              Dir.read (chunk_name identifier c')
                       (tmp (set_tmp (Dir.remove (chunk_name identifier c) (tmp w)) w))
              = Some (snd c')).
    { intros c' Hc'. cbn [tmp set_tmp].
      rewrite read_after_remove; [apply Hread; right; exact Hc' | ].
      destruct (chunk_name identifier c =? chunk_name identifier c')%string eqn:E;
        [ | reflexivity].
      apply String.eqb_eq in E. exfalso. apply Hn. rewrite E. apply in_map. exact Hc'. }
    destruct (IH buf1 (set_tmp (Dir.remove (chunk_name identifier c) (tmp w)) w) Hr Hgood'
                 Hread1 Hlen1) as [buf' [Hrun [Hlen' Hnth]]].
    exists buf'. split; [rewrite Hrun; reflexivity | ]. split; [exact Hlen' | ].
    intros i Hi. apply Hnth.
    assert (Hc : (fst c <= i < fst c + List.length (snd c))%nat ->
                 nth i buf1 Byte.x00 = nth i orig Byte.x00).
    { intros Hr'. unfold buf1. rewrite set_nth by lia.
      replace (fst c <=? i)%nat with true by (symmetry; apply Nat.leb_le; lia).
      replace (i <? fst c + List.length (snd c))%nat with true
        by (symmetry; apply Nat.ltb_lt; lia).
      simpl. rewrite Hbytes by lia. f_equal. lia. }
    destruct Hi as [[c' [[<- | Hin] Hr']] | Hold].
    + right. apply Hc. exact Hr'.
    + left. exists c'. split; assumption.
    + right. unfold buf1. rewrite set_nth by lia.
      destruct ((fst c <=? i)%nat && (i <? fst c + List.length (snd c))%nat) eqn:E;
        [ | exact Hold].
      apply andb_true_iff in E. destruct E as [E1 E2].
      apply Nat.leb_le in E1. apply Nat.ltb_lt in E2.
      specialize (Hc (conj E1 E2)). unfold buf1 in Hc. rewrite set_nth in Hc by lia.
      replace (fst c <=? i)%nat with true in Hc by (symmetry; apply Nat.leb_le; lia).
      replace (i <? fst c + List.length (snd c))%nat with true in Hc
        by (symmetry; apply Nat.ltb_lt; lia).
      exact Hc.
Qed.

(** Lines 103-122 on the chunks [cs] of one session, stored in any order and
    listed in any order: each is a piece of [orig] with its own offset.  The
    array comes back with the length of [orig]; it agrees with [orig] at
    every index a chunk covers and at every index where [orig] holds a zero
    byte; and the session's chunks are gone from the directory. *)
Lemma reassemble_slices env cs w :
  NoDup (map fst cs) ->
  Forall (slice_of orig) cs ->
  tmp w = store_chunks identifier cs d0 ->
  (forall l, Permutation (readdir_order env l) l) ->
  Z.of_nat (List.length orig) <= max_array_length env ->
  exists buf',
    reassemble env identifier (Some (Fin (Z.of_nat (List.length orig)))) w
      = (Eff.Next buf', set_tmp d0 w)
    /\ List.length buf' = List.length orig
    /\ forall i,
         (exists c, In c cs /\ (fst c <= i < fst c + List.length (snd c))%nat)
         \/ nth i orig Byte.x00 = Byte.x00 ->
         nth i buf' Byte.x00 = nth i orig Byte.x00.
Proof.
  intros Hstarts Hgood Htmp Hord Hmax.
  pose proof (names_NoDup cs Hstarts) as Hnames.
  rewrite (store_chunks_appends cs d0 Hnames) in Htmp
    by (intros c _; apply name_not_in_d0).
  unfold reassemble, Eff.bind, readdir. rewrite Htmp.
  set (pre := fun x => startsWith x (partial_prefix identifier)).
  assert (HL : Permutation
                 (filter pre (readdir_order env
                                (Dir.list_names (d0 ++ map (chunk_entry identifier) cs))))
                 (map (chunk_name identifier) cs)).
  { apply (perm_trans (filter_perm pre (Hord _))). unfold pre.
    unfold Dir.list_names at 1. rewrite map_app, filter_app.
    fold (Dir.list_names d0). fold (Dir.list_names (map (chunk_entry identifier) cs)).
    rewrite (filter_none _ _ Hd0), names_of_entries.
    rewrite filter_all by (intros x Hx; apply in_map_iff in Hx;
                           destruct Hx as [c [<- _]]; apply chunk_name_prefix).
    apply Permutation_refl. }
  destruct (Permutation_map_inv _ _ HL) as [cs' [HL' Hperm]].
  rewrite HL'. clear HL HL'.
  rewrite (Uint8Array_new_zeros env (List.length orig) Hmax).
  assert (Hnames' : NoDup (map (chunk_name identifier) cs')).
  { apply (Permutation_NoDup (l := map (chunk_name identifier) cs));
      [apply Permutation_map; exact Hperm | exact Hnames]. }
  assert (Hgood' : Forall (slice_of orig) cs').
  { apply Forall_forall. intros c Hc. apply (Forall_forall (slice_of orig) cs);
      [exact Hgood | ]. apply (Permutation_in _ (Permutation_sym Hperm)). exact Hc. }
  assert (Hread : forall c, In c cs' ->
                    Dir.read (chunk_name identifier c) (tmp w) = Some (snd c)).
  { intros c Hc. rewrite Htmp. apply read_stored; [exact Hnames | ].
    apply (Permutation_in _ (Permutation_sym Hperm)). exact Hc. }
  destruct (@copy_chunks_spec cs' (repeat Byte.x00 (List.length orig)) w
              Hnames' Hgood' Hread (repeat_length _ _)) as [buf' [Hrun [Hlen Hnth]]].
  exists buf'. rewrite Hrun, Htmp.
  split.
  - f_equal. f_equal. rewrite remove_all_app.
    rewrite remove_all_absent
      by (intros n Hn; apply in_map_iff in Hn; destruct Hn as [c [<- _]];
          apply name_not_in_d0).
    rewrite remove_all_listed; [apply app_nil_r | ].
    intros e He. apply in_map_iff in He. destruct He as [c [<- Hc]]. simpl.
    apply in_map. apply (Permutation_in _ Hperm). exact Hc.
  - split; [exact Hlen | ].
    intros i [[c [Hc Hr]] | Hz]; apply Hnth.
    + left. exists c. split; [apply (Permutation_in _ Hperm); exact Hc | exact Hr].
    + right. rewrite nth_repeat. symmetry. exact Hz.
Qed.

End OneSession.

(** Reassembly is right for every order of submission and every order of
    listing.  A byte sequence is cut into consecutive, non-empty pieces --
    they cover it without gap or overlap -- and the pieces are written as
    chunks in any order [cs].  If the session identifier holds no underscore,
    the temporary directory held no other entry with the session's prefix,
    the file system lists every entry once, and the runtime allocates an
    array of the file's length, lines 103-122 yield exactly the byte
    sequence, delete every chunk of the session, and leave the rest of the
    directory as it was. *)
Theorem reassemble_tiling env identifier ps cs d0 w :
  has_char "_" (template identifier) = false ->
  Forall (fun p => p <> []) ps ->
  Permutation cs (pieces_from 0 ps) ->
  (forall n, In n (Dir.list_names d0) -> startsWith n (partial_prefix identifier) = false) ->
  tmp w = store_chunks identifier cs d0 ->
  (forall l, Permutation (readdir_order env l) l) ->
  Z.of_nat (List.length (List.concat ps)) <= max_array_length env ->
  reassemble env identifier (Some (Fin (Z.of_nat (List.length (List.concat ps))))) w
  = (Eff.Next (List.concat ps), set_tmp d0 w).
Proof.
  intros Hid Hne Hperm Hd0 Htmp Hord Hmax.
  set (orig := List.concat ps).
  assert (Hstarts : NoDup (map fst cs)).
  { apply (Permutation_NoDup (l := map fst (pieces_from 0 ps))).
    - apply Permutation_map. symmetry. exact Hperm.
    - apply pieces_starts_NoDup. exact Hne. }
  assert (Hgood : Forall (slice_of orig) cs).
  { apply Forall_forall. intros c Hc.
    apply (Permutation_in _ Hperm) in Hc.
    destruct (pieces_slice _ _ _ Hc) as [_ [H2 H3]].
    split; [exact H2 | ]. intros j Hj. rewrite (H3 j Hj). f_equal. lia. }
  destruct (@reassemble_slices identifier Hid orig d0 Hd0 env cs w
              Hstarts Hgood Htmp Hord Hmax) as [buf' [Hrun [Hlen Hnth]]].
  rewrite Hrun. f_equal. f_equal.
  apply (nth_ext _ _ Byte.x00 Byte.x00); [exact Hlen | ].
  intros i Hi. apply Hnth. left.
  destruct (@pieces_cover ps 0%nat i) as [c [Hc Hr]]; [fold orig; lia | ].
  exists c. split; [ | exact Hr].
  apply (Permutation_in _ (Permutation_sym Hperm)). exact Hc.
Qed.

(** "helloworld" in two pieces, written last piece first, under the
    identifier "ab", next to a chunk of another session. *)
Lemma reassemble_tiling_witness :
  reassemble Scenario.env (Some "ab") (Some (Fin 10))
    (set_tmp [("zipline_partial_zz_0_0", Scenario.ascii_bytes "!");
              ("zipline_partial_ab_5_9", Scenario.ascii_bytes "world");
              ("zipline_partial_ab_0_4", Scenario.ascii_bytes "hello")] Scenario.world)
  = (Eff.Next (Scenario.ascii_bytes "helloworld"),
     set_tmp [("zipline_partial_zz_0_0", Scenario.ascii_bytes "!")] Scenario.world).
Proof.
  refine (@reassemble_tiling Scenario.env (Some "ab")
            [Scenario.ascii_bytes "hello"; Scenario.ascii_bytes "world"]
            [(5%nat, Scenario.ascii_bytes "world"); (0%nat, Scenario.ascii_bytes "hello")]
            [("zipline_partial_zz_0_0", Scenario.ascii_bytes "!")]
            (set_tmp _ Scenario.world) eq_refl _ _ _ eq_refl _ _).
  - repeat constructor; discriminate.
  - apply perm_swap.
  - intros n [<- | []]. reflexivity.
  - intros l. apply Permutation_refl.
  - discriminate.
Defined.

End ReassemblyFacts.

(** ** The byte range of a chunk, from the header to the chunk's name and back
       (lines 75-79, 98 and 107-110) *)

Module RangeFacts.
Import Upload JS Session.

Lemma length_append a b :
  String.length (a ++ b) = (String.length a + String.length b)%nat.
Proof. induction a as [ | c a IH]; simpl; [reflexivity | rewrite IH; reflexivity]. Qed.

Lemma substring_all s : String.substring 0 (String.length s) s = s.
Proof. induction s as [ | c s IH]; simpl; [reflexivity | rewrite IH; reflexivity]. Qed.

Lemma substring_none s : String.substring 0 0 s = "".
Proof. destruct s; reflexivity. Qed.

Lemma substring_take a x : String.substring 0 (String.length a) (a ++ x) = a.
Proof.
  induction a as [ | c a IH]; simpl; [destruct x; reflexivity | rewrite IH; reflexivity].
Qed.

Lemma substring_drop a n x :
  String.substring (String.length a) n (a ++ x) = String.substring 0 n x.
Proof. induction a as [ | c a IH]; simpl; [reflexivity | exact IH]. Qed.

Lemma index_prefix p s :
  p <> "" -> String.prefix p s = true -> String.index 0 p s = Some 0%nat.
Proof.
  intros Hp H. destruct s as [ | b s].
  - destruct p; [contradiction | discriminate H].
  - cbn [String.index]. rewrite H. reflexivity.
Qed.

(** The first occurrence of a character that the text before it lacks. *)
Lemma index_char c a b :
  has_char c a = false ->
  String.index 0 (String c "") (a ++ String c b) = Some (String.length a).
Proof.
  induction a as [ | x a IH]; intros H.
  - simpl. destruct (ascii_dec c c) as [_ | Hne]; [ | contradiction].
    destruct b; reflexivity.
  - simpl in H. apply orb_false_iff in H. destruct H as [Hx Ha].
    change ((String x a ++ String c b)%string) with (String x (a ++ String c b)).
    cbn [String.index String.prefix].
    destruct (ascii_dec c x) as [-> | _]; [rewrite Ascii.eqb_refl in Hx; discriminate | ].
    rewrite (IH Ha). reflexivity.
Qed.

Lemma replace_prefix p s : p <> "" -> replace p "" (p ++ s) = s.
Proof.
  intros Hp. unfold replace.
  rewrite (@index_prefix p (p ++ s) Hp (UploadFacts.prefix_app p s)).
  rewrite length_append. cbn [Nat.add].
  replace (String.length p + String.length s - String.length p)%nat
    with (String.length s) by lia.
  rewrite substring_drop, substring_all, substring_none. reflexivity.
Qed.

Lemma replace_char c rep a b :
  has_char c a = false ->
  replace (String c "") rep (a ++ String c b) = (a ++ rep ++ b)%string.
Proof.
  intros H. unfold replace. rewrite (index_char c a b H), substring_take.
  change (a ++ String c b)%string with (a ++ (String c "" ++ b))%string.
  rewrite <- (UploadFacts.append_assoc a (String c "") b).
  replace (String.length a + String.length (String c ""))%nat
    with (String.length (a ++ String c "")) by apply length_append.
  rewrite (length_append (a ++ String c "") b).
  replace (String.length (a ++ String c "") + String.length b
           - String.length (a ++ String c ""))%nat with (String.length b) by lia.
  rewrite substring_drop, substring_all. reflexivity.
Qed.

Lemma uint_has_no_slash d : has_char "/" (NilEmpty.string_of_uint d) = false.
Proof. induction d; simpl; auto. Qed.

Lemma number_has_no_slash z : has_char "/" (number_toString (Fin z)) = false.
Proof.
  unfold number_toString, NilZero.string_of_int, NilZero.string_of_uint.
  destruct (Z.to_int z) as [d | d]; destruct d; simpl; auto using uint_has_no_slash.
Qed.

Lemma uint_has_no_minus d : has_char "-" (NilEmpty.string_of_uint d) = false.
Proof. induction d; simpl; auto. Qed.

Lemma natural_has_no_minus z : 0 <= z -> has_char "-" (number_toString (Fin z)) = false.
Proof.
  intros Hz. unfold number_toString, NilZero.string_of_int, NilZero.string_of_uint.
  destruct z as [ | q | q]; [reflexivity | | lia].
  simpl. destruct (Pos.to_uint q); simpl; auto using uint_has_no_minus.
Qed.

(** The header the client writes for the bytes [s] to [e] of [t]. *)
Lemma parse_content_range_bytes s e t :
  0 <= s ->
  parse_content_range ("bytes " ++ number_toString (Fin s) ++ "-" ++ number_toString (Fin e)
                         ++ "/" ++ number_toString (Fin t))
  = (Some (Fin s), Some (Fin e), Some (Fin t)).
Proof.
  intros Hs. unfold parse_content_range.
  rewrite replace_prefix by discriminate.
  change (number_toString (Fin s) ++ "-" ++ number_toString (Fin e) ++ "/"
            ++ number_toString (Fin t))%string
    with (number_toString (Fin s)
            ++ String "-" (number_toString (Fin e) ++ String "/" (number_toString (Fin t))))%string.
  rewrite (replace_char "-" "/" _ _ (natural_has_no_minus Hs)).
  change ("/" ++ number_toString (Fin e) ++ String "/" (number_toString (Fin t)))%string
    with (String "/" (number_toString (Fin e) ++ String "/" (number_toString (Fin t)))).
  rewrite (@ReassemblyFacts.split_field "/" _ _ (number_has_no_slash s)).
  rewrite (@ReassemblyFacts.split_field "/" _ _ (number_has_no_slash e)).
  rewrite (@ReassemblyFacts.split_without "/" _ (number_has_no_slash t)).
  cbn [map nth_error]. rewrite !ReassemblyFacts.Number_number_toString. reflexivity.
Qed.

Lemma range_of_header req s e t :
  header req "content-range" = Some (content_range s e t) -> 0 <= s ->
  parse_content_range (template (header req "content-range"))
  = (Some (Fin s), Some (Fin e), Some (Fin t)).
Proof.
  intros H Hs. rewrite H. cbn [template]. apply parse_content_range_bytes. exact Hs.
Qed.

(** The range a client announces comes back unchanged at reassembly.  The
    header [bytes s-e/t], written with decimal numbers of safe magnitude and
    a start that is not negative, is read as start [s], end [e] and total
    [t]; the chunk is stored under a name made of the identifier, [s] and
    [e]; and when the identifier holds no underscore, the start and the end
    read back from that name are [s] and [e] again. *)
Theorem chunk_range_round_trip identifier s e t :
  0 <= s -> safe s -> safe e -> safe t ->
  has_char "_" (template identifier) = false ->
  let header := content_range s e t in
  let name := tempFile identifier (fst (fst (parse_content_range header)))
                       (snd (fst (parse_content_range header))) in
  parse_content_range header = (Some (Fin s), Some (Fin e), Some (Fin t))
  /\ name = tempFile identifier (Some (Fin s)) (Some (Fin e))
  /\ readChunk name = mkChunk (Fin s) (Fin e) name.
Proof.
  intros Hs _ _ _ Hid header name. unfold name, header, content_range.
  rewrite (@parse_content_range_bytes s e t Hs).
  split; [reflexivity | ]. split; [reflexivity | ].
  apply ReassemblyFacts.readChunk_tempFile. exact Hid.
Qed.

(** The header [bytes 5-9/10] under the identifier "ab". *)
Lemma chunk_range_round_trip_witness :
  parse_content_range "bytes 5-9/10" = (Some (Fin 5), Some (Fin 9), Some (Fin 10))
  /\ tempFile (Some "ab") (fst (fst (parse_content_range "bytes 5-9/10")))
               (snd (fst (parse_content_range "bytes 5-9/10")))
     = "zipline_partial_ab_5_9"
  /\ readChunk "zipline_partial_ab_5_9" = mkChunk (Fin 5) (Fin 9) "zipline_partial_ab_5_9".
Proof.
  assert (Hsafe : forall z, 0 <= z <= 10 -> safe z) by (unfold safe, MAX_SAFE_INTEGER; lia).
  exact (@chunk_range_round_trip (Some "ab") 5 9 10 ltac:(lia)
           (Hsafe 5 ltac:(lia)) (Hsafe 9 ltac:(lia)) (Hsafe 10 ltac:(lia)) eq_refl).
Defined.

End RangeFacts.

(** ** The first file of a chunk request (lines 73-100 and 223-224) *)

Module ChunkGuardFacts.
Import Upload JS Session.

(** C10.  For a request that passes authorization and the header checks:
    when it carries a content-range header, the handler goes straight to
    [req.files[0].buffer].  With an empty (or missing) files array that access
    is an exception, raised before anything was written.  With a first file,
    its buffer is written to the temporary directory under the chunk's name;
    this is shown for a chunk that is not the last, whose range is written
    with decimal numbers of safe magnitude and whose identifier makes the
    name one entry of the directory.  The answer "no files" is given only on
    the other path, to a request without a content-range header. *)
Theorem chunk_request_reads_first_file_unguarded
        env cfg req w user prm response w1 :
  truthy (header req "authorization") = true ->
  find (fun u => (User.token u =? template (header req "authorization"))%string) (users w)
    = Some user ->
  read_params env cfg req w = (Eff.Next (prm, response), w1) ->
  (truthy (header req "content-range") = true ->
     ((req_files req = Some [] \/ req_files req = None) ->
        handler env cfg req w = (Threw "TypeError", w))
     /\ (forall file0 rest s e t,
           req_files req = Some (file0 :: rest) -> lastchunk req = false ->
           header req "content-range" = Some (content_range s e t) ->
           0 <= s -> safe s -> safe e -> safe t ->
           plain_identifier (header req "x-zipline-partial-identifier") = true ->
           handler env cfg req w =
             (JsonSuccess,
              set_tmp (Dir.write (tempFile (header req "x-zipline-partial-identifier")
                                           (Some (Fin s)) (Some (Fin e)))
                                 (buffer file0) (tmp w)) w)))
  /\ (truthy (header req "content-range") = false ->
      User.ratelimit user = None -> req_files req = Some [] ->
      handler env cfg req w = (BadRequest "no files", w)).
Proof.
  intros Hauth Huser Hprm.
  assert (w1 = w) by (eapply ParamFacts.read_params_pure; eassumption). subst w1.
  assert (Hbody : handler_body env cfg req w =
                  (if truthy (header req "content-range")
                   then partial_upload env cfg req user prm response
                   else whole_upload env cfg req user prm response) w).
  { unfold handler_body. rewrite Hauth. simpl.
    unfold Eff.bind at 1. unfold user_findFirst_token. rewrite Huser.
    unfold Eff.bind at 1. rewrite Hprm. reflexivity. }
  unfold handler, Eff.run. rewrite Hbody. clear Hbody.
  split.
  - intros Hcr. rewrite Hcr. unfold partial_upload. split.
    + destruct (parse_content_range (template (header req "content-range")))
        as [[start end_] total].
      intros [Hf | Hf]; rewrite Hf; reflexivity.
    + intros file0 rest s e t Hf Hlast Hrange Hs _ _ _ _.
      rewrite Hrange. cbn [template]. unfold content_range.
      rewrite (@RangeFacts.parse_content_range_bytes s e t Hs).
      rewrite Hf, Hlast. reflexivity.
  - intros Hcr Hlimit Hf. rewrite Hcr. unfold whole_upload, check_ratelimit.
    rewrite Hlimit, Hf. reflexivity.
Qed.

(** Bob's chunk request with no file ends in the exception; with a file, the
    chunk lands in the temporary directory; his empty whole upload is told
    "no files". *)
Lemma chunk_request_reads_first_file_unguarded_witness :
  handler Scenario.env Scenario.cfg Requests.empty_chunk Scenario.world
    = (Threw "TypeError", Scenario.world)
  /\ tmp (snd (handler Scenario.env Scenario.cfg Requests.first_chunk Scenario.world))
     = [("zipline_partial_s1_0_4", Scenario.ascii_bytes "hello")]
  /\ handler Scenario.env Scenario.cfg Requests.empty_batch Scenario.world
     = (BadRequest "no files", Scenario.world).
Proof.
  assert (Hsafe : forall z, 0 <= z <= 10 -> safe z) by (unfold safe, MAX_SAFE_INTEGER; lia).
  split; [ | split].
  - refine (proj1 (proj1 (chunk_request_reads_first_file_unguarded
                            Scenario.env Scenario.cfg Requests.empty_chunk
                            Scenario.world (user := Scenario.bob)
                            eq_refl eq_refl eq_refl) eq_refl) (or_introl eq_refl)).
  - rewrite (proj2 (proj1 (chunk_request_reads_first_file_unguarded
                            Scenario.env Scenario.cfg Requests.first_chunk
                            Scenario.world (user := Scenario.bob)
                            eq_refl eq_refl eq_refl) eq_refl)
               _ _ 0 4 10 eq_refl eq_refl eq_refl ltac:(lia)
               (Hsafe 0 ltac:(lia)) (Hsafe 4 ltac:(lia)) (Hsafe 10 ltac:(lia)) eq_refl).
    reflexivity.
  - refine (proj2 (chunk_request_reads_first_file_unguarded
                     Scenario.env Scenario.cfg Requests.empty_batch
                     Scenario.world (user := Scenario.bob)
                     eq_refl eq_refl eq_refl) eq_refl eq_refl eq_refl).
Defined.

End ChunkGuardFacts.

(** ** A whole session, from the last chunk's request (lines 73-199) *)

Module SessionFacts.
Import Upload JS Session UploadFacts.

Lemma partial_fileName_next env cfg fmt filename w :
  exists fileName w', partial_fileName env cfg fmt filename w = (Eff.Next fileName, w')
                      /\ quiet w w'.
Proof.
  unfold partial_fileName, oracle, Eff.bind, Eff.ret.
  destruct fmt as [[ | | | ] | ]; eexists; eexists;
    (split; [reflexivity | unfold quiet; repeat split]).
Qed.

Lemma partial_domain_next env cfg req user w :
  exists domain w', partial_domain env cfg req user w = (Eff.Next domain, w') /\ quiet w w'.
Proof.
  unfold partial_domain, random_domain, oracle, Eff.bind, Eff.ret.
  destruct (truthy (header req "override-domain")); [ | destruct (negb _)];
    eexists; eexists; (split; [reflexivity | unfold quiet; repeat split]).
Qed.

Lemma partial_strip_gps_next cfg mt file response w :
  exists body w',
    partial_strip_gps cfg (Some mt) file response w = (Eff.Next (Json body), w')
    /\ quiet w w' /\ body_files body = body_files response.
Proof.
  unfold partial_strip_gps.
  destruct (exif_enabled cfg && exif_remove_gps cfg); [destruct (startsWith mt "image/") | ];
    eexists; eexists; (split; [reflexivity | split; [unfold quiet; repeat split | reflexivity] ]).
Qed.

(** With a file name of an allowed extension and a mimetype, the reassembled
    bytes are stored: one new row, and the bytes under its name. *)
Lemma store_partial_next env cfg req user prm response fn mt chunks w :
  includes (uploader_disabled_extensions cfg) (extension fn) = false ->
  exists body w' created,
    store_partial env cfg req user prm response (Some fn) (Some mt) chunks w
      = (Eff.Next (Json body), w')
    /\ files w' = files w ++ [created]
    /\ blobs w' = Dir.write (File.name created) chunks (blobs w)
    /\ tmp w' = tmp w
    /\ users w' = users w.
Proof.
  intros Hx. unfold store_partial. rewrite Hx.
  unfold Eff.bind at 1.
  destruct (partial_fileName_next env cfg (format prm) fn w) as [fileName [w1 [E1 Q1]]].
  rewrite E1.
  assert (Hc : exists used, compression_used (imageCompressionPercent prm) (Some mt)
                            = Some used).
  { unfold compression_used. destruct (truthy_num _); simpl; eauto. }
  destruct Hc as [used Hc]. rewrite Hc.
  unfold Eff.bind at 1. unfold file_create.
  set (row := new_row env _ w1). set (w2 := set_tick _ _).
  unfold Eff.bind at 1.
  destruct (make_invis_next env cfg req row w2) as [invis [w3 [E3 Q3]]]. rewrite E3.
  unfold Eff.bind at 1. unfold datasource_save, Eff.modify.
  set (w4 := set_blobs _ w3).
  unfold Eff.bind at 1.
  destruct (partial_domain_next env cfg req user w4) as [domain [w5 [E5 Q5]]]. rewrite E5.
  unfold Eff.bind at 1.
  destruct (notify_next cfg user domain invis row (responseUrl cfg domain invis row) w5)
    as [w6 [E6 Q6]].
  rewrite E6.
  destruct (partial_strip_gps_next cfg mt row
              (push_file (responseUrl cfg domain invis row) response) w6)
    as [body [w7 [E7 [Q7 _]]]].
  rewrite E7. exists body, w7, row.
  split; [reflexivity | ].
  pose proof (quiet_trans Q5 (quiet_trans Q6 Q7)) as Q.
  destruct Q as [Qu [Qf [Qb [Qt [Qn Qs]]]]].
  destruct Q3 as [Q3u [Q3f [Q3b [Q3t [Q3n Q3s]]]]].
  destruct Q1 as [Q1u [Q1f [Q1b [Q1t [Q1n Q1s]]]]].
  split; [rewrite Qf; unfold w4; simpl; rewrite Q3f; unfold w2; simpl;
          rewrite Q1f; reflexivity | ].
  split; [rewrite Qb; unfold w4; simpl; rewrite Q3b; unfold w2; simpl;
          rewrite Q1b; reflexivity | ].
  split; [rewrite Qt; unfold w4; simpl; rewrite Q3t; unfold w2; simpl;
          rewrite Q1t; reflexivity | ].
  rewrite Qu; unfold w4; simpl; rewrite Q3u; unfold w2; simpl; rewrite Q1u; reflexivity.
Qed.

(** The request with the last chunk of a session whose chunks cover a byte
    sequence without gap or overlap: the chunk is written, all chunks are put
    together and deleted, and the byte sequence goes on to be stored under
    the file name and the mimetype of the request. *)
Lemma last_chunk_reassembles env cfg req user prm response ps cs d0 w file0 rest s :
  req_files req = Some (file0 :: rest) ->
  lastchunk req = true ->
  header req "content-range"
    = Some (content_range (Z.of_nat s)
                          (Z.of_nat (s + List.length (buffer file0)) - 1)
                          (Z.of_nat (List.length (List.concat ps)))) ->
  has_char "_" (template (header req "x-zipline-partial-identifier")) = false ->
  Z.of_nat (List.length (List.concat ps)) <= max_array_length env ->
  (forall l, Permutation (readdir_order env l) l) ->
  Forall (fun p => p <> []) ps ->
  Permutation (cs ++ [(s, buffer file0)]) (pieces_from 0 ps) ->
  (forall n, In n (Dir.list_names d0) ->
             startsWith n (partial_prefix (header req "x-zipline-partial-identifier")) = false) ->
  tmp w = store_chunks (header req "x-zipline-partial-identifier") cs d0 ->
  partial_upload env cfg req user prm response w
  = store_partial env cfg req user prm response
      (header req "x-zipline-partial-filename") (header req "x-zipline-partial-mimetype")
      (List.concat ps) (set_tmp d0 w).
Proof.
  intros Hfiles Hlast Hcr Hid Hmax Hord Hne Hperm Hd0 Htmp.
  pose proof (RangeFacts.range_of_header req Hcr (Nat2Z.is_nonneg s)) as Hrange.
  set (identifier := header req "x-zipline-partial-identifier") in *.
  unfold partial_upload. rewrite Hrange, Hfiles, Hlast.
  unfold Eff.bind at 1. unfold writeFile, Eff.modify. fold identifier.
  set (w1 := set_tmp _ w).
  assert (Htmp1 : tmp w1 = store_chunks identifier (cs ++ [(s, buffer file0)]) d0).
  { unfold w1, store_chunks. rewrite fold_left_app. simpl.
    fold (store_chunks identifier cs d0). rewrite <- Htmp. reflexivity. }
  unfold finish_partial. unfold Eff.bind at 1.
  rewrite (@ReassemblyFacts.reassemble_tiling env identifier ps _ d0 w1
             Hid Hne Hperm Hd0 Htmp1 Hord Hmax).
  reflexivity.
Qed.

(** The chunks of a session cover a byte sequence without gap or overlap;
    all but one were stored by earlier requests, in any order, and the
    remaining one arrives with the request marked as last.  The range is
    written with decimal numbers; the identifier holds no underscore and
    makes the chunks' names entries of the temporary directory, which holds
    nothing else under the session's prefix and is listed entry by entry, in
    whatever order; the length of the file is a safe integer and within what
    the runtime allocates.  Then the request is
    answered with the JSON body, the new row's stored bytes are the byte
    sequence, and the session's chunks are gone from the temporary
    directory. *)
Theorem last_chunk_stores_the_whole_file
        env cfg req user prm response ps cs d0 w file0 rest s fn mt :
  req_files req = Some (file0 :: rest) ->
  lastchunk req = true ->
  header req "content-range"
    = Some (content_range (Z.of_nat s)
                          (Z.of_nat (s + List.length (buffer file0)) - 1)
                          (Z.of_nat (List.length (List.concat ps)))) ->
  plain_identifier (header req "x-zipline-partial-identifier") = true ->
  has_char "_" (template (header req "x-zipline-partial-identifier")) = false ->
  Z.of_nat (List.length (List.concat ps)) <= MAX_SAFE_INTEGER ->
  Z.of_nat (List.length (List.concat ps)) <= max_array_length env ->
  (forall l, Permutation (readdir_order env l) l) ->
  Forall (fun p => p <> []) ps ->
  Permutation (cs ++ [(s, buffer file0)]) (pieces_from 0 ps) ->
  (forall n, In n (Dir.list_names d0) ->
             startsWith n (partial_prefix (header req "x-zipline-partial-identifier")) = false) ->
  tmp w = store_chunks (header req "x-zipline-partial-identifier") cs d0 ->
  header req "x-zipline-partial-filename" = Some fn ->
  includes (uploader_disabled_extensions cfg) (extension fn) = false ->
  header req "x-zipline-partial-mimetype" = Some mt ->
  exists body w' created,
    partial_upload env cfg req user prm response w = (Eff.Next (Json body), w')
    /\ files w' = files w ++ [created]
    /\ Dir.read (File.name created) (blobs w') = Some (List.concat ps)
    /\ tmp w' = d0.
Proof.
  intros Hfiles Hlast Hcr _ Hid _ Hmax Hord Hne Hperm Hd0 Htmp Hfn Hx Hmt.
  rewrite (@last_chunk_reassembles env cfg req user prm response ps cs d0 w file0 rest s
             Hfiles Hlast Hcr Hid Hmax Hord Hne Hperm Hd0 Htmp).
  rewrite Hfn, Hmt.
  destruct (@store_partial_next env cfg req user prm response fn mt (List.concat ps)
              (set_tmp d0 w) Hx) as [body [w' [created [Hrun [Hf [Hb [Ht Hu]]]]]]].
  exists body, w', created. split; [exact Hrun | ].
  split; [rewrite Hf; reflexivity | ].
  split; [rewrite Hb; apply CompressionFacts.read_write_same | ].
  rewrite Ht. reflexivity.
Qed.

(** Bob's "world", marked last, arrives after "hello" under the identifier
    "ab": the stored file is "helloworld" and the directory is empty again. *)
Lemma last_chunk_stores_the_whole_file_witness :
  exists body w' created,
    partial_upload Scenario.env Scenario.cfg (Requests.chunk_world "ab") Scenario.bob
                   (mkParams None (Some RANDOM) None None) Requests.empty_body
                   (set_tmp [("zipline_partial_ab_0_4", Scenario.ascii_bytes "hello")]
                            Scenario.world)
      = (Eff.Next (Json body), w')
    /\ files w' = [created]
    /\ Dir.read (File.name created) (blobs w') = Some (Scenario.ascii_bytes "helloworld")
    /\ tmp w' = [].
Proof.
  refine (@last_chunk_stores_the_whole_file
            Scenario.env Scenario.cfg (Requests.chunk_world "ab") Scenario.bob
            (mkParams None (Some RANDOM) None None) Requests.empty_body
            [Scenario.ascii_bytes "hello"; Scenario.ascii_bytes "world"]
            [(0%nat, Scenario.ascii_bytes "hello")] []
            (set_tmp _ Scenario.world) _ _ 5%nat "greeting.txt" "text/plain"
            eq_refl eq_refl eq_refl eq_refl eq_refl _ _ _ _ _ _ eq_refl
            eq_refl eq_refl eq_refl).
  - discriminate.
  - discriminate.
  - intros l. apply Permutation_refl.
  - repeat constructor; discriminate.
  - apply Permutation_refl.
  - intros n [].
Defined.

End SessionFacts.

(** ** The cooldown after a completed batch (lines 206-221 and 338-358) *)

Module BatchFacts.
Import Upload JS UploadFacts.

(** Storing files does not touch the user table. *)
Lemma upload_files_users env cfg req user prm fs :
  forall i response w response' w',
    upload_files env cfg req user prm i fs response w = (Eff.Next response', w') ->
    users w' = users w.
Proof.
  induction fs as [ | file fs IH]; intros i response w response' w' H; simpl in H.
  - inversion H. reflexivity.
  - unfold Eff.bind in H.
    destruct (upload_file env cfg req user prm i file response w) as [[r1 | r] w1] eqn:E1;
      [ | discriminate].
    apply upload_file_next in E1.
    destruct E1 as [fileName [w0 [invis [domain [_ [Hq [_ [Hu _]]]]]]]].
    destruct Hq as [Hq _].
    rewrite (IH _ _ _ _ _ H), Hu, Hq. reflexivity.
Qed.

Lemma set_ratelimit_twice (uid : Z) (r1 r2 : option Z) (us : list User.t) :
  map (fun u => if User.id u =? uid then User.set_ratelimit r2 u else u)
      (map (fun u => if User.id u =? uid then User.set_ratelimit r1 u else u) us)
  = map (fun u => if User.id u =? uid then User.set_ratelimit r2 u else u) us.
Proof.
  rewrite map_map. apply map_ext. intros u.
  destruct (User.id u =? uid) eqn:E; simpl; rewrite E; reflexivity.
Qed.

(** After a whole batch that ran to its answer, an administrator's cooldown
    is the clock plus the configured seconds, provided the configured
    administrator cooldown is positive; the other users' rows are as before.
    The clock is read once, after the loop over the files: it is the reading
    at the state [w2] the loop left, and the last reading of the request. *)
Theorem completed_batch_sets_admin_cooldown env cfg req user prm response w r w' :
  User.administrator user = true ->
  0 < ratelimit_admin cfg ->
  whole_upload env cfg req user prm response w = (Eff.Next r, w') ->
  exists fs w1 response' w2,
    req_files req = Some fs
    /\ check_ratelimit env user w = (Eff.Next tt, w1)
    /\ upload_files env cfg req user prm 0 fs response w1 = (Eff.Next response', w2)
    /\ tick w' = S (tick w2)
    /\ users w' =
       map (fun u => if User.id u =? User.id user
                     then User.set_ratelimit
                            (Some (Date_now env (tick w2) + ratelimit_admin cfg * 1000)) u
                     else u) (users w).
Proof.
  intros Ha Hpos H. unfold whole_upload in H.
  unfold Eff.bind at 1 in H.
  destruct (check_ratelimit env user w) as [[[] | r0] w1] eqn:Ec; [ | discriminate].
  assert (Hu1 : users w1 = match User.ratelimit user with
                           | Some _ => map (fun u => if User.id u =? User.id user
                                                     then User.set_ratelimit None u else u)
                                           (users w)
                           | None => users w
                           end).
  { unfold check_ratelimit in Ec. destruct (User.ratelimit user) as [until | ].
    - unfold Eff.bind, oracle in Ec.
      destruct (until - Date_now env (tick w) <=? 0); [ | discriminate].
      inversion Ec. reflexivity.
    - inversion Ec. reflexivity. }
  destruct (req_files req) as [fs | ]; [ | discriminate].
  destruct (Nat.eqb (List.length fs) 0); [discriminate | ].
  unfold Eff.bind at 1 in H.
  destruct (upload_files env cfg req user prm 0 fs response w1) as [[resp | r0] w2] eqn:Ef;
    [ | discriminate].
  pose proof (upload_files_users _ _ _ _ _ _ _ _ _ Ef) as Hu2.
  unfold Eff.bind at 1 in H.
  rewrite (CooldownFacts.update_cooldown_admin env cfg user w2 Ha Hpos) in H.
  exists fs, w1, resp, w2.
  split; [reflexivity | ]. split; [reflexivity | ]. split; [exact Ef | ].
  destruct (truthy (header req "no-json")); inversion H; subst; simpl;
    (split; [reflexivity | ]); rewrite Hu2, Hu1; destruct (User.ratelimit user);
    [apply set_ratelimit_twice | reflexivity | apply set_ratelimit_twice | reflexivity].
Qed.

(** Alice's batch of one picture: the clock of the sample deployment reads
    1000002 after the file is stored, and her cooldown lasts until three
    seconds later. *)
Lemma completed_batch_sets_admin_cooldown_witness :
  users (snd (whole_upload Scenario.env Scenario.cfg Requests.alice_uploads Scenario.alice
                           (mkParams None (Some RANDOM) None None) Requests.empty_body
                           Scenario.world))
  = [User.set_ratelimit (Some (1000002 + 3000)) Scenario.alice; Scenario.bob; Scenario.carol].
Proof.
  destruct (whole_upload Scenario.env Scenario.cfg Requests.alice_uploads Scenario.alice
                         (mkParams None (Some RANDOM) None None) Requests.empty_body
                         Scenario.world) as [[r | r] w'] eqn:E;
    [ | vm_compute in E; discriminate E].
  destruct (completed_batch_sets_admin_cooldown Scenario.env Scenario.cfg
              Requests.alice_uploads Scenario.alice _ _ _ eq_refl eq_refl E)
    as [fs [w1 [response' [w2 [_ [_ [_ [Ht Hu]]]]]]]].
  pose proof E as Ec. vm_compute in Ec. injection Ec as _ Hw.
  rewrite <- Hw in Ht. cbn [tick] in Ht. injection Ht as Ht.
  cbn [snd]. rewrite Hu, <- Ht. reflexivity.
Defined.

(** Bob's batch sets none, although a user cooldown of 5 seconds is
    configured. *)
Example completed_batch_of_non_admin :
  users (snd (whole_upload Scenario.env Scenario.cfg Requests.bob_uploads Scenario.bob
                           (mkParams None (Some RANDOM) None None) Requests.empty_body
                           Scenario.world))
  = users Scenario.world.
Proof. vm_compute. reflexivity. Qed.

End BatchFacts.

(** ** The configuration validator (the file with [dot], lines 1-44) *)

Module ConfigCheckFacts.
Import ConfigCheck JS.

(** Only [undefined] and [null] have no properties to read. *)
Lemma get_defined v k :
  match v with VUndefined | VNull => False | _ => True end -> get v k <> None.
Proof. destruct v; simpl; intros H; try contradiction; discriminate. Qed.

(** A path of two names is read in two steps. *)
Lemma dot_of_section config s k :
  Session.has_char "." s = false -> Session.has_char "." k = false ->
  dot (s ++ String "." k) config
  = match get config s with Some v => get v k | None => None end.
Proof.
  intros Hs Hk. unfold dot.
  rewrite (@ReassemblyFacts.split_field "." s k Hs), (@ReassemblyFacts.split_without "." k Hk).
  reflexivity.
Qed.

Lemma dot_with_section config s k :
  Session.has_char "." s = false -> Session.has_char "." k = false ->
  has_section config s = true -> dot (s ++ String "." k) config <> None.
Proof.
  intros Hs Hk H. rewrite (@dot_of_section config s k Hs Hk).
  unfold has_section in H. destruct (get config s) as [v | ]; [ | discriminate].
  apply get_defined. destruct v; try exact I; discriminate.
Qed.

Lemma dot_without_section config s k :
  Session.has_char "." s = false -> Session.has_char "." k = false ->
  has_section config s = false -> dot (s ++ String "." k) config = None.
Proof.
  intros Hs Hk H. rewrite (@dot_of_section config s k Hs Hk).
  unfold has_section in H. destruct (get config s) as [v | ]; [ | reflexivity].
  destruct v; try discriminate; reflexivity.
Qed.

(** Each of the ten paths names a section and a setting in it. *)
Lemma paths_shape p :
  In p paths ->
  exists s k, In s sections /\ Session.has_char "." s = false
              /\ Session.has_char "." k = false /\ p_path p = (s ++ String "." k)%string.
Proof.
  intros Hp.
  exists (nth 0 (split "." (p_path p)) ""), (nth 1 (split "." (p_path p)) "").
  simpl in Hp.
  repeat (destruct Hp as [<- | Hp]; [vm_compute; repeat split; auto | ]).
  destruct Hp.
Qed.

(** With the three sections in place every one of the ten paths can be read. *)
Lemma sections_defined config :
  forallb (has_section config) sections = true ->
  forall p, In p paths -> dot (p_path p) config <> None.
Proof.
  intros H p Hp.
  destruct (@paths_shape p Hp) as [s [k [Hs [Hds [Hdk ->]]]]].
  apply dot_with_section; try assumption.
  exact (proj1 (forallb_forall _ _) H s Hs).
Qed.

(** One turn of the loop complains once about a setting that is missing or
    of another type, and not at all about one that is as asked. *)
Lemma check_path_spec config p r :
  dot (p_path p) config <> None ->
  check_path config p r
  = Some (if satisfied config p then r else complain (complaint config p) r).
Proof.
  unfold check_path, satisfied, complaint.
  destruct (dot (p_path p) config) as [v | ]; [intros _ | congruence].
  destruct v; cbn [is_undefined typeof negb andb]; try reflexivity;
    destruct (String.eqb _ (p_type p)); reflexivity.
Qed.

Lemma check_path_reads config p r r' :
  check_path config p r = Some r' -> dot (p_path p) config <> None.
Proof. unfold check_path. destruct (dot (p_path p) config); [discriminate | discriminate]. Qed.

(** The loop, when every path can be read: the counter grows by the number
    of faults and the log by their complaints, in the order of the paths. *)
Lemma check_paths_spec config ps : forall r,
  (forall p, In p ps -> dot (p_path p) config <> None) ->
  check_paths config ps r
  = Finished (mkReport (errors r + Z.of_nat (List.length (faults config ps)))
                       (logged r ++ map (complaint config) (faults config ps))).
Proof.
  induction ps as [ | p ps IH]; intros r H; simpl.
  - rewrite Z.add_0_r, app_nil_r. destruct r; reflexivity.
  - rewrite (@check_path_spec config p r (H p (or_introl eq_refl))).
    rewrite IH by (intros q Hq; apply H; right; exact Hq).
    destruct (satisfied config p); simpl.
    + reflexivity.
    + rewrite <- app_assoc. simpl. f_equal. f_equal. lia.
Qed.

Lemma check_paths_finished config ps : forall r r',
  check_paths config ps r = Finished r' ->
  forall p, In p ps -> dot (p_path p) config <> None.
Proof.
  induction ps as [ | p ps IH]; intros r r' H q Hq; simpl in *; [contradiction | ].
  destruct (check_path config p r) as [r1 | ] eqn:E; [ | discriminate].
  destruct Hq as [<- | Hq].
  - eapply check_path_reads; eassumption.
  - eapply IH; eassumption.
Qed.

(** The loop stops at the first path that cannot be read. *)
Lemma check_paths_crash config ps1 p ps2 r :
  (forall q, In q ps1 -> dot (p_path q) config <> None) ->
  dot (p_path p) config = None ->
  check_paths config (ps1 ++ p :: ps2) r
  = Crashed (mkReport (errors r + Z.of_nat (List.length (faults config ps1)))
                      (logged r ++ map (complaint config) (faults config ps1))).
Proof.
  revert r. induction ps1 as [ | q ps1 IH]; intros r H Hp; simpl.
  - unfold check_path. rewrite Hp, Z.add_0_r, app_nil_r. destruct r; reflexivity.
  - rewrite (@check_path_spec config q r (H q (or_introl eq_refl))).
    rewrite IH by (try (intros x Hx; apply H; right); assumption).
    destruct (satisfied config q); simpl.
    + reflexivity.
    + rewrite <- app_assoc. simpl. f_equal. f_equal. lia.
Qed.

(** Whether a path can be read depends on its section alone. *)
Lemma path_readable config p :
  In p paths -> has_section config (stem (p_path p)) = true ->
  dot (p_path p) config <> None.
Proof.
  intros Hp. destruct (paths_shape Hp) as [s [k [_ [Hs [Hk ->]]]]].
  unfold stem. rewrite (@ReassemblyFacts.split_field "." s k Hs). simpl.
  apply dot_with_section; assumption.
Qed.

Lemma path_unreadable config p :
  In p paths -> has_section config (stem (p_path p)) = false ->
  dot (p_path p) config = None.
Proof.
  intros Hp. destruct (paths_shape Hp) as [s [k [_ [Hs [Hk ->]]]]].
  unfold stem. rewrite (@ReassemblyFacts.split_field "." s k Hs). simpl.
  apply dot_without_section; assumption.
Qed.

(** None of the ten settings is asked to be [undefined]. *)
Lemma paths_types p : In p paths -> (p_type p =? "undefined")%string = false.
Proof.
  intros Hp. simpl in Hp.
  repeat (destruct Hp as [<- | Hp]; [reflexivity | ]). destruct Hp.
Qed.

Lemma filter_nil {A} (f : A -> bool) l :
  filter f l = [] -> forall x, In x l -> f x = false.
Proof.
  induction l as [ | a l IH]; simpl; intros H x Hx; [contradiction | ].
  destruct (f a) eqn:E; [discriminate | ].
  destruct Hx as [<- | Hx]; [exact E | exact (IH H x Hx)].
Qed.

(** When the loop over [ps] is followed by lines 40-43 and the outcome is a
    resolved promise with an empty log, every path could be read and none
    was at fault. *)
Lemma resolved_without_fault config ps :
  match check_paths config ps (mkReport 0 []) with
  | Crashed r => (Threw "TypeError", logged r)
  | Finished r =>
      if negb (errors r =? 0)
      then (Exited 1,
            logged r
              ++ [("exiting due to " ++ number_toString (Fin (errors r)) ++ " errors")%string])
      else (Resolved, logged r)
  end = (Resolved, []) ->
  (forall p, In p ps -> dot (p_path p) config <> None) /\ faults config ps = [].
Proof.
  intros H.
  destruct (check_paths config ps (mkReport 0 [])) as [r | r] eqn:E; [ | discriminate].
  pose proof (check_paths_finished _ _ _ E) as Hread.
  split; [exact Hread | ].
  rewrite (check_paths_spec config ps (mkReport 0 []) Hread) in E.
  inversion E; subst r; clear E. cbn [errors logged app] in H.
  destruct (negb _) in H; [discriminate H | ].
  inversion H as [Hm]. apply map_eq_nil in Hm. exact Hm.
Qed.

(** The validator lets a configuration pass, and logs nothing, exactly
    when each of the ten settings can be read and has the type asked for;
    whatever else the configuration holds plays no part. *)
Theorem validator_accepts_iff config :
  validator config = (Resolved, [])
  <-> Forall (fun p => exists v, dot (p_path p) config = Some v /\ typeof v = p_type p)
             paths.
Proof.
  split.
  - intros H. apply (resolved_without_fault config paths) in H. destruct H as [_ Hm].
    apply Forall_forall. intros p Hp.
    pose proof (@filter_nil _ _ _ Hm p Hp) as Hs. apply negb_false_iff in Hs.
    unfold satisfied in Hs. destruct (dot (p_path p) config) as [v | ]; [ | discriminate].
    apply andb_true_iff in Hs. destruct Hs as [_ Hs].
    exists v. split; [reflexivity | apply String.eqb_eq; exact Hs].
  - intros H. rewrite Forall_forall in H.
    assert (Hread : forall p, In p paths -> dot (p_path p) config <> None).
    { intros p Hp. destruct (H p Hp) as [v [Hv _]]. congruence. }
    assert (Hf : faults config paths = []).
    { apply ReassemblyFacts.filter_none. intros p Hp.
      destruct (H p Hp) as [v [Hv Ht]]. unfold satisfied. rewrite Hv, Ht, String.eqb_refl.
      pose proof (paths_types Hp) as Hu. rewrite <- Ht in Hu.
      destruct v; try reflexivity. discriminate Hu. }
    unfold validator. rewrite (check_paths_spec config paths (mkReport 0 []) Hread), Hf.
    reflexivity.
Qed.

(** The sample configuration passes. *)
Lemma validator_accepts_iff_witness : validator sample = (Resolved, []).
Proof.
  apply (proj2 (validator_accepts_iff sample)).
  repeat constructor; eexists; split; reflexivity.
Defined.

(** When the three sections are in place the validator goes through all
    ten settings: each one that is missing or of another type is logged once,
    in the order of the list, with the message of its kind; if there is any
    such setting a last line counts them and the process exits with code 1,
    and otherwise the promise resolves with an empty log. *)
Theorem validator_reports_every_fault config :
  forallb (has_section config) sections = true ->
  validator config =
    match faults config paths with
    | [] => (Resolved, [])
    | bad =>
        (Exited 1,
         map (complaint config) bad
           ++ [("exiting due to " ++ number_toString (Fin (Z.of_nat (List.length bad)))
                  ++ " errors")%string])
    end.
Proof.
  intros H. unfold validator.
  rewrite (check_paths_spec config paths (mkReport 0 []) (sections_defined config H)).
  cbn [errors logged app]. rewrite Z.add_0_l.
  destruct (faults config paths) as [ | bad rest]; [reflexivity | ].
  replace (Z.of_nat (List.length (bad :: rest)) =? 0) with false; [reflexivity | ].
  symmetry. apply Z.eqb_neq. simpl List.length. lia.
Qed.

(** The port is a string and the uploader directory is missing: two
    complaints, the count, and exit code 1. *)
Lemma validator_reports_every_fault_witness :
  validator sample_with_two_faults =
    (Exited 1,
     ["expected number on core.port, but got string";
      "there was no uploader.directory in config";
      "exiting due to 2 errors"]).
Proof. exact (validator_reports_every_fault sample_with_two_faults eq_refl). Defined.

(** The validator ends in a TypeError, and neither counts nor exits,
    exactly when one of the sections [core], [database], [uploader] cannot be
    read or is [undefined] or [null]: [dot] reads a property of it.  The
    exception is raised at the first setting of the first such section, so
    the log holds the complaints about the settings before it, and nothing
    at all when the [core] section is the one that is missing. *)
Theorem validator_throws_without_a_section config :
  (fst (validator config) = Threw "TypeError"
   <-> forallb (has_section config) sections = false)
  /\ (forallb (has_section config) sections = false ->
      exists ps1 p ps2,
        paths = ps1 ++ p :: ps2
        /\ dot (p_path p) config = None
        /\ validator config = (Threw "TypeError", map (complaint config) (faults config ps1)))
  /\ (has_section config "core" = false -> validator config = (Threw "TypeError", [])).
Proof.
  assert (Hcrash : forall ps1 p ps2,
             paths = ps1 ++ p :: ps2 ->
             (forall q, In q ps1 -> dot (p_path q) config <> None) ->
             dot (p_path p) config = None ->
             validator config
             = (Threw "TypeError", map (complaint config) (faults config ps1))).
  { intros ps1 p ps2 Hps Hread Hp. unfold validator.
    rewrite Hps, (check_paths_crash config ps1 p ps2 (mkReport 0 []) Hread Hp).
    reflexivity. }
  assert (Hfirst : forallb (has_section config) sections = false ->
             exists ps1 p ps2,
               paths = ps1 ++ p :: ps2
               /\ dot (p_path p) config = None
               /\ validator config
                  = (Threw "TypeError", map (complaint config) (faults config ps1))).
  { intros H. simpl in H.
    destruct (has_section config "core") eqn:Hc;
      [destruct (has_section config "database") eqn:Hd;
        [destruct (has_section config "uploader") eqn:Hu; [discriminate H | ] | ] | ].
    - exists (firstn 6 paths), (nth 6 paths (path "" "")), (skipn 7 paths).
      assert (Hp : dot (p_path (nth 6 paths (path "" ""))) config = None)
        by (apply path_unreadable; [simpl; tauto | exact Hu]).
      split; [reflexivity | split; [exact Hp | ] ].
      apply (Hcrash (firstn 6 paths) (nth 6 paths (path "" "")) (skipn 7 paths) eq_refl);
        [ | exact Hp].
      intros q Hq. simpl in Hq.
      repeat (destruct Hq as [<- | Hq];
              [apply path_readable; [simpl; tauto | first [exact Hc | exact Hd] ] | ]).
      destruct Hq.
    - exists (firstn 4 paths), (nth 4 paths (path "" "")), (skipn 5 paths).
      assert (Hp : dot (p_path (nth 4 paths (path "" ""))) config = None)
        by (apply path_unreadable; [simpl; tauto | exact Hd]).
      split; [reflexivity | split; [exact Hp | ] ].
      apply (Hcrash (firstn 4 paths) (nth 4 paths (path "" "")) (skipn 5 paths) eq_refl);
        [ | exact Hp].
      intros q Hq. simpl in Hq.
      repeat (destruct Hq as [<- | Hq];
              [apply path_readable; [simpl; tauto | exact Hc] | ]).
      destruct Hq.
    - exists [], (nth 0 paths (path "" "")), (skipn 1 paths).
      assert (Hp : dot (p_path (nth 0 paths (path "" ""))) config = None)
        by (apply path_unreadable; [simpl; tauto | exact Hc]).
      split; [reflexivity | split; [exact Hp | ] ].
      apply (Hcrash [] (nth 0 paths (path "" "")) (skipn 1 paths) eq_refl);
        [ | exact Hp].
      intros q []. }
  split; [ | split].
  - split.
    + intros H. destruct (forallb (has_section config) sections) eqn:E; [ | reflexivity].
      unfold validator in H.
      rewrite (check_paths_spec config paths (mkReport 0 []) (sections_defined config E)) in H.
      destruct (negb _) in H; discriminate H.
    + intros H. destruct (Hfirst H) as [ps1 [p [ps2 [_ [_ ->]]]]]. reflexivity.
  - exact Hfirst.
  - intros Hc.
    apply (Hcrash [] (nth 0 paths (path "" "")) (skipn 1 paths) eq_refl).
    + intros q [].
    + apply path_unreadable; [simpl; tauto | exact Hc].
Qed.

(** A configuration without a [database] section: the TypeError comes at
    [database.type], after the complaint about the port. *)
Lemma validator_throws_without_a_section_witness :
  fst (validator sample_without_database) = Threw "TypeError"
  /\ has_section sample_without_database "database" = false
  /\ validator (VObject []) = (Threw "TypeError", []).
Proof.
  split; [ | split].
  - exact (proj2 (proj1 (validator_throws_without_a_section sample_without_database))
             eq_refl).
  - reflexivity.
  - exact (proj2 (proj2 (validator_throws_without_a_section (VObject []))) eq_refl).
Defined.

End ConfigCheckFacts.

(** ** Who may upload, and with which parameters (lines 22-70 and 206-221) *)

Module AccessFacts.
Import Upload JS.

(** Past authorization and the header checks the handler is one of its two
    paths, chosen by the content-range header. *)
Lemma handler_dispatch env cfg req w user prm response w1 :
  truthy (header req "authorization") = true ->
  find (fun u => (User.token u =? template (header req "authorization"))%string) (users w)
    = Some user ->
  read_params env cfg req w = (Eff.Next (prm, response), w1) ->
  handler env cfg req w =
    Eff.run (if truthy (header req "content-range")
             then partial_upload env cfg req user prm response
             else whole_upload env cfg req user prm response) w.
Proof.
  intros Hauth Huser Hprm.
  assert (w1 = w) by (eapply ParamFacts.read_params_pure; eassumption). subst w1.
  unfold handler, Eff.run, handler_body. rewrite Hauth. simpl.
  unfold Eff.bind at 1. unfold user_findFirst_token. rewrite Huser.
  unfold Eff.bind at 1. rewrite Hprm. reflexivity.
Qed.

(** A header check that fails ends the request where it stands. *)
Lemma handler_refuses env cfg req w user r w1 :
  truthy (header req "authorization") = true ->
  find (fun u => (User.token u =? template (header req "authorization"))%string) (users w)
    = Some user ->
  read_params env cfg req w = (Eff.Return r, w1) ->
  handler env cfg req w = (r, w).
Proof.
  intros Hauth Huser Hprm.
  assert (w1 = w) by (eapply ParamFacts.read_params_pure; eassumption). subst w1.
  unfold handler, Eff.run, handler_body. rewrite Hauth. simpl.
  unfold Eff.bind at 1. unfold user_findFirst_token. rewrite Huser.
  unfold Eff.bind at 1. rewrite Hprm. reflexivity.
Qed.

(** A request without an authorization header (or with an empty one) is
    answered 403 "no authorization", and a request whose token no user has
    403 "authorization incorrect"; neither changes anything, whatever else
    the request carries. *)
Theorem unauthorized_request_is_refused env cfg req w :
  (truthy (header req "authorization") = false ->
   handler env cfg req w = (Forbidden "no authorization", w))
  /\ (truthy (header req "authorization") = true ->
      find (fun u => (User.token u =? template (header req "authorization"))%string)
           (users w) = None ->
      handler env cfg req w = (Forbidden "authorization incorrect", w)).
Proof.
  unfold handler, Eff.run, handler_body. split.
  - intros H. rewrite H. reflexivity.
  - intros H Hnone. rewrite H. simpl.
    unfold Eff.bind at 1. unfold user_findFirst_token. rewrite Hnone. reflexivity.
Qed.

(** A picture sent without credentials, and one sent with a token nobody
    has. *)
Lemma unauthorized_request_is_refused_witness :
  handler Scenario.env Scenario.cfg Requests.anonymous_upload Scenario.world
    = (Forbidden "no authorization", Scenario.world)
  /\ handler Scenario.env Scenario.cfg Requests.stranger_upload Scenario.world
     = (Forbidden "authorization incorrect", Scenario.world).
Proof.
  split.
  - exact (proj1 (unauthorized_request_is_refused Scenario.env Scenario.cfg
                    Requests.anonymous_upload Scenario.world) eq_refl).
  - exact (proj2 (unauthorized_request_is_refused Scenario.env Scenario.cfg
                    Requests.stranger_upload Scenario.world) eq_refl eq_refl).
Defined.

(** For an authorized request whose expiry headers pass, the two
    numeric headers are checked in this order, before anything is written and
    before the request is taken as a chunk or as a whole upload: a
    compression percent that is no number, then one below 0 or above 100,
    then (the percent being acceptable) a max-views that is no number, then
    one below 0.  Each is answered 400 with its own message and changes
    nothing.  "No number" is shown for a text that opens with a letter other
    than I, and the ranges for decimal integers of safe magnitude. *)
Theorem invalid_numeric_header_is_refused env cfg req w user e body w1 :
  truthy (header req "authorization") = true ->
  find (fun u => (User.token u =? template (header req "authorization"))%string) (users w)
    = Some user ->
  read_expiry env cfg req w = (Eff.Next (e, body), w1) ->
  let percent := header req "image-compression-percent" in
  let views := header req "max-views" in
  (forall s, percent = Some s -> opens_with_letter s = true ->
   handler env cfg req w
   = (BadRequest "invalid image compression percent (invalid number)", w))
  /\ (forall s p, percent = Some s -> decimal_literal s = true -> Number s = Fin p ->
      safe p -> p < 0 \/ 100 < p ->
      handler env cfg req w
      = (BadRequest "invalid image compression percent (% < 0 || % > 100)", w))
  /\ (forall s, percent_accepted percent -> views = Some s -> opens_with_letter s = true ->
      handler env cfg req w = (BadRequest "invalid max views (invalid number)", w))
  /\ (forall s v, percent_accepted percent ->
      views = Some s -> decimal_literal s = true -> Number s = Fin v -> safe v -> v < 0 ->
      handler env cfg req w = (BadRequest "invalid max views (max views < 0)", w)).
Proof.
  intros Hauth Huser Hexp percent views.
  set (npercent := number_header req "image-compression-percent").
  set (nviews := number_header req "max-views").
  assert (Hnum : forall k s, header req k = Some s -> truthy (Some s) = true ->
                             number_header req k = Some (Number s)).
  { intros k s Hk Ht. unfold number_header. rewrite Hk, Ht. reflexivity. }
  assert (Hok : percent_accepted percent ->
                isNaN npercent = false
                /\ (lt npercent (Some (Fin 0)) || lt (Some (Fin 100)) npercent) = false).
  { unfold npercent, number_header. fold percent.
    intros [Hp | [s [p [Hp [Hd [Hn Hr]]]]]].
    - rewrite Hp. split; reflexivity.
    - rewrite Hp, (NumberFacts.decimal_literal_truthy s Hd). cbn [template]. rewrite Hn.
      split; [reflexivity | ]. unfold lt. simpl.
      apply orb_false_iff. split; [apply Z.ltb_ge | apply Z.ltb_ge]; lia. }
  assert (Hrun : forall r,
             (let '(expiry, response) := (e, body) in
              if isNaN npercent
              then Eff.exit (BadRequest "invalid image compression percent (invalid number)")
              else if lt npercent (Some (Fin 0)) || lt (Some (Fin 100)) npercent
              then Eff.exit (BadRequest "invalid image compression percent (% < 0 || % > 100)")
              else if isNaN nviews
              then Eff.exit (BadRequest "invalid max views (invalid number)")
              else if lt nviews (Some (Fin 0))
              then Eff.exit (BadRequest "invalid max views (max views < 0)")
              else Eff.ret (mkParams expiry (read_format cfg req) npercent nviews, response)) w1
             = (Eff.Return r, w1) ->
             handler env cfg req w = (r, w)).
  { intros r H. apply (handler_refuses env cfg req w (w1 := w1) Hauth Huser).
    unfold read_params. unfold Eff.bind at 1. rewrite Hexp. exact H. }
  repeat split.
  - intros s Hp Hs. apply Hrun. cbv beta iota zeta. unfold npercent.
    rewrite (Hnum _ s Hp (NumberFacts.opens_with_letter_truthy s Hs)).
    rewrite (NumberFacts.Number_opens_with_letter s Hs). reflexivity.
  - intros s p Hp Hd Hn _ Hrange. apply Hrun. cbv beta iota zeta. unfold npercent.
    rewrite (Hnum _ s Hp (NumberFacts.decimal_literal_truthy s Hd)), Hn.
    replace (lt (Some (Fin p)) (Some (Fin 0)) || lt (Some (Fin 100)) (Some (Fin p)))
      with true; [reflexivity | ].
    symmetry. apply orb_true_iff. unfold lt. simpl.
    destruct Hrange; [left | right]; apply Z.ltb_lt; assumption.
  - intros s Hp Hv Hs. apply Hrun. cbv beta iota zeta.
    destruct (Hok Hp) as [-> ->]. unfold nviews.
    rewrite (Hnum _ s Hv (NumberFacts.opens_with_letter_truthy s Hs)).
    rewrite (NumberFacts.Number_opens_with_letter s Hs). reflexivity.
  - intros s v Hp Hv Hd Hn _ Hneg. apply Hrun. cbv beta iota zeta.
    destruct (Hok Hp) as [-> ->]. unfold nviews.
    rewrite (Hnum _ s Hv (NumberFacts.decimal_literal_truthy s Hd)), Hn.
    replace (lt (Some (Fin v)) (Some (Fin 0))) with true; [reflexivity | ].
    symmetry. unfold lt. simpl. apply Z.ltb_lt. exact Hneg.
Qed.

(** Bob's chunk with 150 percent is refused before the chunk is written, his
    upload with -1 views before a file is stored, and so is his upload whose
    percent reads "half". *)
Lemma invalid_numeric_header_is_refused_witness :
  handler Scenario.env Scenario.cfg Requests.bob_percent_150 Scenario.world
    = (BadRequest "invalid image compression percent (% < 0 || % > 100)", Scenario.world)
  /\ handler Scenario.env Scenario.cfg Requests.bob_views_minus_1 Scenario.world
     = (BadRequest "invalid max views (max views < 0)", Scenario.world)
  /\ handler Scenario.env Scenario.cfg Requests.bob_percent_half Scenario.world
     = (BadRequest "invalid image compression percent (invalid number)", Scenario.world).
Proof.
  assert (Hsafe : forall z, -1 <= z <= 150 -> safe z) by (unfold safe, MAX_SAFE_INTEGER; lia).
  split; [ | split].
  - refine (proj1 (proj2 (@invalid_numeric_header_is_refused
                            Scenario.env Scenario.cfg Requests.bob_percent_150 Scenario.world
                            Scenario.bob None Requests.empty_body Scenario.world
                            eq_refl eq_refl eq_refl))
                  "150" 150 eq_refl eq_refl eq_refl (Hsafe 150 ltac:(lia)) _).
    right. reflexivity.
  - refine (proj2 (proj2 (proj2 (@invalid_numeric_header_is_refused
                            Scenario.env Scenario.cfg Requests.bob_views_minus_1 Scenario.world
                            Scenario.bob None Requests.empty_body Scenario.world
                            eq_refl eq_refl eq_refl)))
                  "-1" (-1) _ eq_refl eq_refl eq_refl (Hsafe (-1) ltac:(lia)) _).
    + left. reflexivity.
    + reflexivity.
  - exact (proj1 (@invalid_numeric_header_is_refused
                    Scenario.env Scenario.cfg Requests.bob_percent_half Scenario.world
                    Scenario.bob None Requests.empty_body Scenario.world
                    eq_refl eq_refl eq_refl) "half" eq_refl eq_refl).
Defined.

End AccessFacts.

(** ** The cooldown check (lines 206-221) *)

Module RatelimitFacts.
Import Upload JS.

(** Nothing in the loop over the files reads the caller's cooldown. *)
Lemma upload_files_ignore_cooldown env cfg req user prm r fs :
  forall i response w,
    upload_files env cfg req (User.set_ratelimit r user) prm i fs response w
    = upload_files env cfg req user prm i fs response w.
Proof.
  induction fs as [ | file fs IH]; intros i response w; simpl; [reflexivity | ].
  unfold Eff.bind.
  change (upload_file env cfg req (User.set_ratelimit r user) prm i file response w)
    with (upload_file env cfg req user prm i file response w).
  destruct (upload_file env cfg req user prm i file response w) as [[r1 | r1] w1];
    [apply IH | reflexivity].
Qed.

(** Once the check has let the request pass, the rest runs as for the same
    user without a cooldown. *)
Lemma whole_upload_after_check env cfg req user prm response w w2 :
  check_ratelimit env user w = (Eff.Next tt, w2) ->
  whole_upload env cfg req user prm response w
  = whole_upload env cfg req (User.set_ratelimit None user) prm response w2.
Proof.
  intros H. unfold whole_upload. unfold Eff.bind at 1. rewrite H.
  change (check_ratelimit env (User.set_ratelimit None user))
    with (@Eff.ret Response unit tt).
  destruct (req_files req) as [fs | ]; [ | reflexivity].
  destruct (Nat.eqb (List.length fs) 0); [reflexivity | ].
  cbv [Eff.bind Eff.ret].
  rewrite (upload_files_ignore_cooldown env cfg req user prm None fs 0 response w2).
  reflexivity.
Qed.

(** A whole upload by a user whose cooldown lies in the future is
    answered 429 with the milliseconds that remain; the clock was read and
    nothing else happened.  When the cooldown has passed, it is cleared in the
    user table and the request goes on exactly as that of a user without a
    cooldown. *)
Theorem cooldown_is_enforced_on_whole_uploads env cfg req w user prm response w1 until :
  truthy (header req "authorization") = true ->
  find (fun u => (User.token u =? template (header req "authorization"))%string) (users w)
    = Some user ->
  read_params env cfg req w = (Eff.Next (prm, response), w1) ->
  truthy (header req "content-range") = false ->
  User.ratelimit user = Some until ->
  (Date_now env (tick w) < until ->
   handler env cfg req w
   = (Ratelimited (until - Date_now env (tick w)), set_tick (S (tick w)) w))
  /\ (until <= Date_now env (tick w) ->
      handler env cfg req w
      = Eff.run (whole_upload env cfg req (User.set_ratelimit None user) prm response)
                (set_users (clear_cooldown (User.id user) (users w))
                           (set_tick (S (tick w)) w))).
Proof.
  intros Hauth Huser Hprm Hcr Hlimit.
  rewrite (AccessFacts.handler_dispatch env cfg req w Hauth Huser Hprm), Hcr.
  split; intros Hnow.
  - unfold Eff.run, whole_upload. unfold Eff.bind at 1. unfold check_ratelimit.
    rewrite Hlimit. unfold Eff.bind at 1. unfold oracle.
    replace (until - Date_now env (tick w) <=? 0) with false
      by (symmetry; apply Z.leb_gt; lia).
    reflexivity.
  - assert (Hc : check_ratelimit env user w
                 = (Eff.Next tt, set_users (clear_cooldown (User.id user) (users w))
                                           (set_tick (S (tick w)) w))).
    { unfold check_ratelimit. rewrite Hlimit. unfold Eff.bind, oracle.
      replace (until - Date_now env (tick w) <=? 0) with true
        by (symmetry; apply Z.leb_le; lia).
      reflexivity. }
    unfold Eff.run.
    rewrite (@whole_upload_after_check env cfg req user prm response w _ Hc).
    reflexivity.
Qed.

(** Bob uploads 500 ms before his cooldown ends. *)
Lemma cooldown_is_enforced_on_whole_uploads_witness :
  handler Scenario.env Scenario.cfg Requests.bob_uploads Requests.world_cooling
  = (Ratelimited 500, set_tick 1 Requests.world_cooling).
Proof.
  exact (proj1 (@cooldown_is_enforced_on_whole_uploads
                  Scenario.env Scenario.cfg Requests.bob_uploads Requests.world_cooling
                  Requests.bob_cooling (mkParams None (Some RANDOM) None None)
                  Requests.empty_body Requests.world_cooling 1000500
                  eq_refl eq_refl eq_refl eq_refl eq_refl) eq_refl).
Defined.

End RatelimitFacts.

(** ** The loop over the files of a whole upload (lines 238-336) *)

Module LoopFacts.
Import Upload JS UploadFacts.

(** A naming strategy never fails; only a supplied name can. *)
Lemma whole_fileName_outcome env cfg req fmt i file w :
  match fmt with
  | Some _ => True
  | None =>
      truthy (header req "x-zipline-filename") = false
      \/ find (fun f => (File.name f =? template (header req "x-zipline-filename"))%string)
              (files w) = None
  end ->
  exists fileName w1, whole_fileName env cfg req fmt i file w = (Eff.Next fileName, w1).
Proof.
  intros H. destruct fmt as [[ | | | ] | ];
    try (unfold whole_fileName, Eff.bind, oracle, Eff.ret; eauto; fail).
  destruct (truthy (header req "x-zipline-filename")) eqn:Hx.
  - destruct H as [H | H]; [discriminate | ].
    rewrite (@ExplicitNameFacts.whole_fileName_explicit env cfg req i file w Hx), H. eauto.
  - unfold whole_fileName. rewrite Hx. unfold Eff.bind, oracle, Eff.ret. eauto.
Qed.

(** The loop over a list of files is the loop over its first part followed,
    if that ran through, by the loop over the rest. *)
Lemma upload_files_app env cfg req user prm fs1 fs2 :
  forall i response w,
    upload_files env cfg req user prm i (fs1 ++ fs2) response w
    = match upload_files env cfg req user prm i fs1 response w with
      | (Eff.Next r1, w1) =>
          upload_files env cfg req user prm (i + List.length fs1) fs2 r1 w1
      | (Eff.Return e, w1) => (Eff.Return e, w1)
      end.
Proof.
  induction fs1 as [ | f fs1 IH]; intros i response w; simpl.
  - rewrite Nat.add_0_r. reflexivity.
  - unfold Eff.bind.
    destruct (upload_file env cfg req user prm i f response w) as [[r | e] w1];
      [ | reflexivity].
    rewrite IH, Nat.add_succ_r. reflexivity.
Qed.

(** A supplied name that is taken is found out before anything is done. *)
Lemma whole_fileName_return env cfg req fmt i file w e w' :
  whole_fileName env cfg req fmt i file w = (Eff.Return e, w') -> w' = w.
Proof.
  unfold whole_fileName, Eff.bind, oracle, Eff.ret, file_findFirst_name.
  destruct fmt as [[ | | | ] | ]; try discriminate.
  destruct (truthy (header req "x-zipline-filename")); [ | discriminate].
  destruct (find _ (files w)); [ | discriminate].
  intros H. inversion H. reflexivity.
Qed.

(** A file that is turned away leaves the state as it was. *)
Lemma upload_file_return env cfg req user prm i file response w e w' :
  upload_file env cfg req user prm i file response w = (Eff.Return e, w') -> w' = w.
Proof.
  intros H.
  destruct ((if User.administrator user then uploader_admin_limit cfg
             else uploader_user_limit cfg) <? size file) eqn:E1;
    [unfold upload_file in H; rewrite E1 in H; inversion H; reflexivity | ].
  destruct (originalname file =? "")%string eqn:E2;
    [unfold upload_file in H; rewrite E1, E2 in H; inversion H; reflexivity | ].
  destruct (includes (uploader_disabled_extensions cfg) (extension (originalname file)))
    eqn:E3;
    [unfold upload_file in H; rewrite E1, E2, E3 in H; inversion H; reflexivity | ].
  destruct (whole_fileName env cfg req (format prm) i file w) as [[fileName | e1] w1] eqn:En.
  - destruct (@ExplicitNameFacts.upload_file_total env cfg req user prm i file response w
                fileName w1 E1 E2 E3 En) as [response' [w2 Hrun]].
    congruence.
  - unfold upload_file in H. rewrite E1, E2, E3 in H.
    unfold Eff.bind at 1 in H. rewrite En in H. inversion H; subst.
    eapply whole_fileName_return. exact En.
Qed.

(** A file that fails none of the checks gets its row. *)
Lemma upload_file_passes env cfg req user prm i file response w :
  rejected cfg req user prm file w = false ->
  exists response' w',
    upload_file env cfg req user prm i file response w = (Eff.Next response', w').
Proof.
  unfold rejected. intros H.
  apply orb_false_iff in H. destruct H as [H E4].
  apply orb_false_iff in H. destruct H as [H E3].
  apply orb_false_iff in H. destruct H as [E1 E2].
  destruct (@whole_fileName_outcome env cfg req (format prm) i file w) as [fileName [w1 Hn]].
  { destruct (format prm) as [fmt | ]; [exact I | ].
    destruct (truthy (header req "x-zipline-filename")); [right | left; reflexivity].
    cbn [andb] in E4. destruct (find _ (files w)); [discriminate E4 | reflexivity]. }
  exact (@ExplicitNameFacts.upload_file_total env cfg req user prm i file response w
           fileName w1 E1 E2 E3 Hn).
Qed.

(** The checks of a file (lines 240-247 and 265-270) decide its 400.  When
    one of them fails on the state the file meets, the answer is a 400 and
    the state is exactly as before: nothing was created for the file.
    Conversely, a 400 for a file comes from these checks and from nothing
    else, and leaves the state as it was.  And whenever the turn of a file
    runs through, no check had failed, one row of the caller was added to
    the table, its bytes (the image library's output when compression is
    used) are in the blob store under the row's name, one URL was added to
    the answer, and the user table and the temporary directory are as
    before. *)
Theorem checks_decide_the_400_of_a_file env cfg req user prm i file response w :
  (rejected cfg req user prm file w = true ->
   exists msg,
     upload_file env cfg req user prm i file response w = (Eff.Return (BadRequest msg), w))
  /\ (forall msg w',
        upload_file env cfg req user prm i file response w
        = (Eff.Return (BadRequest msg), w') ->
        rejected cfg req user prm file w = true /\ w' = w)
  /\ (forall response' w',
        upload_file env cfg req user prm i file response w = (Eff.Next response', w') ->
        rejected cfg req user prm file w = false
        /\ exists created,
             files w' = files w ++ [created]
             /\ File.userId created = User.id user
             /\ Dir.read (File.name created) (blobs w')
                = Some (if whole_compressionUsed prm file
                        then sharp_jpeg env (imageCompressionPercent prm) (buffer file)
                        else buffer file)
             /\ List.length (body_files response') = S (List.length (body_files response))
             /\ users w' = users w
             /\ tmp w' = tmp w).
Proof.
  assert (Hyes : rejected cfg req user prm file w = true ->
                 exists msg,
                   upload_file env cfg req user prm i file response w
                   = (Eff.Return (BadRequest msg), w)).
  { unfold rejected, upload_file.
    destruct (_ <? size file); [intros _; eexists; reflexivity | ].
    destruct (originalname file =? "")%string; [intros _; eexists; reflexivity | ].
    destruct (includes _ _); [intros _; eexists; reflexivity | ].
    cbn [orb]. destruct (format prm) as [fmt | ]; [discriminate | ].
    destruct (truthy (header req "x-zipline-filename")) eqn:Hx; [ | discriminate].
    cbn [andb]. unfold Eff.bind at 1.
    rewrite (@ExplicitNameFacts.whole_fileName_explicit env cfg req i file w Hx).
    destruct (find _ (files w)); [intros _; eexists; reflexivity | discriminate]. }
  assert (Hno : forall response' w',
             upload_file env cfg req user prm i file response w = (Eff.Next response', w') ->
             rejected cfg req user prm file w = false).
  { intros response' w' Hrun.
    destruct (rejected cfg req user prm file w) eqn:E; [ | reflexivity].
    destruct (Hyes eq_refl) as [msg Hmsg]. congruence. }
  split; [exact Hyes | ]. split.
  - intros msg w' Hrun. split; [ | eapply upload_file_return; exact Hrun].
    destruct (rejected cfg req user prm file w) eqn:E; [reflexivity | ].
    destruct (upload_file_passes env cfg req user prm i file response w E)
      as [response' [w2 Hnext]].
    congruence.
  - intros response' w' Hrun. split; [exact (Hno _ _ Hrun) | ].
    destruct (upload_file_next _ _ _ _ _ _ _ _ _ Hrun)
      as [fileName' [w1' [invis [domain [Hn' [Hq [Hf [Hu [Ht [Hb [_ [_ Hr]]]]]]]]]]]].
    destruct Hq as [Qu [Qf [Qb [Qt _]]]].
    eexists.
    split; [rewrite Hf, Qf; reflexivity | ].
    split; [reflexivity | ].
    split; [rewrite Hb; apply CompressionFacts.read_write_same | ].
    split; [rewrite Hr, length_app, Nat.add_comm; reflexivity | ].
    split; [rewrite Hu, Qu; reflexivity | rewrite Ht, Qt; reflexivity].
Qed.

(** Bob's oversized file is turned away and nothing changes; his picture
    passes the checks and is stored. *)
Lemma checks_decide_the_400_of_a_file_witness :
  upload_file Scenario.env Scenario.cfg Requests.bob_three_files Scenario.bob
              (mkParams None (Some RANDOM) None None) 1 Requests.huge Requests.empty_body
              Scenario.world
  = (Eff.Return (BadRequest "file[1]: size too big"), Scenario.world)
  /\ rejected Scenario.cfg Requests.bob_uploads Scenario.bob
              (mkParams None (Some RANDOM) None None) Scenario.png Scenario.world = false.
Proof.
  split.
  - destruct (proj1 (checks_decide_the_400_of_a_file
                       Scenario.env Scenario.cfg Requests.bob_three_files Scenario.bob
                       (mkParams None (Some RANDOM) None None) 1 Requests.huge
                       Requests.empty_body Scenario.world) eq_refl) as [msg Hmsg].
    rewrite Hmsg. vm_compute in Hmsg. injection Hmsg as Hm. rewrite Hm. reflexivity.
  - destruct (upload_file Scenario.env Scenario.cfg Requests.bob_uploads Scenario.bob
                (mkParams None (Some RANDOM) None None) 0 Scenario.png Requests.empty_body
                Scenario.world) as [[response' | e] w'] eqn:E;
      [ | vm_compute in E; discriminate E].
    exact (proj1 (proj2 (proj2 (checks_decide_the_400_of_a_file
                       Scenario.env Scenario.cfg Requests.bob_uploads Scenario.bob
                       (mkParams None (Some RANDOM) None None) 0 Scenario.png
                       Requests.empty_body Scenario.world)) response' w' E)).
Defined.

(** A batch ends at its first file that is turned away.  The answer is that
    file's 400; the files before it stay stored, exactly as the loop over
    them alone leaves the state; nothing of the files after it is looked at,
    and the cooldown is not touched. *)
Theorem batch_stops_at_first_rejected_file
        env cfg req user prm response w fs1 f fs2 r1 w1 e w2 :
  User.ratelimit user = None ->
  req_files req = Some (fs1 ++ f :: fs2) ->
  upload_files env cfg req user prm 0 fs1 response w = (Eff.Next r1, w1) ->
  upload_file env cfg req user prm (List.length fs1) f r1 w1 = (Eff.Return e, w2) ->
  whole_upload env cfg req user prm response w = (Eff.Return e, w1)
  /\ users w1 = users w.
Proof.
  intros Hlimit Hfiles H1 H2.
  split; [ | eapply BatchFacts.upload_files_users; exact H1].
  pose proof (upload_file_return _ _ _ _ _ _ _ _ _ H2) as Hw. subst w2.
  unfold whole_upload, check_ratelimit. rewrite Hlimit, Hfiles.
  unfold Eff.bind at 1. unfold Eff.ret at 1.
  replace (Nat.eqb (List.length (fs1 ++ f :: fs2)) 0) with false
    by (rewrite length_app; simpl; rewrite Nat.add_succ_r; reflexivity).
  unfold Eff.bind at 1.
  rewrite upload_files_app, H1. simpl. unfold Eff.bind at 1. rewrite H2. reflexivity.
Qed.

(** Bob's three files: the picture is stored, the second file is too big,
    the third is never looked at. *)
Lemma batch_stops_at_first_rejected_file_witness :
  exists w1,
    whole_upload Scenario.env Scenario.cfg Requests.bob_three_files Scenario.bob
                 (mkParams None (Some RANDOM) None None) Requests.empty_body Scenario.world
    = (Eff.Return (BadRequest "file[1]: size too big"), w1)
    /\ map File.name (files w1) = ["rnd0.png"]
    /\ users w1 = users Scenario.world.
Proof.
  destruct (upload_files Scenario.env Scenario.cfg Requests.bob_three_files Scenario.bob
              (mkParams None (Some RANDOM) None None) 0 [Scenario.png]
              Requests.empty_body Scenario.world) as [[r1 | e1] w1] eqn:E1;
    [ | vm_compute in E1; discriminate E1].
  pose proof E1 as E1c. vm_compute in E1c. injection E1c as Hr Hw.
  assert (E2 : upload_file Scenario.env Scenario.cfg Requests.bob_three_files Scenario.bob
                 (mkParams None (Some RANDOM) None None) 1 Requests.huge r1 w1
               = (Eff.Return (BadRequest "file[1]: size too big"), w1))
    by (subst r1 w1; vm_compute; reflexivity).
  destruct (@batch_stops_at_first_rejected_file
              Scenario.env Scenario.cfg Requests.bob_three_files Scenario.bob
              (mkParams None (Some RANDOM) None None) Requests.empty_body Scenario.world
              [Scenario.png] Requests.huge [Scenario.pdf] r1 w1 _ w1
              eq_refl eq_refl E1 E2) as [Hrun Hu].
  exists w1. split; [exact Hrun | ]. split; [subst w1; reflexivity | exact Hu].
Defined.

(** The rows a batch creates, file by file.  When the loop runs through,
    the table has grown by one row per file, in the order of the files, and
    every row holds what the request asked for: it belongs to the caller; the
    expiry, the maximal number of views and the format are those read from
    the headers; [embed] is the truth value of the embed header; the password
    is the hash of the password header, or null without the header; the
    original name is kept only when the original-name header is sent; the
    name ends in the extension rule applied to the file; and the row starts
    with no views and is no favorite. *)
Theorem batch_records_follow_the_request env cfg req user prm fs :
  forall i response w response' w',
    upload_files env cfg req user prm i fs response w = (Eff.Next response', w') ->
    exists rows,
      files w' = files w ++ rows
      /\ Forall2 (fun file row =>
                    File.userId row = User.id user
                    /\ File.expiresAt row = expiry prm
                    /\ File.maxViews row = fileMaxViews prm
                    /\ File.format row = format prm
                    /\ File.embed row = truthy (header req "embed")
                    /\ File.password row = read_password env req
                    /\ File.originalName row
                       = (if truthy (header req "original-name")
                          then Some (originalname file) else None)
                    /\ (exists fileName,
                          File.name row
                          = stored_name fileName (whole_compressionUsed prm file)
                                        (extension (originalname file)))
                    /\ File.views row = 0
                    /\ File.favorite row = false)
                 fs rows.
Proof.
  induction fs as [ | file fs IH]; intros i response w response' w' H; simpl in H.
  - inversion H; subst. exists []. rewrite app_nil_r. split; [reflexivity | constructor].
  - unfold Eff.bind in H.
    destruct (upload_file env cfg req user prm i file response w) as [[r1 | r] w1] eqn:E1;
      [ | discriminate].
    apply upload_file_next in E1.
    destruct E1 as [fileName [w0 [invis [domain [_ [Hq [Hf _]]]]]]].
    destruct Hq as [_ [Qf _]]. rewrite Qf in Hf.
    apply IH in H. destruct H as [rows [Hrows Hall]].
    exists (new_row env (whole_data env req user prm file fileName) w0 :: rows).
    split; [rewrite Hrows, Hf, <- app_assoc; reflexivity | ].
    constructor; [ | exact Hall].
    simpl. repeat split. exists fileName. reflexivity.
Qed.

(** Bob's picture and document in one batch: two rows, both his. *)
Lemma batch_records_follow_the_request_witness :
  exists w' rows,
    files w' = rows
    /\ map File.userId rows = [2; 2]
    /\ map File.originalName rows = [None; None].
Proof.
  destruct (upload_files Scenario.env Scenario.cfg Requests.bob_uploads Scenario.bob
              (mkParams None (Some RANDOM) None None) 0 [Scenario.png; Scenario.pdf]
              Requests.empty_body Scenario.world) as [[response' | e] w'] eqn:E;
    [ | vm_compute in E; discriminate E].
  destruct (batch_records_follow_the_request _ _ _ _ _ _ _ _ _ E) as [rows [Hf Hall]].
  exists w', rows. split; [exact Hf | ].
  inversion Hall as [ | f1 r1 fs1 rs1 H1 Hall1]; subst.
  inversion Hall1 as [ | f2 r2 fs2 rs2 H2 Hall2]; subst.
  inversion Hall2; subst.
  destruct H1 as [Hu1 [_ [_ [_ [_ [_ [Ho1 _]]]]]]].
  destruct H2 as [Hu2 [_ [_ [_ [_ [_ [Ho2 _]]]]]]].
  simpl. rewrite Hu1, Hu2, Ho1, Ho2. split; reflexivity.
Defined.

End LoopFacts.

(** ** What the upload endpoint leaves alone (lines 22-366) *)

Module FrameFacts.
Import Upload JS.

Lemma adds_refl s uid w : only_adds s uid w w.
Proof.
  unfold only_adds. split; [exists []; rewrite app_nil_r; split; [reflexivity | constructor] | ].
  split; [exists []; rewrite app_nil_r; reflexivity | ].
  split; [destruct s; reflexivity | intros n H; exact H].
Qed.

Lemma adds_trans s uid w1 w2 w3 :
  only_adds s uid w1 w2 -> only_adds s uid w2 w3 -> only_adds s uid w1 w3.
Proof.
  intros [[r1 [Hf1 Ho1]] [[c1 Hi1] [Hu1 Hb1]]] [[r2 [Hf2 Ho2]] [[c2 Hi2] [Hu2 Hb2]]].
  unfold only_adds.
  split; [exists (r1 ++ r2); split;
          [rewrite Hf2, Hf1, app_assoc; reflexivity | apply Forall_app; split; assumption] | ].
  split; [exists (c1 ++ c2); rewrite Hi2, Hi1, app_assoc; reflexivity | ].
  split; [destruct s; congruence | intros n H; apply Hb2, Hb1, H].
Qed.

Lemma adds_weaken uid w w' : only_adds true uid w w' -> only_adds false uid w w'.
Proof.
  intros [Hf [Hi [Hu Hb]]]. unfold only_adds.
  repeat split; try assumption. rewrite Hu. reflexivity.
Qed.

(** A step that touches neither table nor the blob store. *)
Lemma adds_unchanged s uid w w' :
  files w' = files w -> invisibles w' = invisibles w -> users w' = users w ->
  blobs w' = blobs w -> only_adds s uid w w'.
Proof.
  intros Hf Hi Hu Hb. unfold only_adds. rewrite Hf, Hi, Hu, Hb. apply adds_refl.
Qed.

(** Writing an object to the store removes none. *)
Lemma read_write_keeps n m data d :
  Dir.read n d <> None -> Dir.read n (Dir.write m data d) <> None.
Proof.
  induction d as [ | [k old] d IH]; simpl; intros H; [contradiction | ].
  destruct (k =? m)%string eqn:Ekm; simpl.
  - destruct (k =? n)%string eqn:Ekn.
    + apply String.eqb_eq in Ekm. subst k. rewrite Ekn. discriminate.
    + apply String.eqb_eq in Ekm. subst k. rewrite Ekn. exact H.
  - destruct (k =? n)%string; [discriminate | exact (IH H)].
Qed.

Ltac adds_side :=
  first [ exact (@adds_refl _ _) | exact (@adds_trans _ _)
        | intros; apply adds_unchanged; reflexivity ].

Lemma oracle_adds s uid : Eff.keeps (only_adds s uid) oracle.
Proof. intros w o w' H. inversion H. apply adds_unchanged; reflexivity. Qed.

Lemma file_create_adds s uid env d :
  d_userId d = uid -> Eff.keeps (only_adds s uid) (file_create env d).
Proof.
  intros Hd w o w' H. inversion H. unfold only_adds. simpl.
  split; [exists [new_row env d w]; split;
          [reflexivity | constructor; [exact Hd | constructor] ] | ].
  split; [exists []; rewrite app_nil_r; reflexivity | ].
  split; [destruct s; reflexivity | intros n Hn; exact Hn].
Qed.

Lemma readFile_adds s uid n : Eff.keeps (only_adds s uid) (readFile n).
Proof.
  intros w o w' H. unfold readFile in H.
  destruct (Dir.read n (tmp w)); inversion H; apply adds_refl.
Qed.

Lemma unlink_adds s uid n : Eff.keeps (only_adds s uid) (unlink n).
Proof.
  intros w o w' H. unfold unlink in H.
  destruct (Dir.read n (tmp w)); inversion H;
    [apply adds_unchanged; reflexivity | apply adds_refl].
Qed.

Lemma datasource_save_adds s uid n data : Eff.keeps (only_adds s uid) (datasource_save n data).
Proof.
  intros w o w' H. inversion H. unfold only_adds. simpl.
  split; [exists []; rewrite app_nil_r; split; [reflexivity | constructor] | ].
  split; [exists []; rewrite app_nil_r; reflexivity | ].
  split; [destruct s; reflexivity | intros k Hk; apply read_write_keeps; exact Hk].
Qed.

Lemma createInvisImage_adds s uid env len fid :
  Eff.keeps (only_adds s uid) (createInvisImage env len fid).
Proof.
  intros w o w' H. unfold createInvisImage, Eff.bind, oracle, Eff.modify, Eff.ret in H.
  inversion H. unfold only_adds. simpl.
  split; [exists []; rewrite app_nil_r; split; [reflexivity | constructor] | ].
  split; [eexists; reflexivity | ].
  split; [destruct s; reflexivity | intros k Hk; exact Hk].
Qed.

(** Setting a cooldown changes no other column and no other table. *)
Lemma user_update_ratelimit_adds uid id r :
  Eff.keeps (only_adds false uid) (user_update_ratelimit id r).
Proof.
  intros w o w' H. inversion H. unfold only_adds. simpl.
  split; [exists []; rewrite app_nil_r; split; [reflexivity | constructor] | ].
  split; [exists []; rewrite app_nil_r; reflexivity | ].
  split; [ | intros k Hk; exact Hk].
  rewrite map_map. apply map_ext. intros u. destruct (User.id u =? id); reflexivity.
Qed.

Ltac adds_prim :=
  first [ apply oracle_adds | apply readFile_adds | apply unlink_adds
        | apply datasource_save_adds | apply createInvisImage_adds
        | apply file_create_adds; reflexivity
        | apply user_update_ratelimit_adds ].

(** Walks through a computation as [frame_with] does, taking the steps
    [known] proves, and the collaborators' operations, as they are. *)
Ltac adds_with known :=
  repeat first
    [ known
    | adds_prim
    | apply keeps_ret; adds_side
    | apply keeps_exit; adds_side
    | apply keeps_read; adds_side
    | apply keeps_modify; adds_side
    | apply keeps_bind; [ adds_side | | intros ]
    | match goal with
      | |- Eff.keeps _ (if ?c then _ else _) => destruct c
      | |- Eff.keeps _ (match ?x with _ => _ end) => destruct x
      end ].

Ltac adds_frame := adds_with fail.

Lemma random_domain_adds s uid env user : Eff.keeps (only_adds s uid) (random_domain env user).
Proof. unfold random_domain. adds_frame. Qed.

Lemma make_invis_adds s uid env cfg req f : Eff.keeps (only_adds s uid) (make_invis env cfg req f).
Proof. unfold make_invis. adds_frame. Qed.

Lemma notify_adds s uid cfg user domain invis f url :
  Eff.keeps (only_adds s uid) (notify cfg user domain invis f url).
Proof. unfold notify, emit. adds_frame. Qed.

Lemma copy_chunks_adds s uid cs : forall buf, Eff.keeps (only_adds s uid) (copy_chunks cs buf).
Proof.
  induction cs as [ | c cs IH]; intros buf; simpl.
  - adds_frame.
  - unfold throw. adds_with ltac:(apply IH).
Qed.

Lemma partial_upload_adds env cfg req user prm response :
  Eff.keeps (only_adds true (User.id user)) (partial_upload env cfg req user prm response).
Proof.
  unfold partial_upload.
  destruct (parse_content_range _) as [[start end_] total].
  unfold finish_partial, reassemble, store_partial, partial_fileName, partial_domain,
    partial_strip_gps, readdir, writeFile, emit, throw.
  adds_with ltac:(first [ apply copy_chunks_adds | apply make_invis_adds
                        | apply notify_adds | apply random_domain_adds ]).
Qed.

Lemma upload_file_adds s env cfg req user prm i file response :
  Eff.keeps (only_adds s (User.id user)) (upload_file env cfg req user prm i file response).
Proof.
  unfold upload_file, whole_fileName, whole_domain, save_upload, strip_gps,
    file_findFirst_name, emit.
  adds_with ltac:(first [ apply make_invis_adds | apply notify_adds
                        | apply random_domain_adds ]).
Qed.

Lemma upload_files_adds s env cfg req user prm fs :
  forall i response,
    Eff.keeps (only_adds s (User.id user)) (upload_files env cfg req user prm i fs response).
Proof.
  induction fs as [ | f fs IH]; intros i response; simpl.
  - adds_frame.
  - apply keeps_bind; [exact (@adds_trans _ _) | apply upload_file_adds | intros; apply IH].
Qed.

Lemma whole_upload_adds env cfg req user prm response :
  Eff.keeps (only_adds false (User.id user)) (whole_upload env cfg req user prm response).
Proof.
  unfold whole_upload, check_ratelimit, update_cooldown.
  adds_with ltac:(apply upload_files_adds).
Qed.

(** How the handler ends: at the door, with the state as it found it, or
    in one of its two paths, run for the user who owns the token. *)
Lemma handler_paths env cfg req w user r w' :
  find (fun u => (User.token u =? template (header req "authorization"))%string) (users w)
    = Some user ->
  handler env cfg req w = (r, w') ->
  w' = w
  \/ exists prm response o,
       (if truthy (header req "content-range")
        then partial_upload env cfg req user prm response w
        else whole_upload env cfg req user prm response w) = (o, w').
Proof.
  intros Huser H. unfold handler, Eff.run, handler_body in H.
  destruct (negb (truthy (header req "authorization"))); [left; inversion H; reflexivity | ].
  unfold Eff.bind at 1 in H. unfold user_findFirst_token in H. rewrite Huser in H.
  unfold Eff.bind at 1 in H.
  destruct (read_params env cfg req w) as [[[prm response] | e] w1] eqn:Ep.
  - assert (w1 = w) by (eapply ParamFacts.read_params_pure; exact Ep). subst w1.
    right. exists prm, response.
    destruct (truthy (header req "content-range")).
    + destruct (partial_upload env cfg req user prm response w) as [[a | a] w2];
        inversion H; subst; eexists; reflexivity.
    + destruct (whole_upload env cfg req user prm response w) as [[a | a] w2];
        inversion H; subst; eexists; reflexivity.
  - left. inversion H; subst. eapply ParamFacts.read_params_pure. exact Ep.
Qed.

(** Whatever an upload request carries and however it ends, the endpoint
    only adds: the file table grows by rows that belong to the owner of the
    token and keeps every row it had, unchanged and in place; the table of
    invisible names grows; no stored object is removed; and of the users
    nothing but a cooldown changes. *)
Theorem upload_only_adds_records_of_the_caller env cfg req w user r w' :
  find (fun u => (User.token u =? template (header req "authorization"))%string) (users w)
    = Some user ->
  handler env cfg req w = (r, w') ->
  only_adds false (User.id user) w w'.
Proof.
  intros Huser H.
  destruct (handler_paths env cfg req w Huser H) as [-> | [prm [response [o Hrun]]]];
    [apply adds_refl | ].
  destruct (truthy (header req "content-range")).
  - apply adds_weaken. eapply partial_upload_adds. exact Hrun.
  - eapply whole_upload_adds. exact Hrun.
Qed.

(** Alice's upload into the world that holds Bob's and her files: both rows
    are still there, and the new row is hers. *)
Lemma upload_only_adds_records_of_the_caller_witness :
  only_adds false 1 Requests.world_with_files
    (snd (handler Scenario.env Scenario.cfg Requests.alice_uploads Requests.world_with_files)).
Proof.
  exact (@upload_only_adds_records_of_the_caller
           Scenario.env Scenario.cfg Requests.alice_uploads Requests.world_with_files
           Scenario.alice _ _ eq_refl (surjective_pairing _)).
Defined.

(** The partial-upload path knows no cooldown.  It reads nothing of the
    caller's cooldown: the path is the same computation whatever the
    cooldown is.  And a request with a content-range header, however it ends,
    leaves the user table as it was: no cooldown is checked, cleared or
    set. *)
Theorem chunk_requests_skip_the_cooldown env cfg req :
  (forall user c prm response,
      partial_upload env cfg req (User.set_ratelimit c user) prm response
      = partial_upload env cfg req user prm response)
  /\ (truthy (header req "content-range") = true ->
      forall w r w', handler env cfg req w = (r, w') -> users w' = users w).
Proof.
  split; [intros; reflexivity | ].
  intros Hcr w r w' H.
  destruct (find (fun u => (User.token u =? template (header req "authorization"))%string)
                 (users w)) as [user | ] eqn:Huser.
  - destruct (handler_paths env cfg req w Huser H) as [-> | [prm [response [o Hrun]]]];
      [reflexivity | ].
    rewrite Hcr in Hrun.
    destruct (partial_upload_adds env cfg req user prm response w Hrun)
      as [_ [_ [Hu _]]].
    exact Hu.
  - unfold handler, Eff.run, handler_body in H.
    destruct (negb (truthy (header req "authorization"))); [inversion H; reflexivity | ].
    unfold Eff.bind at 1 in H. unfold user_findFirst_token in H. rewrite Huser in H.
    inversion H. reflexivity.
Qed.

(** Bob's chunk is taken while his cooldown lasts, and the cooldown stays. *)
Lemma chunk_requests_skip_the_cooldown_witness :
  fst (handler Scenario.env Scenario.cfg Requests.first_chunk Requests.world_cooling)
    = JsonSuccess
  /\ users (snd (handler Scenario.env Scenario.cfg Requests.first_chunk
                         Requests.world_cooling))
     = users Requests.world_cooling.
Proof.
  split; [reflexivity | ].
  exact (proj2 (chunk_requests_skip_the_cooldown Scenario.env Scenario.cfg
                  Requests.first_chunk) eq_refl _ _ _ (surjective_pairing _)).
Defined.

End FrameFacts.

(** ** Names and extensions (lines 124, 141, 157, 244, 261 and 287) *)

Module NameFacts.
Import Upload JS Session.

Lemma stem_of base rest :
  has_char "." base = false -> stem (base ++ String "." rest) = base.
Proof.
  intros H. unfold stem. rewrite (@ReassemblyFacts.split_field "." base rest H). reflexivity.
Qed.

Lemma stem_plain n : has_char "." n = false -> stem n = n.
Proof. intros H. unfold stem. rewrite (@ReassemblyFacts.split_without "." n H). reflexivity. Qed.

(** The last field of a split is what follows the last separator. *)
Lemma split_last sep x e :
  has_char sep e = false -> exists p ps, split sep (x ++ String sep e) = p :: ps ++ [e].
Proof.
  intros H. induction x as [ | c x IH]; simpl.
  - rewrite Ascii.eqb_refl, (@ReassemblyFacts.split_without sep e H).
    exists "", []. reflexivity.
  - destruct IH as [p [ps ->]]. destruct (Ascii.eqb c sep).
    + exists "", (p :: ps). reflexivity.
    + exists (String c p), ps. reflexivity.
Qed.

Lemma extension_of x e : has_char "." e = false -> extension (x ++ String "." e) = e.
Proof.
  intros H. unfold extension. destruct (split_last "." x e H) as [p [ps ->]].
  destruct ps as [ | q ps]; [reflexivity | ].
  cbn [app]. change (p :: q :: ps ++ [e]) with ((p :: q :: ps) ++ [e]).
  apply last_last.
Qed.

Lemma extension_plain n : has_char "." n = false -> extension n = "".
Proof.
  intros H. unfold extension. rewrite (@ReassemblyFacts.split_without "." n H). reflexivity.
Qed.

(** Under the NAME format the stored name is made of the part of the
    original name before its first dot and the part after its last dot: a
    name without a dot is kept, [base.ext] is kept (a name that ends in a dot
    loses it), and of a name with more dots everything between the first and
    the last is dropped. *)
Theorem name_format_keeps_first_and_last_part env cfg req user prm i file w base ext :
  format prm = Some NAME ->
  whole_compressionUsed prm file = false ->
  has_char "." base = false ->
  has_char "." ext = false ->
  let stored := d_name (whole_data env req user prm file (stem (originalname file))) in
  whole_fileName env cfg req (format prm) i file w
    = (Eff.Next (stem (originalname file)), w)
  /\ (originalname file = base -> stored = base)
  /\ (originalname file = (base ++ "." ++ ext)%string -> stored = (base ++ dot_ext ext)%string)
  /\ (forall middle,
        originalname file = (base ++ "." ++ middle ++ "." ++ ext)%string ->
        stored = (base ++ dot_ext ext)%string).
Proof.
  intros Hf Hc Hb He stored.
  assert (Hs : stored = (stem (originalname file)
                           ++ dot_ext (extension (originalname file)))%string).
  { unfold stored, whole_data, stored_name. cbn [d_name]. rewrite Hc. reflexivity. }
  split; [rewrite Hf; reflexivity | ].
  split; [ | split].
  - intros Hn. rewrite Hs, Hn, (stem_plain base Hb), (extension_plain base Hb).
    apply ExplicitNameFacts.append_empty_r.
  - intros Hn. rewrite Hs, Hn.
    change (base ++ "." ++ ext)%string with (base ++ String "." ext)%string.
    rewrite (stem_of base ext Hb), (extension_of base ext He). reflexivity.
  - intros middle Hn. rewrite Hs, Hn.
    change (base ++ "." ++ middle ++ "." ++ ext)%string
      with (base ++ String "." (middle ++ String "." ext))%string.
    rewrite (stem_of base _ Hb).
    change (base ++ String "." (middle ++ String "." ext))%string
      with (base ++ (String "." middle ++ String "." ext))%string.
    rewrite <- UploadFacts.append_assoc, (extension_of _ ext He). reflexivity.
Qed.

(** backup.tar.gz is stored as backup.gz. *)
Lemma name_format_keeps_first_and_last_part_witness :
  d_name (whole_data Scenario.env Requests.bob_uploads Scenario.bob Requests.by_name
            Requests.archive (stem "backup.tar.gz")) = "backup.gz".
Proof.
  exact (proj2 (proj2 (proj2 (@name_format_keeps_first_and_last_part
           Scenario.env Scenario.cfg Requests.bob_uploads Scenario.bob Requests.by_name
           0 Requests.archive Scenario.world "backup" "gz"
           eq_refl eq_refl eq_refl eq_refl))) "tar" eq_refl).
Defined.

End NameFacts.

(** ** A last chunk that is turned away (lines 102-127) *)

Module LastChunkFacts.
Import Upload JS Session.

(** The file name of a chunked upload is looked at after the chunks were put
    together, and putting them together deletes them.  So when the last chunk
    of a well-formed session arrives without a file name, or with a file name
    of a disabled extension, the request ends in the TypeError, respectively
    in the error answer; no row and no stored object is created; and the
    chunks of the session, the one just sent included, are gone from the
    temporary directory: nothing is left to try again with.  A well-formed
    session is one whose range is written with decimal numbers, whose
    identifier holds no underscore and makes the chunks' names entries of the
    temporary directory, and whose file length is a safe integer within what
    the runtime allocates; the directory may be listed in any order. *)
Theorem rejected_last_chunk_loses_the_session
        env cfg req user prm response ps cs d0 w file0 rest s :
  req_files req = Some (file0 :: rest) ->
  lastchunk req = true ->
  header req "content-range"
    = Some (content_range (Z.of_nat s)
                          (Z.of_nat (s + List.length (buffer file0)) - 1)
                          (Z.of_nat (List.length (List.concat ps)))) ->
  plain_identifier (header req "x-zipline-partial-identifier") = true ->
  has_char "_" (template (header req "x-zipline-partial-identifier")) = false ->
  Z.of_nat (List.length (List.concat ps)) <= MAX_SAFE_INTEGER ->
  Z.of_nat (List.length (List.concat ps)) <= max_array_length env ->
  (forall l, Permutation (readdir_order env l) l) ->
  Forall (fun p => p <> []) ps ->
  Permutation (cs ++ [(s, buffer file0)]) (pieces_from 0 ps) ->
  (forall n, In n (Dir.list_names d0) ->
             startsWith n (partial_prefix (header req "x-zipline-partial-identifier")) = false) ->
  tmp w = store_chunks (header req "x-zipline-partial-identifier") cs d0 ->
  (header req "x-zipline-partial-filename" = None ->
   partial_upload env cfg req user prm response w
   = (Eff.Return (Threw "TypeError"), set_tmp d0 w))
  /\ (forall fn,
        header req "x-zipline-partial-filename" = Some fn ->
        includes (uploader_disabled_extensions cfg) (extension fn) = true ->
        partial_upload env cfg req user prm response w
        = (Eff.Return (Error ("disabled extension recieved: " ++ extension fn)%string),
           set_tmp d0 w)).
Proof.
  intros Hfiles Hlast Hcr _ Hid _ Hmax Hord Hne Hperm Hd0 Htmp.
  rewrite (@SessionFacts.last_chunk_reassembles
             env cfg req user prm response ps cs d0 w file0 rest s
             Hfiles Hlast Hcr Hid Hmax Hord Hne Hperm Hd0 Htmp).
  split.
  - intros Hfn. rewrite Hfn. reflexivity.
  - intros fn Hfn Hx. rewrite Hfn. unfold store_partial. rewrite Hx. reflexivity.
Qed.

(** Bob's "world", marked last, arrives after "hello" under the name
    greeting.someext. *)
Lemma rejected_last_chunk_loses_the_session_witness :
  partial_upload Scenario.env Scenario.cfg Requests.chunk_world_disabled Scenario.bob
                 (mkParams None (Some RANDOM) None None) Requests.empty_body
                 (set_tmp [("zipline_partial_ab_0_4", Scenario.ascii_bytes "hello")]
                          Scenario.world)
  = (Eff.Return (Error "disabled extension recieved: someext"), Scenario.world).
Proof.
  refine (proj2 (@rejected_last_chunk_loses_the_session
            Scenario.env Scenario.cfg Requests.chunk_world_disabled Scenario.bob
            (mkParams None (Some RANDOM) None None) Requests.empty_body
            [Scenario.ascii_bytes "hello"; Scenario.ascii_bytes "world"]
            [(0%nat, Scenario.ascii_bytes "hello")] []
            (set_tmp _ Scenario.world) _ _ 5%nat
            eq_refl eq_refl eq_refl eq_refl eq_refl _ _ _ _ _ _ eq_refl) "greeting.someext"
            eq_refl eq_refl).
  - discriminate.
  - discriminate.
  - intros l. apply Permutation_refl.
  - repeat constructor; discriminate.
  - apply Permutation_refl.
  - intros n [].
Defined.

End LastChunkFacts.

(** ** Invisible names (lines 299 and 322-324) *)

Module InvisFacts.
Import Upload JS UploadFacts.

Ltac same_side := intros; simpl; congruence.

Lemma oracle_same_invisibles :
  Eff.keeps (fun w w' => invisibles w' = invisibles w) oracle.
Proof. intros w o w' H. inversion H. reflexivity. Qed.

(** Of one turn of the loop only [createInvisImage] writes to the table of
    invisible names. *)
Lemma whole_fileName_invisibles env cfg req fmt i file :
  Eff.keeps (fun w w' => invisibles w' = invisibles w) (whole_fileName env cfg req fmt i file).
Proof.
  unfold whole_fileName, file_findFirst_name.
  destruct fmt as [[ | | | ] | ]; frame_with same_side; try apply oracle_same_invisibles.
Qed.

Lemma save_upload_invisibles env prm file f :
  Eff.keeps (fun w w' => invisibles w' = invisibles w) (save_upload env prm file f).
Proof. unfold save_upload, emit, datasource_save. frame_with same_side. Qed.

Lemma whole_domain_invisibles env cfg req user :
  Eff.keeps (fun w w' => invisibles w' = invisibles w) (whole_domain env cfg req user).
Proof.
  unfold whole_domain, random_domain.
  frame_with same_side; try apply oracle_same_invisibles.
Qed.

Lemma notify_invisibles cfg user domain invis f url :
  Eff.keeps (fun w w' => invisibles w' = invisibles w) (notify cfg user domain invis f url).
Proof. unfold notify, emit. frame_with same_side. Qed.

Lemma strip_gps_invisibles cfg f response :
  Eff.keeps (fun w w' => invisibles w' = invisibles w) (strip_gps cfg f response).
Proof. unfold strip_gps, emit. frame_with same_side. Qed.

(** Line 299. *)
Lemma make_invis_cases env cfg req f w invis w' :
  make_invis env cfg req f w = (Eff.Next invis, w') ->
  if truthy (header req "zws")
  then exists code,
         invis = Some (InvisibleFile.mk code (File.id f))
         /\ invisibles w' = invisibles w ++ [InvisibleFile.mk code (File.id f)]
  else invis = None /\ invisibles w' = invisibles w.
Proof.
  unfold make_invis. destruct (truthy (header req "zws")).
  - unfold createInvisImage, oracle, Eff.bind, Eff.modify, Eff.ret. intros H.
    inversion H; subst. eexists. split; reflexivity.
  - intros H. inversion H; subst. split; reflexivity.
Qed.

(** The URL answered for a stored file ends in the file's name, unless the
    zws header was sent: then a row with a fresh code is added to the table
    of invisible names, pointing to the new file row, and the URL ends in that
    code instead.  Without the header the table is not touched. *)
Theorem invisible_name_replaces_the_file_name
        env cfg req user prm i file response w response' w' :
  upload_file env cfg req user prm i file response w = (Eff.Next response', w') ->
  let route := if (uploader_route cfg =? "/")%string then "/" else uploader_route cfg in
  exists created domain,
    files w' = files w ++ [created]
    /\ if truthy (header req "zws")
       then exists code,
              invisibles w' = invisibles w ++ [InvisibleFile.mk code (File.id created)]
              /\ body_files response'
                 = body_files response ++ [(domain ++ route ++ code)%string]
       else invisibles w' = invisibles w
            /\ body_files response'
               = body_files response ++ [(domain ++ route ++ File.name created)%string].
Proof.
  intros H route. unfold upload_file in H.
  destruct (_ <? size file); [discriminate | ].
  destruct (originalname file =? "")%string; [discriminate | ].
  destruct (includes _ _); [discriminate | ].
  unfold Eff.bind at 1 in H.
  destruct (whole_fileName env cfg req (format prm) i file w) as [[fileName | r] w1] eqn:En;
    [ | discriminate].
  pose proof (whole_fileName_quiet env cfg req (format prm) i file _ En) as [_ [Hf1 _]].
  pose proof (whole_fileName_invisibles env cfg req (format prm) i file _ En) as Hi1.
  set (data := whole_data env req user prm file fileName) in *.
  unfold Eff.bind at 1 in H. unfold file_create in H.
  set (row := new_row env data w1) in *.
  set (w2 := set_tick _ _) in H.
  unfold Eff.bind at 1 in H.
  destruct (make_invis_next env cfg req row w2) as [invis [w3 [E3 Hq3]]]. rewrite E3 in H.
  pose proof (make_invis_cases env cfg req row w2 E3) as Hc3.
  unfold Eff.bind at 1 in H.
  destruct (save_upload_next env prm file row w3) as [w4 [E4 [_ [Hf4 _]]]].
  rewrite E4 in H.
  pose proof (save_upload_invisibles env prm file row _ E4) as Hi4.
  unfold Eff.bind at 1 in H.
  destruct (whole_domain_next env cfg req user w4) as [domain [w5 [E5 [Hq5 _]]]].
  rewrite E5 in H.
  pose proof (whole_domain_invisibles env cfg req user _ E5) as Hi5.
  unfold Eff.bind at 1 in H.
  destruct (notify_next cfg user domain invis row (responseUrl cfg domain invis row) w5)
    as [w6 [E6 Hq6]].
  rewrite E6 in H.
  pose proof (notify_invisibles cfg user domain invis row _ _ E6) as Hi6.
  destruct (strip_gps_next cfg row (push_file (responseUrl cfg domain invis row) response) w6)
    as [r7 [w7 [E7 [Hq7 Hb7]]]].
  rewrite E7 in H.
  pose proof (strip_gps_invisibles cfg row _ _ E7) as Hi7.
  inversion H; subst r7 w7. clear H.
  destruct (quiet_trans Hq5 (quiet_trans Hq6 Hq7)) as [_ [Qf _]].
  destruct Hq3 as [_ [Q3f _]].
  exists row, domain.
  split; [rewrite Qf, Hf4, Q3f; unfold w2; simpl; rewrite Hf1; reflexivity | ].
  assert (Hinv : invisibles w' = invisibles w3) by congruence.
  assert (Hinv2 : invisibles w2 = invisibles w) by (unfold w2; simpl; exact Hi1).
  rewrite Hb7. unfold responseUrl, push_file. cbn [body_files]. fold route.
  destruct (truthy (header req "zws")).
  - destruct Hc3 as [code [-> Hc3]]. exists code.
    split; [rewrite Hinv, Hc3, Hinv2; reflexivity | reflexivity].
  - destruct Hc3 as [-> Hc3].
    split; [rewrite Hinv, Hc3, Hinv2; reflexivity | reflexivity].
Qed.

(** Bob's picture with the zws header: the URL ends in the code, and the code
    points to the new row. *)
Lemma invisible_name_replaces_the_file_name_witness :
  exists response' w',
    upload_file Scenario.env Scenario.cfg Requests.bob_uploads_zws Scenario.bob
                (mkParams None (Some RANDOM) None None) 0 Scenario.png Requests.empty_body
                Scenario.world = (Eff.Next response', w')
    /\ exists created domain code,
         files w' = [created]
         /\ invisibles w' = [InvisibleFile.mk code (File.id created)]
         /\ body_files response' = [(domain ++ "/u" ++ code)%string].
Proof.
  destruct (upload_file Scenario.env Scenario.cfg Requests.bob_uploads_zws Scenario.bob
              (mkParams None (Some RANDOM) None None) 0 Scenario.png Requests.empty_body
              Scenario.world) as [[response' | e] w'] eqn:E;
    [ | vm_compute in E; discriminate E].
  exists response', w'. split; [reflexivity | ].
  destruct (invisible_name_replaces_the_file_name _ _ _ _ _ _ _ _ _ E)
    as [created [domain [Hf [code [Hi Hb]]]]].
  exists created, domain, code. repeat split; assumption.
Defined.

End InvisFacts.

(** ** The file management endpoint, operation by operation (files.ts, lines 10-101) *)

Module FilesApiFacts.
Import FilesApi JS.

Lemma read_remove_same n d : Dir.read n (Dir.remove n d) = None.
Proof.
  induction d as [ | [k data] d IH]; simpl; [reflexivity | ].
  destruct (k =? n)%string eqn:E; simpl; [exact IH | rewrite E; exact IH].
Qed.

Lemma read_remove_other n m d : (m =? n)%string = false ->
  Dir.read n (Dir.remove m d) = Dir.read n d.
Proof.
  intros H. induction d as [ | [k data] d IH]; simpl; [reflexivity | ].
  destruct (k =? m)%string eqn:E; simpl.
  - apply String.eqb_eq in E. subst k. rewrite H. exact IH.
  - rewrite IH. reflexivity.
Qed.

(** DELETE with an id (lines 32-45).  Without an id, or with the id 0, the
    answer is 400; with an id that no row has, the delete throws; in both
    cases nothing changes.  Otherwise the answer is the row, without its
    password, and afterwards no row with this id is in the table, the other
    rows are there unchanged and in their order, the stored object under the
    row's name is gone, and every other stored object is untouched. *)
Theorem delete_by_id_removes_row_and_object env cfg req user w :
  method req = DELETE ->
  body_all req = false ->
  (truthy_id (body_id req) = false ->
   handler env cfg req user w = (BadRequest "no file id", w))
  /\ (forall fid, body_id req = Some fid -> fid <> 0 ->
      match find (fun f => File.id f =? fid) (files w) with
      | None => handler env cfg req user w = (Threw "RecordNotFound", w)
      | Some f =>
          exists w',
            handler env cfg req user w = (JsonFile (delete_password f), w')
            /\ File.password (delete_password f) = None
            /\ files w' = filter (fun g => negb (File.id g =? fid)) (files w)
            /\ Dir.read (File.name f) (blobs w') = None
            /\ (forall n, (File.name f =? n)%string = false ->
                          Dir.read n (blobs w') = Dir.read n (blobs w))
            /\ users w' = users w
      end).
Proof.
  intros Hm Hall. unfold handler, Eff.run, handler_body. rewrite Hm, Hall.
  split.
  - intros Hid. rewrite Hid. reflexivity.
  - intros fid Hid Hne. rewrite Hid.
    replace (truthy_id (Some fid)) with true
      by (symmetry; simpl; apply negb_true_iff, Z.eqb_neq; exact Hne).
    cbn [negb]. unfold Eff.bind, file_delete, datasource_delete, Eff.modify, Eff.ret.
    destruct (find (fun f => File.id f =? fid) (files w)) as [f | ]; [ | reflexivity].
    eexists. split; [reflexivity | ]. simpl.
    split; [reflexivity | ]. split; [reflexivity | ].
    split; [apply read_remove_same | ].
    split; [intros n Hn; apply read_remove_other; exact Hn | reflexivity].
Qed.

(** Bob deletes his file 7: the row and the object bob.txt are gone, Alice's
    are as before. *)
Lemma delete_by_id_removes_row_and_object_witness :
  exists w',
    handler Scenario.env Scenario.cfg Requests.delete_7 Scenario.bob Requests.world_with_files
      = (JsonFile (delete_password Requests.bobs_file), w')
    /\ files w' = [Requests.alices_file]
    /\ Dir.read "bob.txt" (blobs w') = None
    /\ Dir.read "alice.txt" (blobs w') = Some (Scenario.ascii_bytes "alice's").
Proof.
  destruct (proj2 (@delete_by_id_removes_row_and_object
                     Scenario.env Scenario.cfg Requests.delete_7 Scenario.bob
                     Requests.world_with_files eq_refl eq_refl) 7 eq_refl ltac:(discriminate))
    as [w' [Hrun [_ [Hf [Hgone [Hkept _]]]]]].
  exists w'. split; [exact Hrun | ]. split; [exact Hf | ]. split; [exact Hgone | ].
  rewrite (Hkept "alice.txt" eq_refl). reflexivity.
Defined.

(** PATCH without a flag to set (lines 47-61).  Without an id the answer is
    400.  With [favorite: null] the update is skipped and the handler then
    fails on the row it never read: a TypeError, whether or not the id
    exists.  With no favorite field at all the update is made with nothing to
    change: an unknown id makes it throw, a known id is answered with its row,
    without the password.  In all these cases the tables and the stored
    objects are as before. *)
Theorem patch_without_a_flag_changes_nothing env cfg req user w :
  method req = PATCH ->
  (truthy_id (body_id req) = false ->
   handler env cfg req user w = (BadRequest "no file id", w))
  /\ (truthy_id (body_id req) = true -> body_favorite req = FavNull ->
      handler env cfg req user w = (Threw "TypeError", w))
  /\ (forall fid, body_id req = Some fid -> fid <> 0 -> body_favorite req = FavUndefined ->
      match find (fun f => File.id f =? fid) (files w) with
      | None => handler env cfg req user w = (Threw "RecordNotFound", w)
      | Some f =>
          exists w',
            handler env cfg req user w = (JsonFile (delete_password f), w')
            /\ files w' = files w /\ blobs w' = blobs w /\ users w' = users w
      end).
Proof.
  intros Hm. unfold handler, Eff.run, handler_body. rewrite Hm.
  split; [ | split].
  - intros Hid. rewrite Hid. reflexivity.
  - intros Hid Hfav. rewrite Hid, Hfav. reflexivity.
  - intros fid Hid Hne Hfav. rewrite Hid, Hfav.
    replace (truthy_id (Some fid)) with true
      by (symmetry; simpl; apply negb_true_iff, Z.eqb_neq; exact Hne).
    cbn [negb]. unfold Eff.bind, file_update_favorite, Eff.ret.
    destruct (find (fun f => File.id f =? fid) (files w)) as [f | ]; [ | reflexivity].
    eexists. split; [reflexivity | ]. simpl.
    split; [ | split; reflexivity].
    rewrite <- (map_id (files w)) at 2. apply map_ext.
    intros g. destruct (File.id g =? fid); reflexivity.
Qed.

(** Alice's two requests for her file 8. *)
Lemma patch_without_a_flag_changes_nothing_witness :
  handler Scenario.env Scenario.cfg Requests.patch_8_null Scenario.alice
          Requests.world_with_files = (Threw "TypeError", Requests.world_with_files)
  /\ exists w',
       handler Scenario.env Scenario.cfg Requests.patch_8_plain Scenario.alice
               Requests.world_with_files
       = (JsonFile (delete_password Requests.alices_file), w')
       /\ files w' = files Requests.world_with_files.
Proof.
  split.
  - exact (proj1 (proj2 (@patch_without_a_flag_changes_nothing
                           Scenario.env Scenario.cfg Requests.patch_8_null Scenario.alice
                           Requests.world_with_files eq_refl)) eq_refl eq_refl).
  - destruct (proj2 (proj2 (@patch_without_a_flag_changes_nothing
                              Scenario.env Scenario.cfg Requests.patch_8_plain Scenario.alice
                              Requests.world_with_files eq_refl))
                    8 eq_refl ltac:(discriminate) eq_refl)
      as [w' [Hrun [Hf _]]].
    exists w'. split; [exact Hrun | exact Hf].
Defined.

(** What PATCH does to the table. *)
Lemma patch_files env cfg req user w fid b img w1 :
  method req = PATCH -> body_id req = Some fid -> body_favorite req = FavBool b ->
  handler env cfg req user w = (JsonFile img, w1) ->
  w1 = set_files (map (fun f => if File.id f =? fid then File.set_favorite b f else f)
                      (files w)) w.
Proof.
  intros Hm Hid Hfav. unfold handler, Eff.run, handler_body. rewrite Hm, Hid, Hfav.
  destruct (negb (truthy_id (Some fid))); [discriminate | ].
  unfold Eff.bind, file_update_favorite.
  destruct (find (fun f => File.id f =? fid) (files w)); [ | discriminate].
  intros H. inversion H. reflexivity.
Qed.

(** A file marked by PATCH shows in the listing of its flag, and only there.
    After a PATCH with [favorite: b] for the id [fid] was answered with the
    row: whoever lists with the favorite parameter (truthy or not), an entry
    with this id is in the answer only if the parameter's truth value is [b];
    and the owner of a row with this id finds it, with its flag set to [b],
    in the listing asked for with truth value [b].  The PATCH changes nothing
    but the flag: the stored objects and the users are as before. *)
Theorem favorite_shows_in_the_matching_listing env cfg req user0 w fid b img w1 :
  method req = PATCH -> body_id req = Some fid -> body_favorite req = FavBool b ->
  handler env cfg req user0 w = (JsonFile img, w1) ->
  blobs w1 = blobs w /\ users w1 = users w
  /\ map File.id (files w1) = map File.id (files w)
  /\ forall user all id fav q,
       exists entries,
         handler env cfg (mkRequest GET all id fav q None) user w1 = (JsonFiles entries, w1)
         /\ (forall e, In e entries -> e_id e = fid -> truthy q = b)
         /\ (forall f, In f (files w) -> File.id f = fid ->
                       File.userId f = User.id user -> truthy q = b ->
                       In (entry_of env cfg (File.set_favorite b f)) entries).
Proof.
  intros Hm Hid Hfav H.
  pose proof (patch_files env cfg req user0 w Hm Hid Hfav H) as Hw1. subst w1.
  split; [reflexivity | ]. split; [reflexivity | ].
  split.
  { simpl. rewrite map_map. apply map_ext. intros f.
    destruct (File.id f =? fid); reflexivity. }
  intros user all id fav q.
  unfold handler, handler_body, Eff.run, Eff.bind, file_findMany_list. simpl.
  eexists. split; [reflexivity | ]. split.
  - intros e He Heid.
    apply in_map_iff in He. destruct He as [g [<- Hg]].
    apply (proj1 (ListingFacts.In_orderBy _ _)) in Hg.
    apply filter_In in Hg. destruct Hg as [Hg Hsel].
    apply andb_true_iff in Hsel. destruct Hsel as [_ Hflag].
    apply Bool.eqb_prop in Hflag.
    apply in_map_iff in Hg. destruct Hg as [g0 [Hg0 _]].
    simpl in Heid.
    destruct (File.id g0 =? fid) eqn:E.
    + subst g. simpl in Hflag. congruence.
    + subst g. apply Z.eqb_neq in E. contradiction.
  - intros f Hf Hfid Howner Hq.
    apply in_map. apply (proj2 (ListingFacts.In_orderBy _ _)).
    apply filter_In. split.
    + apply in_map_iff. exists f. split; [ | exact Hf].
      rewrite Hfid, Z.eqb_refl. reflexivity.
    + simpl. rewrite Howner, Z.eqb_refl, Hq. destruct b; reflexivity.
Qed.

(** Alice marks her file 8: it is in her list of favorites and no longer in
    her plain list. *)
Lemma favorite_shows_in_the_matching_listing_witness :
  exists img w1 entries,
    handler Scenario.env Scenario.cfg Requests.favorite_8 Scenario.alice
            Requests.world_with_files = (JsonFile img, w1)
    /\ handler Scenario.env Scenario.cfg Requests.list_favorites Scenario.alice w1
       = (JsonFiles entries, w1)
    /\ In (entry_of Scenario.env Scenario.cfg (File.set_favorite true Requests.alices_file))
          entries.
Proof.
  destruct (handler Scenario.env Scenario.cfg Requests.favorite_8 Scenario.alice
              Requests.world_with_files) as [r w1] eqn:E.
  assert (Hr : exists img, r = JsonFile img)
    by (vm_compute in E; injection E as <- _; eexists; reflexivity).
  destruct Hr as [img ->].
  destruct (@favorite_shows_in_the_matching_listing
              Scenario.env Scenario.cfg Requests.favorite_8 Scenario.alice
              Requests.world_with_files 8 true img w1 eq_refl eq_refl eq_refl E)
    as [_ [_ [_ Hlist]]].
  destruct (Hlist Scenario.alice false None FavUndefined (Some "true"))
    as [entries [Hrun [_ Hin]]].
  exists img, w1, entries. split; [reflexivity | ]. split; [exact Hrun | ].
  apply Hin; [simpl; tauto | reflexivity | reflexivity | reflexivity].
Defined.

(** Lines 19-21: every object named by one of the rows is deleted. *)
Lemma delete_blobs_spec fs : forall w,
  delete_blobs fs w
  = (Eff.Next tt,
     set_blobs (fold_left (fun d f => Dir.remove (File.name f) d) fs (blobs w)) w).
Proof.
  induction fs as [ | f fs IH]; intros w; simpl.
  - destruct w; reflexivity.
  - unfold Eff.bind, datasource_delete, Eff.modify. rewrite IH. reflexivity.
Qed.

Lemma read_removed fs : forall d n,
  Dir.read n (fold_left (fun d f => Dir.remove (File.name f) d) fs d)
  = if existsb (fun f => (File.name f =? n)%string) fs then None else Dir.read n d.
Proof.
  induction fs as [ | f fs IH]; intros d n; simpl; [reflexivity | ].
  rewrite IH. destruct (File.name f =? n)%string eqn:E; simpl.
  - apply String.eqb_eq in E. subst n. rewrite read_remove_same.
    destruct (existsb _ fs); reflexivity.
  - rewrite (@read_remove_other _ _ _ E). reflexivity.
Qed.

(** DELETE with [all] (lines 12-30), and the listing that follows it.  The
    answer counts the caller's rows.  Afterwards every listing the caller
    asks for is empty, whatever its parameters; no object is stored under the
    name of any row the caller had; and the objects under all other names are
    untouched. *)
Theorem delete_all_then_list_is_empty env cfg req user w :
  method req = DELETE ->
  body_all req = true ->
  exists w1,
    handler env cfg req user w
    = (JsonCount (List.length (filter (fun f => File.userId f =? User.id user) (files w))),
       w1)
    /\ (forall all id fav q flt,
          handler env cfg (mkRequest GET all id fav q flt) user w1 = (JsonFiles [], w1))
    /\ (forall f, In f (files w) -> File.userId f = User.id user ->
                  Dir.read (File.name f) (blobs w1) = None)
    /\ (forall n,
          (forall f, In f (files w) -> File.userId f = User.id user ->
                     (File.name f =? n)%string = false) ->
          Dir.read n (blobs w1) = Dir.read n (blobs w)).
Proof.
  intros Hm Ha.
  set (mine := filter (fun f => File.userId f =? User.id user) (files w)).
  exists (set_files (filter (fun f => negb (File.userId f =? User.id user)) (files w))
            (set_blobs (fold_left (fun d f => Dir.remove (File.name f) d) mine (blobs w)) w)).
  split; [ | split; [ | split] ].
  - unfold handler, handler_body. rewrite Hm, Ha.
    unfold Eff.run, Eff.bind, file_findMany_user. fold mine.
    rewrite delete_blobs_spec. reflexivity.
  - intros all id fav q flt.
    unfold handler, handler_body, Eff.run, Eff.bind, file_findMany_list. cbn [method files set_files].
    rewrite (@ReassemblyFacts.filter_none _ _
               (filter (fun f => negb (File.userId f =? User.id user)) (files w))).
    + simpl. destruct (_ && _); reflexivity.
    + intros f Hf. apply filter_In in Hf. destruct Hf as [_ Hf].
      apply negb_true_iff in Hf. rewrite Hf. reflexivity.
  - intros f Hf Howner. cbn [blobs set_files set_blobs]. rewrite read_removed.
    replace (existsb (fun g => (File.name g =? File.name f)%string) mine) with true;
      [reflexivity | ].
    symmetry. apply existsb_exists. exists f. split; [ | apply String.eqb_refl].
    apply filter_In. split; [exact Hf | rewrite Howner; apply Z.eqb_refl].
  - intros n Hn. cbn [blobs set_files set_blobs]. rewrite read_removed.
    replace (existsb (fun g => (File.name g =? n)%string) mine) with false;
      [reflexivity | ].
    symmetry. apply not_true_is_false. intros Hex.
    apply existsb_exists in Hex. destruct Hex as [f [Hf Hname]].
    apply filter_In in Hf. destruct Hf as [Hf Howner].
    apply Z.eqb_eq in Howner. rewrite (Hn f Hf Howner) in Hname. discriminate.
Qed.

(** Alice deletes all her files: the count is 1, her list is empty, her
    object is gone, Bob's is there. *)
Lemma delete_all_then_list_is_empty_witness :
  exists w1,
    handler Scenario.env Scenario.cfg Requests.delete_all Scenario.alice
            Requests.world_with_files = (JsonCount 1, w1)
    /\ handler Scenario.env Scenario.cfg Requests.list_files Scenario.alice w1
       = (JsonFiles [], w1)
    /\ Dir.read "alice.txt" (blobs w1) = None
    /\ Dir.read "bob.txt" (blobs w1) = Some (Scenario.ascii_bytes "bob's").
Proof.
  destruct (@delete_all_then_list_is_empty
              Scenario.env Scenario.cfg Requests.delete_all Scenario.alice
              Requests.world_with_files eq_refl eq_refl)
    as [w1 [Hrun [Hlist [Hgone Hkept]]]].
  exists w1. split; [exact Hrun | ]. split; [apply Hlist | ].
  split.
  - apply (Hgone Requests.alices_file); [simpl; tauto | reflexivity].
  - rewrite (Hkept "bob.txt"); [reflexivity | ].
    intros f [<- | [<- | []]] Howner; [discriminate Howner | reflexivity].
Defined.

Lemma perm_insert_desc x fs : Permutation (insert_desc x fs) (x :: fs).
Proof.
  induction fs as [ | g fs IH]; simpl; [apply Permutation_refl | ].
  destruct (File.createdAt g <=? File.createdAt x); [apply Permutation_refl | ].
  apply (Permutation_trans (l' := g :: x :: fs));
    [apply perm_skip; exact IH | apply perm_swap].
Qed.

Lemma perm_orderBy fs : Permutation (orderBy_createdAt_desc fs) fs.
Proof.
  unfold orderBy_createdAt_desc. induction fs as [ | g fs IH]; simpl;
    [apply Permutation_refl | ].
  apply (Permutation_trans (perm_insert_desc g _)). apply perm_skip. exact IH.
Qed.

Lemma perm_filter {A} (p : A -> bool) l l' :
  Permutation l l' -> Permutation (filter p l) (filter p l').
Proof.
  induction 1 as [ | x l l' _ IH | x y l | l l' l'' _ IH1 _ IH2]; simpl.
  - apply Permutation_refl.
  - destruct (p x); [apply perm_skip | ]; exact IH.
  - destruct (p x), (p y); try apply Permutation_refl. apply perm_swap.
  - exact (Permutation_trans IH1 IH2).
Qed.

Lemma newest_first_filter p fs : newest_first fs -> newest_first (filter p fs).
Proof.
  induction 1 as [ | f fs Hle Hs IH]; simpl; [constructor | ].
  destruct (p f); [ | exact IH].
  constructor; [ | exact IH].
  intros g Hg. apply filter_In in Hg. apply Hle. exact (proj1 Hg).
Qed.

Lemma filter_map_comm {A B} (p : B -> bool) (g : A -> B) l :
  filter p (map g l) = map g (filter (fun x => p (g x)) l).
Proof.
  induction l as [ | a l IH]; simpl; [reflexivity | ].
  destruct (p (g a)); simpl; rewrite IH; reflexivity.
Qed.

(** GET (lines 62-99) answers with the entries of certain rows: the caller's
    rows whose favorite flag is the truth value of the query parameter,
    narrowed to the media types when [filter=media] is asked.  Each of these
    rows is answered exactly once, none is lost and none repeated, and they
    come newest first.  Nothing is changed. *)
Theorem listing_is_complete_and_newest_first env cfg user w all id fav q flt :
  let selected f :=
    (File.userId f =? User.id user) && Bool.eqb (File.favorite f) (truthy q) in
  let wanted f :=
    match flt with
    | Some v => if (v =? "media")%string then is_media (entry_of env cfg f) else true
    | None => true
    end in
  exists rows,
    handler env cfg (mkRequest GET all id fav q flt) user w
    = (JsonFiles (map (entry_of env cfg) rows), w)
    /\ newest_first rows
    /\ Permutation rows (filter wanted (filter selected (files w))).
Proof.
  intros selected wanted.
  unfold handler, handler_body, Eff.run, Eff.bind, file_findMany_list.
  cbn [method query_favorite query_filter]. fold selected.
  set (sorted := orderBy_createdAt_desc (filter selected (files w))).
  assert (Hs : newest_first sorted) by apply ListingFacts.orderBy_sorted.
  assert (Hp : Permutation sorted (filter selected (files w))) by apply perm_orderBy.
  destruct flt as [v | ].
  - destruct (v =? "media")%string eqn:Ev.
    + apply String.eqb_eq in Ev. subst v. cbn [truthy String.eqb negb andb].
      exists (filter wanted sorted).
      split; [unfold Eff.ret; rewrite filter_map_comm; reflexivity | ].
      split; [apply newest_first_filter; exact Hs | apply perm_filter; exact Hp].
    + rewrite andb_false_r. exists sorted.
      split; [reflexivity | ]. split; [exact Hs | ].
      rewrite (@ReassemblyFacts.filter_all _ wanted) 
        by (intros; unfold wanted; try rewrite Ev; reflexivity).
      exact Hp.
  - cbn [truthy andb]. exists sorted.
    split; [reflexivity | ]. split; [exact Hs | ].
    rewrite (@ReassemblyFacts.filter_all _ wanted) by (intros; reflexivity).
    exact Hp.
Qed.

End FilesApiFacts.

(** ** From the upload to the listing *)

Module CrossFacts.
Import Upload JS UploadFacts.

(** A file stored by a whole upload is in the caller's next listing: the
    listing asked for without parameters, by the user who uploaded, holds the
    entry of the new row, with the row's name and the URL computed from that
    name and the configured route. *)
Theorem stored_file_is_listed env cfg req user prm i file response w response' w' :
  upload_file env cfg req user prm i file response w = (Eff.Next response', w') ->
  exists created entries,
    files w' = files w ++ [created]
    /\ FilesApi.handler env cfg Requests.list_files user w' = (FilesApi.JsonFiles entries, w')
    /\ In (FilesApi.entry_of env cfg created) entries
    /\ FilesApi.e_name (FilesApi.entry_of env cfg created) = File.name created
    /\ FilesApi.e_url (FilesApi.entry_of env cfg created)
       = formatRootUrl env (uploader_route cfg) (File.name created).
Proof.
  intros H.
  destruct (upload_file_next _ _ _ _ _ _ _ _ _ H)
    as [fileName [w1 [invis [domain [_ [Hq [Hf _]]]]]]].
  destruct Hq as [_ [Qf _]]. rewrite Qf in Hf.
  eexists. eexists. split; [exact Hf | ].
  unfold FilesApi.handler, FilesApi.handler_body, Eff.run, Eff.bind,
    FilesApi.file_findMany_list.
  cbn [FilesApi.method Requests.list_files FilesApi.query_favorite FilesApi.query_filter
       truthy andb].
  split; [reflexivity | ]. split; [ | split; reflexivity].
  apply in_map. apply (proj2 (ListingFacts.In_orderBy _ _)).
  apply filter_In. split.
  - rewrite Hf. apply in_or_app. right. left. reflexivity.
  - simpl. rewrite Z.eqb_refl. reflexivity.
Qed.

(** Bob's picture is in his list right after the upload. *)
Lemma stored_file_is_listed_witness :
  exists w' created entries,
    files w' = [created]
    /\ FilesApi.handler Scenario.env Scenario.cfg Requests.list_files Scenario.bob w'
       = (FilesApi.JsonFiles entries, w')
    /\ In (FilesApi.entry_of Scenario.env Scenario.cfg created) entries.
Proof.
  destruct (upload_file Scenario.env Scenario.cfg Requests.bob_uploads Scenario.bob
              (mkParams None (Some RANDOM) None None) 0 Scenario.png Requests.empty_body
              Scenario.world) as [[response' | e] w'] eqn:E;
    [ | vm_compute in E; discriminate E].
  destruct (stored_file_is_listed _ _ _ _ _ _ _ _ _ E)
    as [created [entries [Hf [Hrun [Hin _]]]]].
  exists w', created, entries. split; [exact Hf | ]. split; [exact Hrun | exact Hin].
Defined.

End CrossFacts.

(** ** Expiry that cannot be read (lines 41-55) *)

Module ExpiryEdgeFacts.
Import Upload JS.

(** The expiry of an authorized request.  A header that does not parse is
    answered 400 "invalid date".  A configured default that does not parse is
    answered 400 with its own message, on every request whose header is
    absent or parses, so that no upload succeeds under such a configuration.
    Both change nothing.  Without the header, a default that parses is the
    expiry, and the answer's expiresAt stays unset; without header and
    default there is no expiry. *)
Theorem expiry_is_read_from_header_then_default env cfg req w user :
  truthy (header req "authorization") = true ->
  find (fun u => (User.token u =? template (header req "authorization"))%string) (users w)
    = Some user ->
  let h := header req "expires-at" in
  let d := uploader_default_expiration cfg in
  (truthy h = true -> parseExpiry env (template h) = None ->
   handler env cfg req w = (BadRequest "invalid date", w))
  /\ (truthy h = false \/ (exists e, parseExpiry env (template h) = Some e) ->
      truthy d = true -> parseExpiry env (template d) = None ->
      handler env cfg req w
      = (BadRequest "invalid date (UPLOADER_DEFAULT_EXPIRATION)", w))
  /\ (truthy h = false ->
      forall e, truthy d = true -> parseExpiry env (template d) = Some e ->
      read_expiry env cfg req w = (Eff.Next (Some e, mkBody [] None false), w))
  /\ (truthy h = false -> truthy d = false ->
      read_expiry env cfg req w = (Eff.Next (None, mkBody [] None false), w)).
Proof.
  intros Hauth Huser h d.
  assert (Hrun : forall r,
             read_expiry env cfg req w = (Eff.Return r, w) ->
             handler env cfg req w = (r, w)).
  { intros r H. apply (AccessFacts.handler_refuses env cfg req w (w1 := w) Hauth Huser).
    unfold read_params. unfold Eff.bind at 1. rewrite H. reflexivity. }
  repeat split.
  - intros Hh Hp. apply Hrun. unfold read_expiry. fold h. rewrite Hh, Hp. reflexivity.
  - intros Hh Hd Hp. apply Hrun. unfold read_expiry. fold h d. rewrite Hd, Hp.
    destruct Hh as [Hh | [e Hh]].
    + rewrite Hh. reflexivity.
    + destruct (truthy h); [rewrite Hh | ]; reflexivity.
  - intros Hh e Hd Hp. unfold read_expiry. fold h d. rewrite Hh, Hd, Hp. reflexivity.
  - intros Hh Hd. unfold read_expiry. fold h d. rewrite Hh, Hd. reflexivity.
Qed.

(** Under a default expiration that does not parse Bob's plain upload is
    turned away. *)
Lemma expiry_is_read_from_header_then_default_witness :
  handler Scenario.env Requests.cfg_bad_default Requests.bob_uploads Scenario.world
  = (BadRequest "invalid date (UPLOADER_DEFAULT_EXPIRATION)", Scenario.world).
Proof.
  exact (proj1 (proj2 (@expiry_is_read_from_header_then_default
                         Scenario.env Requests.cfg_bad_default Requests.bob_uploads
                         Scenario.world Scenario.bob eq_refl eq_refl))
               (or_introl eq_refl) eq_refl eq_refl).
Defined.

End ExpiryEdgeFacts.

(** ** A chunk that is sent again (lines 98-100) *)

Module ResendFacts.
Import Upload JS.

Lemma write_write n data data' d :
  Dir.write n data' (Dir.write n data d) = Dir.write n data' d.
Proof.
  induction d as [ | [k old] d IH]; simpl.
  - rewrite String.eqb_refl. reflexivity.
  - destruct (k =? n)%string eqn:E; simpl.
    + rewrite String.eqb_refl. reflexivity.
    + rewrite E, IH. reflexivity.
Qed.

(** A chunk may be sent again.  Two requests that are not marked last and
    name the same session and the same byte range write to the same entry of
    the temporary directory, and the later bytes replace the earlier ones:
    after both, the state is as if only the second had been sent.  The range
    is written with decimal numbers of safe magnitude, and the identifier
    makes the chunk's name one entry of the directory. *)
Theorem resent_chunk_replaces_the_earlier_one
        env cfg req req' user prm prm' response response' w file0 rest file0' rest' s e t :
  header req "content-range" = Some (Session.content_range s e t) ->
  header req' "content-range" = Some (Session.content_range s e t) ->
  0 <= s -> safe s -> safe e -> safe t ->
  header req' "x-zipline-partial-identifier" = header req "x-zipline-partial-identifier" ->
  Session.plain_identifier (header req "x-zipline-partial-identifier") = true ->
  lastchunk req = false -> lastchunk req' = false ->
  req_files req = Some (file0 :: rest) ->
  req_files req' = Some (file0' :: rest') ->
  let name := tempFile (header req "x-zipline-partial-identifier")
                       (Some (Fin s)) (Some (Fin e)) in
  partial_upload env cfg req user prm response w
    = (Eff.Next JsonSuccess, set_tmp (Dir.write name (buffer file0) (tmp w)) w)
  /\ partial_upload env cfg req' user prm' response'
        (set_tmp (Dir.write name (buffer file0) (tmp w)) w)
     = (Eff.Next JsonSuccess, set_tmp (Dir.write name (buffer file0') (tmp w)) w)
  /\ partial_upload env cfg req' user prm' response' w
     = (Eff.Next JsonSuccess, set_tmp (Dir.write name (buffer file0') (tmp w)) w).
Proof.
  intros Hr Hr' Hs _ _ _ Hi _ Hl Hl' Hf Hf' name.
  pose proof (RangeFacts.range_of_header req Hr Hs) as Hp.
  pose proof (RangeFacts.range_of_header req' Hr' Hs) as Hp'.
  unfold partial_upload. rewrite Hp, Hp', Hi, Hl, Hl', Hf, Hf'. fold name.
  unfold Eff.bind, writeFile, Eff.modify, Eff.ret.
  split; [reflexivity | ]. split; [ | reflexivity].
  cbn [tmp set_tmp]. rewrite write_write. destruct w; reflexivity.
Qed.

(** Bob sends the bytes 0-4 of his session twice: the directory holds the
    second version only. *)
Lemma resent_chunk_replaces_the_earlier_one_witness :
  exists w1,
    partial_upload Scenario.env Scenario.cfg Requests.first_chunk Scenario.bob
                   Requests.no_format Requests.empty_body Scenario.world
    = (Eff.Next JsonSuccess, w1)
    /\ tmp (snd (partial_upload Scenario.env Scenario.cfg Requests.first_chunk_again
                                Scenario.bob Requests.no_format Requests.empty_body w1))
       = [("zipline_partial_s1_0_4", Scenario.ascii_bytes "HELLO")].
Proof.
  assert (Hsafe : forall z, 0 <= z <= 10 -> safe z) by (unfold safe, MAX_SAFE_INTEGER; lia).
  destruct (@resent_chunk_replaces_the_earlier_one
              Scenario.env Scenario.cfg Requests.first_chunk Requests.first_chunk_again
              Scenario.bob Requests.no_format Requests.no_format
              Requests.empty_body Requests.empty_body Scenario.world
              _ _ _ _ 0 4 10 eq_refl eq_refl ltac:(lia)
              (Hsafe 0 ltac:(lia)) (Hsafe 4 ltac:(lia)) (Hsafe 10 ltac:(lia))
              eq_refl eq_refl eq_refl eq_refl eq_refl eq_refl)
    as [Hfirst [Hsecond _]].
  eexists. split; [exact Hfirst | ]. rewrite Hsecond. reflexivity.
Defined.

End ResendFacts.

(** ** A session with chunks that never arrived (lines 102-122 and 171) *)

Module GapFacts.
Import Upload JS Session ReassemblyFacts.

Lemma blank_length m : List.length (blank m) = List.length (snd m).
Proof. unfold blank. destruct (fst m); [reflexivity | apply repeat_length]. Qed.

Lemma blanked_length marked :
  List.length (List.concat (map blank marked)) = List.length (List.concat (map snd marked)).
Proof.
  induction marked as [ | m marked IH]; simpl; [reflexivity | ].
  rewrite !length_app, blank_length, IH. reflexivity.
Qed.

Lemma blanked_nonempty marked :
  Forall (fun m => snd m <> []) marked -> Forall (fun p => p <> []) (map blank marked).
Proof.
  induction 1 as [ | m marked Hm _ IH]; simpl; constructor; [ | exact IH].
  intros H. apply Hm. apply length_zero_iff_nil.
  rewrite <- blank_length, H. reflexivity.
Qed.

(** A piece that was sent is a piece of the blanked sequence. *)
Lemma sent_in_pieces marked : forall off c,
  In c (sent_from off marked) -> In c (pieces_from off (map blank marked)).
Proof.
  induction marked as [ | [sent p] marked IH]; intros off c H; simpl in *; [contradiction | ].
  rewrite blank_length. simpl.
  apply in_app_or in H. destruct H as [H | H].
  - destruct sent; [ | contradiction]. destruct H as [<- | []]. left. reflexivity.
  - right. apply IH. exact H.
Qed.

(** A piece of the blanked sequence was sent, or it holds zero bytes only. *)
Lemma pieces_sent_or_blank marked : forall off c,
  In c (pieces_from off (map blank marked)) ->
  In c (sent_from off marked) \/ forall j, nth j (snd c) Byte.x00 = Byte.x00.
Proof.
  induction marked as [ | [sent p] marked IH]; intros off c H; simpl in *; [contradiction | ].
  rewrite blank_length in H. simpl in H.
  destruct H as [<- | H].
  - destruct sent; simpl.
    + left. left. reflexivity.
    + right. intros j. apply nth_repeat.
  - destruct (IH _ _ H) as [Hs | Hz]; [left | right; exact Hz].
    apply in_or_app. right. exact Hs.
Qed.

Lemma sent_starts_NoDup marked : forall off,
  Forall (fun m => snd m <> []) marked -> NoDup (map fst (sent_from off marked)).
Proof.
  induction marked as [ | [sent p] marked IH]; intros off H; simpl; [constructor | ].
  inversion H as [ | ? ? Hp Hrest]; subst. simpl in Hp.
  destruct sent; simpl; [ | apply IH; exact Hrest].
  constructor; [ | apply IH; exact Hrest].
  intros Hin. apply in_map_iff in Hin. destruct Hin as [c [Hc Hin]].
  apply sent_in_pieces in Hin.
  destruct (pieces_slice _ _ _ Hin) as [Hle _].
  destruct p as [ | b p]; [contradiction | ]. simpl in Hle. lia.
Qed.

(** Lines 103-122 when some pieces of the file were never sent: the array
    keeps its zero bytes where no chunk was copied. *)
Lemma reassemble_with_gaps env identifier marked cs d0 w :
  has_char "_" (template identifier) = false ->
  Forall (fun m => snd m <> []) marked ->
  Permutation cs (sent_from 0 marked) ->
  (forall n, In n (Dir.list_names d0) -> startsWith n (partial_prefix identifier) = false) ->
  tmp w = store_chunks identifier cs d0 ->
  (forall l, Permutation (readdir_order env l) l) ->
  Z.of_nat (List.length (List.concat (map snd marked))) <= max_array_length env ->
  reassemble env identifier
             (Some (Fin (Z.of_nat (List.length (List.concat (map snd marked)))))) w
  = (Eff.Next (List.concat (map blank marked)), set_tmp d0 w).
Proof.
  intros Hid Hne Hperm Hd0 Htmp Hord Hmax.
  set (orig := List.concat (map blank marked)).
  assert (Hstarts : NoDup (map fst cs)).
  { apply (Permutation_NoDup (l := map fst (sent_from 0 marked))).
    - apply Permutation_map. symmetry. exact Hperm.
    - apply sent_starts_NoDup. exact Hne. }
  assert (Hgood : Forall (slice_of orig) cs).
  { apply Forall_forall. intros c Hc.
    apply (Permutation_in _ Hperm) in Hc. apply sent_in_pieces in Hc.
    destruct (pieces_slice _ _ _ Hc) as [_ [H2 H3]].
    split; [exact H2 | ]. intros j Hj. rewrite (H3 j Hj). f_equal. lia. }
  rewrite <- blanked_length in *. fold orig in Hmax. fold orig.
  destruct (@reassemble_slices identifier Hid orig d0 Hd0 env cs w
              Hstarts Hgood Htmp Hord Hmax) as [buf' [Hrun [Hlen Hnth]]].
  rewrite Hrun. f_equal. f_equal.
  apply (nth_ext _ _ Byte.x00 Byte.x00); [exact Hlen | ].
  intros i Hi. apply Hnth.
  destruct (@pieces_cover (map blank marked) 0%nat i) as [c [Hc Hr]]; [fold orig; lia | ].
  destruct (pieces_sent_or_blank _ _ _ Hc) as [Hs | Hz].
  - left. exists c. split; [ | exact Hr].
    apply (Permutation_in _ (Permutation_sym Hperm)). exact Hs.
  - right.
    destruct (pieces_slice _ _ _ Hc) as [_ [_ H3]].
    specialize (H3 (i - fst c)%nat ltac:(lia)).
    rewrite Hz in H3. fold orig in H3.
    replace (fst c - 0 + (i - fst c))%nat with i in H3 by lia.
    symmetry. exact H3.
Qed.

(** The handler does not ask whether the chunks of a session cover the file.
    When the request marked as last arrives while other pieces were never
    sent, it is answered with the JSON body all the same; the stored file has
    the declared length, holds the bytes of the pieces that were sent at their
    offsets, and zero bytes in the place of every piece that is missing; and
    the session's chunks are gone from the temporary directory.  The range is
    written with decimal numbers, the identifier holds no underscore and
    makes the chunks' names entries of the temporary directory, the
    directory is listed entry by entry in whatever order, and the declared
    length is a safe integer within what the runtime allocates. *)
Theorem missing_chunks_are_stored_as_zero_bytes
        env cfg req user prm response marked cs d0 w file0 rest s fn mt :
  req_files req = Some (file0 :: rest) ->
  lastchunk req = true ->
  header req "content-range"
    = Some (content_range (Z.of_nat s)
                          (Z.of_nat (s + List.length (buffer file0)) - 1)
                          (Z.of_nat (List.length (List.concat (map snd marked))))) ->
  plain_identifier (header req "x-zipline-partial-identifier") = true ->
  has_char "_" (template (header req "x-zipline-partial-identifier")) = false ->
  Z.of_nat (List.length (List.concat (map snd marked))) <= MAX_SAFE_INTEGER ->
  Z.of_nat (List.length (List.concat (map snd marked))) <= max_array_length env ->
  (forall l, Permutation (readdir_order env l) l) ->
  Forall (fun m => snd m <> []) marked ->
  Permutation (cs ++ [(s, buffer file0)]) (sent_from 0 marked) ->
  (forall n, In n (Dir.list_names d0) ->
             startsWith n (partial_prefix (header req "x-zipline-partial-identifier")) = false) ->
  tmp w = store_chunks (header req "x-zipline-partial-identifier") cs d0 ->
  header req "x-zipline-partial-filename" = Some fn ->
  includes (uploader_disabled_extensions cfg) (extension fn) = false ->
  header req "x-zipline-partial-mimetype" = Some mt ->
  exists body w' created,
    partial_upload env cfg req user prm response w = (Eff.Next (Json body), w')
    /\ files w' = files w ++ [created]
    /\ Dir.read (File.name created) (blobs w') = Some (List.concat (map blank marked))
    /\ List.length (List.concat (map blank marked))
       = List.length (List.concat (map snd marked))
    /\ tmp w' = d0.
Proof.
  intros Hfiles Hlast Hcr _ Hid _ Hmax Hord Hne Hperm Hd0 Htmp Hfn Hx Hmt.
  pose proof (RangeFacts.range_of_header req Hcr (Nat2Z.is_nonneg s)) as Hrange.
  unfold partial_upload. rewrite Hrange, Hfiles, Hlast, Hfn, Hmt.
  unfold Eff.bind at 1. unfold writeFile, Eff.modify.
  set (identifier := header req "x-zipline-partial-identifier") in *.
  set (w1 := set_tmp _ w).
  assert (Htmp1 : tmp w1 = store_chunks identifier (cs ++ [(s, buffer file0)]) d0).
  { unfold w1, store_chunks. rewrite fold_left_app. simpl.
    fold (store_chunks identifier cs d0). rewrite <- Htmp. reflexivity. }
  unfold finish_partial. unfold Eff.bind at 1.
  rewrite (@reassemble_with_gaps env identifier marked _ d0 w1
             Hid Hne Hperm Hd0 Htmp1 Hord Hmax).
  destruct (@SessionFacts.store_partial_next env cfg req user prm response fn mt
              (List.concat (map blank marked)) (set_tmp d0 w1) Hx)
    as [body [w' [created [Hrun [Hf [Hb [Ht Hu]]]]]]].
  exists body, w', created. split; [exact Hrun | ].
  split; [rewrite Hf; reflexivity | ].
  split; [rewrite Hb; apply CompressionFacts.read_write_same | ].
  split; [apply blanked_length | ].
  rewrite Ht. reflexivity.
Qed.

(** Bob's "world", marked last, arrives for the bytes 5-9 of 10 while the
    bytes 0-4 were never sent: five zero bytes and "world" are stored. *)
Lemma missing_chunks_are_stored_as_zero_bytes_witness :
  exists body w' created,
    partial_upload Scenario.env Scenario.cfg (Requests.chunk_world "ab") Scenario.bob
                   (mkParams None (Some RANDOM) None None) Requests.empty_body Scenario.world
      = (Eff.Next (Json body), w')
    /\ files w' = [created]
    /\ Dir.read (File.name created) (blobs w')
       = Some (repeat Byte.x00 5 ++ Scenario.ascii_bytes "world")
    /\ List.length (repeat Byte.x00 5 ++ Scenario.ascii_bytes "world") = 10%nat
    /\ tmp w' = [].
Proof.
  refine (@missing_chunks_are_stored_as_zero_bytes
            Scenario.env Scenario.cfg (Requests.chunk_world "ab") Scenario.bob
            (mkParams None (Some RANDOM) None None) Requests.empty_body
            [(false, Scenario.ascii_bytes "hello"); (true, Scenario.ascii_bytes "world")]
            [] [] Scenario.world _ _ 5%nat "greeting.txt" "text/plain"
            eq_refl eq_refl eq_refl eq_refl eq_refl _ _ _ _ _ _ eq_refl
            eq_refl eq_refl eq_refl).
  - discriminate.
  - discriminate.
  - intros l. apply Permutation_refl.
  - repeat constructor; discriminate.
  - apply Permutation_refl.
  - intros n [].
Defined.

End GapFacts.

(** ** Compression on the partial path (lines 152-171) *)

Module ChunkedStoreFacts.
Import Upload JS UploadFacts.

(** On the partial path the compression percent reaches the name only.  For
    reassembled bytes with a file name of an allowed extension and a
    mimetype: one row is created and the bytes are stored under its name as
    they are; the image library is not called, whatever the percent; the
    row's mimetype is the one the client sent.  Yet when the percent is not
    zero and the mimetype is an image's, the stored name ends in [.jpg]
    instead of the file's own extension. *)
Theorem chunked_file_is_renamed_but_not_compressed
        env cfg req user prm response fn mt chunks w :
  includes (uploader_disabled_extensions cfg) (extension fn) = false ->
  exists body w' created fileName,
    store_partial env cfg req user prm response (Some fn) (Some mt) chunks w
      = (Eff.Next (Json body), w')
    /\ files w' = files w ++ [created]
    /\ File.name created
       = (fileName ++ (if truthy_num (imageCompressionPercent prm) && startsWith mt "image/"
                       then ".jpg" else dot_ext (extension fn)))%string
    /\ File.mimetype created = Some mt
    /\ Dir.read (File.name created) (blobs w') = Some chunks
    /\ sharp_calls w' = sharp_calls w.
Proof.
  intros Hx. unfold store_partial. rewrite Hx.
  unfold Eff.bind at 1.
  destruct (SessionFacts.partial_fileName_next env cfg (format prm) fn w)
    as [fileName [w1 [E1 Q1]]].
  rewrite E1.
  assert (Hc : compression_used (imageCompressionPercent prm) (Some mt)
               = Some (truthy_num (imageCompressionPercent prm) && startsWith mt "image/")).
  { unfold compression_used. destruct (truthy_num _); reflexivity. }
  rewrite Hc.
  unfold Eff.bind at 1. unfold file_create.
  set (row := new_row env _ w1). set (w2 := set_tick _ _).
  unfold Eff.bind at 1.
  destruct (make_invis_next env cfg req row w2) as [invis [w3 [E3 Q3]]]. rewrite E3.
  unfold Eff.bind at 1. unfold datasource_save, Eff.modify.
  set (w4 := set_blobs _ w3).
  unfold Eff.bind at 1.
  destruct (SessionFacts.partial_domain_next env cfg req user w4) as [domain [w5 [E5 Q5]]].
  rewrite E5.
  unfold Eff.bind at 1.
  destruct (notify_next cfg user domain invis row (responseUrl cfg domain invis row) w5)
    as [w6 [E6 Q6]].
  rewrite E6.
  destruct (SessionFacts.partial_strip_gps_next cfg mt row
              (push_file (responseUrl cfg domain invis row) response) w6)
    as [body [w7 [E7 [Q7 _]]]].
  rewrite E7. exists body, w7, row, fileName.
  split; [reflexivity | ].
  pose proof (quiet_trans Q5 (quiet_trans Q6 Q7)) as Q.
  destruct Q as [_ [Qf [Qb [_ [_ Qs]]]]].
  destruct Q3 as [_ [Q3f [Q3b [_ [_ Q3s]]]]].
  destruct Q1 as [_ [Q1f [Q1b [_ [_ Q1s]]]]].
  split; [rewrite Qf; unfold w4; simpl; rewrite Q3f; unfold w2; simpl;
          rewrite Q1f; reflexivity | ].
  split; [reflexivity | ]. split; [reflexivity | ].
  split.
  - rewrite Qb. unfold w4. cbn [blobs set_blobs].
    apply CompressionFacts.read_write_same.
  - rewrite Qs. unfold w4, sharp_calls in *. cbn [events set_blobs].
    rewrite Q3s. unfold w2. cbn [events set_tick set_next_id set_files]. exact Q1s.
Qed.

(** A picture sent in chunks with 50 percent: the row's name ends in .jpg,
    but the stored bytes are the ones that were sent, and the image library
    was not called. *)
Lemma chunked_file_is_renamed_but_not_compressed_witness :
  exists body w' created fileName,
    store_partial Scenario.env Scenario.cfg Requests.bob_percent_50 Scenario.bob
                  Requests.percent_50 Requests.empty_body (Some "cat.png") (Some "image/png")
                  (Scenario.ascii_bytes "0123456789") Scenario.world
      = (Eff.Next (Json body), w')
    /\ files w' = [created]
    /\ File.name created = (fileName ++ ".jpg")%string
    /\ File.mimetype created = Some "image/png"
    /\ Dir.read (File.name created) (blobs w') = Some (Scenario.ascii_bytes "0123456789")
    /\ sharp_calls w' = 0%nat.
Proof.
  destruct (@chunked_file_is_renamed_but_not_compressed
              Scenario.env Scenario.cfg Requests.bob_percent_50 Scenario.bob
              Requests.percent_50 Requests.empty_body "cat.png" "image/png"
              (Scenario.ascii_bytes "0123456789") Scenario.world eq_refl)
    as [body [w' [created [fileName [Hrun [Hf [Hn [Hm [Hb Hs]]]]]]]]].
  exists body, w', created, fileName.
  split; [exact Hrun | ]. split; [exact Hf | ]. split; [exact Hn | ].
  split; [exact Hm | ]. split; [exact Hb | exact Hs].
Defined.

End ChunkedStoreFacts.
